(** * controle_despesas: categories, entries, alerts and the monthly budget

    A shallow embedding of the four model classes of the repository
    ([src/models/categoria.py], [lancamento.py], [alerta.py], [orcamento.py])
    and the properties of the budget aggregation and alert engine.

    Conventions of the embedding:
    - a Python [float] is a binary64 primitive float ([PrimFloat.float]), so the
      arithmetic and the comparisons are the ones the interpreter performs;
    - a Python [str] is the [string] of the bytes of its UTF-8 encoding, which
      gives its equality, order, concatenation and truth value; [str.lower],
      [str.strip], [len] and [list.sort] are the methods of the interpreter
      ([Interpretador]), known through the laws that hold of them;
    - a raised exception is the [Raise] result of [Resultado]; code that mutates
      [self] before or after raising runs in the state monad [Py];
    - [uuid.uuid4()] and [datetime.now()] are read from an explicit supply;
    - a [dict] is a [gmap]; objects are embedded by value (an entry carries the
      current attributes of the category it references). *)

From Stdlib Require Import ZArith String Ascii List Bool Lia Sorted.
From Stdlib Require Import Floats.
From stdpp Require Import gmap strings list pretty.

Local Open Scope string_scope.
Local Open Scope list_scope.
Local Open Scope Z_scope.

(** ** Python primitives *)

Module Py.

(** *** Exceptions and results *)

Inductive Excecao : Type :=
| ValueError (msg : string)
| TypeError (msg : string)
| ZeroDivisionError (msg : string).

Inductive Resultado (A : Type) : Type :=
| Ok (a : A)
| Raise (e : Excecao).
Arguments Ok {A} a.
Arguments Raise {A} e.

Definition bind {A B} (m : Resultado A) (k : A -> Resultado B) : Resultado B :=
  match m with
  | Ok a => k a
  | Raise e => Raise e
  end.

Definition is_ok {A} (m : Resultado A) : bool :=
  match m with Ok _ => true | Raise _ => false end.

(** *** Strings *)

(** [str.isascii]. *)
Fixpoint isascii (s : string) : bool :=
  match s with
  | EmptyString => true
  | String c s' => Nat.ltb (nat_of_ascii c) 128 && isascii s'
  end.

(** What [str.strip] and [str.lower] do on a string of ASCII characters.
    The whitespace of the ASCII range is TAB..CR, FS..US and the space. *)
Definition isspace (c : ascii) : bool :=
  let n := nat_of_ascii c in
  (Nat.leb 9 n && Nat.leb n 13) || (Nat.leb 28 n && Nat.leb n 32).

Fixpoint lstrip_ascii (s : string) : string :=
  match s with
  | EmptyString => EmptyString
  | String c s' => if isspace c then lstrip_ascii s' else s
  end.

Fixpoint rstrip_ascii (s : string) : string :=
  match s with
  | EmptyString => EmptyString
  | String c s' =>
      match rstrip_ascii s' with
      | EmptyString => if isspace c then EmptyString else String c EmptyString
      | r => String c r
      end
  end.

Definition strip_ascii (s : string) : string := rstrip_ascii (lstrip_ascii s).

(** An ASCII character that is not whitespace, and a string that starts and
    ends with one: nothing to strip, whatever is in between. *)
Definition visivel (c : ascii) : bool :=
  Nat.ltb (nat_of_ascii c) 128 && negb (isspace c).

Fixpoint ultimo (c : ascii) (s : string) : ascii :=
  match s with
  | EmptyString => c
  | String c' s' => ultimo c' s'
  end.

Definition bordas_visiveis (s : string) : bool :=
  match s with
  | EmptyString => false
  | String c s' => visivel c && visivel (ultimo c s')
  end.

Definition lower_char (c : ascii) : ascii :=
  let n := nat_of_ascii c in
  if Nat.leb 65 n && Nat.leb n 90 then ascii_of_nat (n + 32) else c.

Fixpoint lower_ascii (s : string) : string :=
  match s with
  | EmptyString => EmptyString
  | String c s' => String (lower_char c) (lower_ascii s')
  end.

(** Truth value of a [str]: the empty string is falsy. *)
Definition truthy (s : string) : bool :=
  match s with EmptyString => false | _ => true end.

(** [x or y] on an optional string: [None] and [""] are both falsy. *)
Definition str_or (x : option string) (y : string) : string :=
  match x with
  | Some s => if truthy s then s else y
  | None => y
  end.

(** *** Floats *)

Definition f0 : float := 0%float.

(** [sum(xs)]: a left fold of [+] (the integer start value [0] behaves as
    [0.0] in every addition and comparison made on the result). *)
Definition sum (xs : list float) : float := fold_left PrimFloat.add xs f0.

(** [x / y] raises [ZeroDivisionError] exactly when [y == 0]. *)
Definition truediv (x y : float) : Resultado float :=
  if PrimFloat.eqb y f0 then Raise (ZeroDivisionError "float division by zero")
  else Ok (PrimFloat.div x y).

Definition round_half_even (n d : Z) : Z :=
  let q := n / d in
  let r := n mod d in
  if 2 * r <? d then q
  else if d <? 2 * r then q + 1
  else if Z.even q then q else q + 1.

Definition two_digits (n : Z) : string :=
  (if n <? 10 then "0" else "") +:+ pretty n.

(** [format(x, ".2f")]: the exact binary value, correctly rounded to two
    decimals (ties to even). *)
Definition fmt_2f (x : float) : string :=
  match Prim2SF x with
  | S754_nan => "nan"
  | S754_infinity s => if s then "-inf" else "inf"
  | S754_zero s => if s then "-0.00" else "0.00"
  | S754_finite s m e =>
      let n := Z.pos m * 100 in
      let c := if 0 <=? e then n * 2 ^ e else round_half_even n (2 ^ (- e)) in
      (if s then "-" else "") +:+ pretty (c / 100) +:+ "." +:+ two_digits (c mod 100)
  end.

(** [format(n, "02d")] and [format(n, "d")] on integers. *)
Definition fmt_02d (n : Z) : string :=
  if (0 <=? n) && (n <? 10) then "0" +:+ pretty n else pretty n.

Definition fmt_d (n : Z) : string := pretty n.

(** *** Lists *)

(** The stable sort that only uses [<], as an insertion sort: what
    [list.sort()] and [sorted()] return when [<] orders the elements. *)
Section Ordenar.
Context {A : Type} (lt : A -> A -> bool).

Fixpoint insert (x : A) (l : list A) : list A :=
  match l with
  | [] => [x]
  | y :: l' => if lt x y then x :: l else y :: insert x l'
  end.

Definition ordenar (l : list A) : list A :=
  fold_left (fun acc x => insert x acc) l [].

(** [<] is a strict weak order on the elements of [l]. *)
Definition ordem_fraca (l : list A) : Prop :=
  (forall x, x ∈ l -> lt x x = false)
  /\ (forall x y z, x ∈ l -> y ∈ l -> z ∈ l ->
         lt x y = true -> lt y z = true -> lt x z = true)
  /\ (forall x y z, x ∈ l -> y ∈ l -> z ∈ l ->
         lt x y = false -> lt y z = false -> lt x z = false).

(** Every answer of [<] on the elements of [l] agrees with [R]. *)
Definition coerente (R : A -> A -> Prop) (l : list A) : Prop :=
  forall x y, x ∈ l -> y ∈ l -> if lt x y then R x y else R y x.
End Ordenar.

(** *** State and exceptions

    A method that mutates [self] and may raise: the state reached when the
    exception leaves the method is part of the outcome. *)
Definition M (S A : Type) : Type := S -> Resultado A * S.

Definition ret {S A} (a : A) : M S A := fun s => (Ok a, s).
Definition raise {S A} (e : Excecao) : M S A := fun s => (Raise e, s).
Definition get {S} : M S S := fun s => (Ok s, s).
Definition modify {S} (f : S -> S) : M S unit := fun s => (Ok tt, f s).
Definition mbind {S A B} (m : M S A) (k : A -> M S B) : M S B :=
  fun s => match m s with
           | (Ok a, s') => k a s'
           | (Raise e, s') => (Raise e, s')
           end.
(** Lifts a pure computation that may raise. *)
Definition lift {S A} (r : Resultado A) : M S A := fun s => (r, s).

(** *** The interpreter

    [str.lower], [str.strip] and [len] read the code points of a string and
    the Unicode tables of the interpreter, and [list.sort] is its merge sort.
    They are taken as they are, through what holds of them in every version.
    On a string of ASCII characters the three string methods are the ASCII
    functions above; a string that starts and ends with a visible ASCII
    character is left as it is by [strip]; stripping twice is stripping once.
    The sort returns a permutation of its argument, which is the stable
    sorted one when [<] is a strict weak order on the elements; and, as it
    only puts an element in front of another on the strength of answers of
    [<], it returns a list sorted by [R] whenever every answer of [<] agrees
    with the transitive relation [R]. *)
Class Interpretador : Type := {
  lower : string -> string;
  strip : string -> string;
  len : string -> nat;
  sort : forall A : Type, (A -> A -> bool) -> list A -> list A;
  lower_isascii : forall s, isascii s = true -> lower s = lower_ascii s;
  strip_isascii : forall s, isascii s = true -> strip s = strip_ascii s;
  len_isascii : forall s, isascii s = true -> len s = String.length s;
  strip_bordas : forall s, bordas_visiveis s = true -> strip s = s;
  strip_strip : forall s, strip (strip s) = strip s;
  sort_permuta : forall (A : Type) (lt : A -> A -> bool) (l : list A), sort A lt l ≡ₚ l;
  sort_estavel : forall (A : Type) (lt : A -> A -> bool) (l : list A),
      ordem_fraca lt l -> sort A lt l = ordenar lt l;
  sort_coerente : forall (A : Type) (lt : A -> A -> bool) (R : A -> A -> Prop) (l : list A),
      (forall x y z, R x y -> R y z -> R x z) -> coerente lt R l -> Sorted R (sort A lt l)
}.
Arguments sort {_} {A} lt l.

End Py.

Import Py.

Declare Scope py_scope.
Delimit Scope py_scope with py.
Notation "'do!' x <- m ; k" := (Py.mbind m (fun x => k))
  (at level 10, x name, m at level 100, k at level 200) : py_scope.
Notation "'run!' m ; k" := (Py.mbind m (fun _ => k))
  (at level 10, m at level 100, k at level 200) : py_scope.
Notation "'try!' x <- m ; k" := (Py.bind m (fun x => k))
  (at level 10, x name, m at level 100, k at level 200).

(** ** Calendar dates ([datetime.date]) *)

Record date : Type := mkDate { year : Z; month : Z; day : Z }.

#[global] Instance date_eq_dec : EqDecision date.
Proof. solve_decision. Defined.

#[global] Instance date_countable : Countable date.
Proof.
  apply (inj_countable' (fun d => (year d, month d, day d))
                        (fun t => mkDate t.1.1 t.1.2 t.2)).
  intros []; reflexivity.
Defined.

Definition date_eqb (a b : date) : bool := bool_decide (a = b).

(** [a < b] on dates: lexicographic on year, month, day. *)
Definition date_ltb (a b : date) : bool :=
  (year a <? year b)
  || ((year a =? year b)
      && ((month a <? month b) || ((month a =? month b) && (day a <? day b)))).

(** An instant ([datetime.datetime]), as a count of microseconds. *)
Definition datetime : Type := Z.

(** What one object creation reads from the environment: the value of
    [uuid.uuid4()] and of [datetime.now()]. *)
Record Carimbo : Type := mkCarimbo { uuid4 : string; now : datetime }.

Section Modelo.
Context `{interp : Interpretador}.

(** ** models/categoria.py *)

Inductive TipoCategoria : Type := RECEITA | DESPESA.

#[global] Instance TipoCategoria_eq_dec : EqDecision TipoCategoria.
Proof. solve_decision. Defined.

Record Categoria : Type := mkCategoria {
  cat_id : string;
  cat_nome : string;
  cat_tipo : TipoCategoria;
  cat_limite_mensal : option float;
  cat_descricao : option string
}.

(** The checks of the [nome] setter; the value stored is the trimmed name. *)
Definition validar_nome (valor : string) : Resultado string :=
  if negb (truthy valor) then
    Raise (ValueError "Nome da categoria é obrigatório e deve ser uma string.")
  else if Nat.ltb (len (strip valor)) 2 then
    Raise (ValueError "Nome da categoria deve ter pelo menos 2 caracteres.")
  else Ok (strip valor).

Definition Categoria_set_nome (self : Categoria) (valor : string) : Resultado Categoria :=
  try! n <- validar_nome valor;
  Ok (mkCategoria (cat_id self) n (cat_tipo self) (cat_limite_mensal self) (cat_descricao self)).

(** The [tipo] setter only checks the class of its argument, which the type
    [TipoCategoria] already guarantees. *)
Definition Categoria_set_tipo (self : Categoria) (valor : TipoCategoria) : Resultado Categoria :=
  Ok (mkCategoria (cat_id self) (cat_nome self) valor (cat_limite_mensal self) (cat_descricao self)).

Definition Categoria_set_limite_mensal (self : Categoria) (valor : option float)
  : Resultado Categoria :=
  match valor with
  | Some v =>
      if bool_decide (cat_tipo self = RECEITA) then
        Raise (ValueError "Categorias de receita não podem ter limite de gastos.")
      else if PrimFloat.leb v f0 then
        Raise (ValueError "Limite mensal deve ser maior que zero.")
      else Ok (mkCategoria (cat_id self) (cat_nome self) (cat_tipo self) (Some v) (cat_descricao self))
  | None =>
      Ok (mkCategoria (cat_id self) (cat_nome self) (cat_tipo self) None (cat_descricao self))
  end.

Definition Categoria_set_descricao (self : Categoria) (valor : option string)
  : Resultado Categoria :=
  let d := match valor with
           | Some s => if truthy s then Some (strip s) else None
           | None => None
           end in
  Ok (mkCategoria (cat_id self) (cat_nome self) (cat_tipo self) (cat_limite_mensal self) d).

(** [Categoria.__init__]: the description is stored as given, then the name,
    the kind and the limit go through their setters, in this order. *)
Definition Categoria_init (nome : string) (tipo : TipoCategoria)
    (limite_mensal : option float) (descricao : option string)
    (id : option string) (env : Carimbo) : Resultado Categoria :=
  try! n <- validar_nome nome;
  try! self <- Categoria_set_tipo
                 (mkCategoria (str_or id (uuid4 env)) n tipo None descricao) tipo;
  Categoria_set_limite_mensal self limite_mensal.

(** [Categoria.__eq__]: same lower-cased name and same kind. *)
Definition Categoria_eq (self other : Categoria) : bool :=
  String.eqb (lower (cat_nome self)) (lower (cat_nome other))
  && bool_decide (cat_tipo self = cat_tipo other).

(** [Categoria.__hash__], for the interpreter's string hash [hash_str]. *)
Definition Categoria_hash (hash_str : string -> Z) (self : Categoria) : Z :=
  hash_str (cat_id self).

(** ** models/lancamento.py *)

Inductive FormaPagamento : Type := DINHEIRO | DEBITO | CREDITO | PIX.

(** The attributes every [Lancamento] has. *)
Record Campos : Type := mkCampos {
  lanc_id : string;
  valor : float;
  categoria : Categoria;
  data : date;
  descricao : string;
  forma_pagamento : FormaPagamento
}.

(** A [Despesa] also has the list of its alert tags. *)
Record Despesa : Type := mkDespesa {
  d_campos : Campos;
  d_alertas : list string
}.

(** The two concrete classes; [isinstance] is a [match] on the constructor. *)
Inductive Lancamento : Type :=
| EhReceita (c : Campos)
| EhDespesa (d : Despesa).

Definition campos (l : Lancamento) : Campos :=
  match l with
  | EhReceita c => c
  | EhDespesa d => d_campos d
  end.

Definition eh_receita (l : Lancamento) : bool :=
  match l with EhReceita _ => true | EhDespesa _ => false end.

Definition eh_despesa (l : Lancamento) : bool :=
  match l with EhReceita _ => false | EhDespesa _ => true end.

(** The checks of the [valor] setter. *)
Definition validar_valor (v : float) : Resultado float :=
  if PrimFloat.leb v f0 then
    Raise (ValueError "Valor do lançamento deve ser maior que zero.")
  else Ok v.

(** [Receita._validar_categoria] and [Despesa._validar_categoria]. *)
Definition Receita_validar_categoria (c : Categoria) : Resultado unit :=
  if bool_decide (cat_tipo c <> RECEITA) then
    Raise (ValueError "Receitas devem ter categoria do tipo RECEITA.")
  else Ok tt.

Definition Despesa_validar_categoria (c : Categoria) : Resultado unit :=
  if bool_decide (cat_tipo c <> DESPESA) then
    Raise (ValueError "Despesas devem ter categoria do tipo DESPESA.")
  else Ok tt.

(** The checks of the [descricao] setter; the value stored is trimmed. *)
Definition validar_descricao (s : string) : Resultado string :=
  if negb (truthy s) then Raise (ValueError "Descrição é obrigatória.")
  else Ok (strip s).

(** [Lancamento.__init__], for the category check of the concrete class. *)
Definition Lancamento_init (validar_categoria : Categoria -> Resultado unit)
    (v : float) (c : Categoria) (d : date) (desc : string) (fp : FormaPagamento)
    (id : option string) (env : Carimbo) : Resultado Campos :=
  try! v' <- validar_valor v;
  try! u <- validar_categoria c;
  try! desc' <- validar_descricao desc;
  Ok (mkCampos (str_or id (uuid4 env)) v' c d desc' fp).

Definition Receita_init (v : float) (c : Categoria) (d : date) (desc : string)
    (fp : FormaPagamento) (id : option string) (env : Carimbo) : Resultado Lancamento :=
  try! cs <- Lancamento_init Receita_validar_categoria v c d desc fp id env;
  Ok (EhReceita cs).

Definition LIMITE_ALTO_VALOR : float := 500%float.

(** [Despesa._verificar_alertas]. *)
Definition verificar_alertas (self : Despesa) : Despesa :=
  if PrimFloat.ltb LIMITE_ALTO_VALOR (valor (d_campos self)) then
    mkDespesa (d_campos self) (d_alertas self ++ ["ALTO_VALOR"])
  else self.

Definition Despesa_init (v : float) (c : Categoria) (d : date) (desc : string)
    (fp : FormaPagamento) (id : option string) (env : Carimbo) : Resultado Despesa :=
  try! cs <- Lancamento_init Despesa_validar_categoria v c d desc fp id env;
  Ok (verificar_alertas (mkDespesa cs [])).

(** The [valor] setter, on the common attributes and on a [Despesa]. *)
Definition Campos_set_valor (self : Campos) (v : float) : Resultado Campos :=
  try! v' <- validar_valor v;
  Ok (mkCampos (lanc_id self) v' (categoria self) (data self) (descricao self)
        (forma_pagamento self)).

Definition Despesa_set_valor (self : Despesa) (v : float) : Resultado Despesa :=
  try! cs <- Campos_set_valor (d_campos self) v;
  Ok (mkDespesa cs (d_alertas self)).

(** [x in xs] on a list of strings. *)
Definition str_in (x : string) (xs : list string) : bool :=
  existsb (String.eqb x) xs.

(** [Despesa.verificar_limite_categoria]: the answer and the object after
    the call. *)
Definition verificar_limite_categoria (self : Despesa) (total_categoria_mes : float)
  : bool * Despesa :=
  match cat_limite_mensal (categoria (d_campos self)) with
  | Some limite =>
      if PrimFloat.ltb limite (PrimFloat.add total_categoria_mes (valor (d_campos self))) then
        if negb (str_in "LIMITE_EXCEDIDO" (d_alertas self)) then
          (true, mkDespesa (d_campos self) (d_alertas self ++ ["LIMITE_EXCEDIDO"]))
        else (true, self)
      else (false, self)
  | None => (false, self)
  end.

Definition mes_ano_de (l : Lancamento) : Z * Z :=
  (month (data (campos l)), year (data (campos l))).

(** [Lancamento.__eq__]: same identifier, or same date and same lower-cased
    description. *)
Definition Lancamento_eq (self other : Lancamento) : bool :=
  String.eqb (lanc_id (campos self)) (lanc_id (campos other))
  || (date_eqb (data (campos self)) (data (campos other))
      && String.eqb (lower (descricao (campos self))) (lower (descricao (campos other)))).

(** [Lancamento.__hash__]. *)
Definition Lancamento_hash (hash_str : string -> Z) (self : Lancamento) : Z :=
  hash_str (lanc_id (campos self)).

(** [Lancamento.__lt__]: by date, then by amount. *)
Definition Lancamento_lt (self other : Lancamento) : bool :=
  if date_eqb (data (campos self)) (data (campos other)) then
    PrimFloat.ltb (valor (campos self)) (valor (campos other))
  else date_ltb (data (campos self)) (data (campos other)).

(** [item in lista] on a list of entries: some element equals [item]. *)
Definition lanc_in (item : Lancamento) (lista : list Lancamento) : bool :=
  existsb (fun el => Lancamento_eq el item) lista.

(** Membership in a [set] (or among the keys of a [dict]): an element with the
    same hash that equals [item]. *)
Definition lanc_in_set (hash_str : string -> Z) (item : Lancamento)
    (elems : list Lancamento) : bool :=
  existsb (fun el => (Lancamento_hash hash_str el =? Lancamento_hash hash_str item)
                     && Lancamento_eq el item) elems.

Definition cat_in_set (hash_str : string -> Z) (item : Categoria)
    (elems : list Categoria) : bool :=
  existsb (fun el => (Categoria_hash hash_str el =? Categoria_hash hash_str item)
                     && Categoria_eq el item) elems.

Definition cat_in (item : Categoria) (lista : list Categoria) : bool :=
  existsb (fun el => Categoria_eq el item) lista.

(** ** models/alerta.py *)

Inductive TipoAlerta : Type :=
| ALTO_VALOR | LIMITE_EXCEDIDO | DEFICIT_ORCAMENTARIO | SALDO_NEGATIVO | META_NAO_ATINGIDA.

#[global] Instance TipoAlerta_eq_dec : EqDecision TipoAlerta.
Proof. solve_decision. Defined.

Record Alerta : Type := mkAlerta {
  alerta_id : string;
  alerta_tipo : TipoAlerta;
  mensagem : string;
  data_criacao : datetime;
  lancamento_id : option string;
  categoria_id : option string;
  alerta_mes_ano : option (Z * Z);
  lido : bool
}.

(** [Alerta.__init__]: the message must be non-empty and is stored trimmed. *)
Definition Alerta_init (tipo : TipoAlerta) (msg : string)
    (lancamento_id categoria_id : option string) (mes_ano : option (Z * Z))
    (id : option string) (criacao : option datetime) (lido : bool) (env : Carimbo)
  : Resultado Alerta :=
  if negb (truthy msg) then Raise (ValueError "Mensagem do alerta é obrigatória.")
  else Ok (mkAlerta (str_or id (uuid4 env)) tipo (strip msg)
             (match criacao with Some t => t | None => now env end)
             lancamento_id categoria_id mes_ano lido).

Definition criar_alerta_alto_valor (env : Carimbo) (lancamento_id : string) (v : float)
  : Resultado Alerta :=
  Alerta_init ALTO_VALOR ("Despesa de alto valor registrada: R$" +:+ fmt_2f v)
    (Some lancamento_id) None None None None false env.

Definition criar_alerta_limite_excedido (env : Carimbo) (categoria_id categoria_nome : string)
    (limite total : float) : Resultado Alerta :=
  Alerta_init LIMITE_EXCEDIDO
    ("Limite da categoria '" +:+ categoria_nome +:+ "' excedido! "
     +:+ "Limite: R$" +:+ fmt_2f limite +:+ ", Total: R$" +:+ fmt_2f total)
    None (Some categoria_id) None None None false env.

Definition criar_alerta_deficit (env : Carimbo) (mes ano : Z) (saldo : float)
  : Resultado Alerta :=
  Alerta_init DEFICIT_ORCAMENTARIO
    ("Déficit orçamentário em " +:+ fmt_02d mes +:+ "/" +:+ fmt_d ano +:+ ": R$"
     +:+ fmt_2f (PrimFloat.abs saldo))
    None None (Some (mes, ano)) None None false env.

Definition criar_alerta_saldo_negativo (env : Carimbo) (mes ano : Z) (saldo : float)
  : Resultado Alerta :=
  Alerta_init SALDO_NEGATIVO
    ("Saldo negativo em " +:+ fmt_02d mes +:+ "/" +:+ fmt_d ano +:+ ": R$" +:+ fmt_2f saldo)
    None None (Some (mes, ano)) None None false env.

(** ** models/orcamento.py *)

Record OrcamentoMensal : Type := mkOrcamento {
  orc_id : string;
  mes : Z;
  ano : Z;
  receitas_previstas : float;
  lancamentos : list Lancamento;
  alertas : list Alerta
}.

(** [OrcamentoMensal.__init__]: month, year and planned income go through
    their setters; both lists start empty. *)
Definition OrcamentoMensal_init (m a : Z) (previstas : float) (id : option string)
    (env : Carimbo) : Resultado OrcamentoMensal :=
  if negb ((1 <=? m) && (m <=? 12)) then
    Raise (ValueError "Mês deve ser um inteiro entre 1 e 12.")
  else if (a <? 1900) || (2100 <? a) then
    Raise (ValueError "Ano deve ser um inteiro válido (1900-2100).")
  else if PrimFloat.ltb previstas f0 then
    Raise (ValueError "Receitas previstas não pode ser negativo.")
  else Ok (mkOrcamento (str_or id (uuid4 env)) m a previstas [] []).

Definition mes_ano (self : OrcamentoMensal) : Z * Z := (mes self, ano self).

Definition com_lancamentos (self : OrcamentoMensal) (ls : list Lancamento) : OrcamentoMensal :=
  mkOrcamento (orc_id self) (mes self) (ano self) (receitas_previstas self) ls (alertas self).

Definition com_alertas (self : OrcamentoMensal) (als : list Alerta) : OrcamentoMensal :=
  mkOrcamento (orc_id self) (mes self) (ano self) (receitas_previstas self) (lancamentos self) als.

Definition valores (ls : list Lancamento) : list float :=
  map (fun l => valor (campos l)) ls.

Definition total_receitas (self : OrcamentoMensal) : float :=
  Py.sum (valores (filter (fun l => eh_receita l = true) (lancamentos self))).

Definition total_despesas (self : OrcamentoMensal) : float :=
  Py.sum (valores (filter (fun l => eh_despesa l = true) (lancamentos self))).

Definition saldo (self : OrcamentoMensal) : float :=
  PrimFloat.sub (total_receitas self) (total_despesas self).

Definition saldo_disponivel (self : OrcamentoMensal) : float :=
  PrimFloat.sub (receitas_previstas self) (total_despesas self).

Definition tem_deficit (self : OrcamentoMensal) : bool :=
  PrimFloat.ltb (saldo self) f0.

Definition total_por_categoria (self : OrcamentoMensal) (c : Categoria) : float :=
  Py.sum (valores (filter (fun l => Categoria_eq (categoria (campos l)) c = true)
                          (lancamentos self))).

(** [any(a.tipo == DEFICIT_ORCAMENTARIO and a.mes_ano == self.mes_ano ...)]. *)
Definition eh_deficit_de (ma : Z * Z) (a : Alerta) : bool :=
  bool_decide (alerta_tipo a = DEFICIT_ORCAMENTARIO)
  && bool_decide (alerta_mes_ano a = Some ma).

Definition deficit_existente (self : OrcamentoMensal) : bool :=
  existsb (eh_deficit_de (mes_ano self)) (alertas self).

(** [strftime("%m/%Y")], for a year of four digits. *)
Definition strftime_mY (d : date) : string :=
  fmt_02d (month d) +:+ "/" +:+ fmt_d (year d).

(** [f"{limite:.2f}"] raises on [None]. *)
Definition limite_para_formatar (o : option float) : Resultado float :=
  match o with
  | Some l => Ok l
  | None => Raise (TypeError "unsupported format string passed to NoneType.__format__")
  end.

Local Open Scope py_scope.

(** [OrcamentoMensal.adicionar_lancamento]. The state is [self]; [fresh k] is
    what the [k]-th alert created by the call reads from the environment. The
    entry appended is the object [verificar_limite_categoria] has tagged. *)
Definition adicionar_lancamento (fresh : nat -> Carimbo) (lancamento : Lancamento)
  : Py.M OrcamentoMensal (list Alerta) :=
  do! self <- get;
  if bool_decide (mes_ano_de lancamento <> mes_ano self) then
    raise (ValueError ("Lançamento de " +:+ strftime_mY (data (campos lancamento))
                       +:+ " não pertence ao orçamento de "
                       +:+ fmt_02d (mes self) +:+ "/" +:+ fmt_d (ano self) +:+ "."))
  else if lanc_in lancamento (lancamentos self) then
    raise (ValueError "Lançamento já existe neste orçamento.")
  else
    do! r <- match lancamento with
             | EhDespesa d =>
                 do! gerados <-
                   (if str_in "ALTO_VALOR" (d_alertas d) then
                      do! alerta <- lift (criar_alerta_alto_valor (fresh 0%nat)
                                            (lanc_id (d_campos d)) (valor (d_campos d)));
                      ret [alerta]
                    else ret []);
                 let total_categoria := total_por_categoria self (categoria (d_campos d)) in
                 let '(excedeu, d') := verificar_limite_categoria d total_categoria in
                 if excedeu then
                   do! limite <- lift (limite_para_formatar
                                         (cat_limite_mensal (categoria (d_campos d'))));
                   do! alerta <- lift (criar_alerta_limite_excedido (fresh (length gerados))
                                         (cat_id (categoria (d_campos d')))
                                         (cat_nome (categoria (d_campos d')))
                                         limite
                                         (PrimFloat.add total_categoria (valor (d_campos d'))));
                   ret (EhDespesa d', (gerados ++ [alerta]))
                 else ret (EhDespesa d', gerados)
             | EhReceita _ => ret (lancamento, [])
             end;
    let '(lancamento, alertas_gerados) := r in
    run! modify (fun o => com_lancamentos o
                            (sort Lancamento_lt (lancamentos o ++ [lancamento])));
    run! modify (fun o => com_alertas o (alertas o ++ alertas_gerados));
    do! self <- get;
    if tem_deficit self then
      if negb (deficit_existente self) then
        do! alerta_deficit <- lift (criar_alerta_deficit (fresh (length alertas_gerados))
                                      (mes self) (ano self) (saldo self));
        run! modify (fun o => com_alertas o (alertas o ++ [alerta_deficit]));
        ret (alertas_gerados ++ [alerta_deficit])
      else ret alertas_gerados
    else ret alertas_gerados.

(** [OrcamentoMensal.remover_lancamento]: the first entry with this identifier
    is taken out and returned. *)
Fixpoint remover_de (lancamento_id : string) (ls : list Lancamento)
  : option Lancamento * list Lancamento :=
  match ls with
  | [] => (None, [])
  | l :: ls' =>
      if String.eqb (lanc_id (campos l)) lancamento_id then (Some l, ls')
      else let '(r, ls'') := remover_de lancamento_id ls' in (r, l :: ls'')
  end.

Definition remover_lancamento (lancamento_id : string)
  : Py.M OrcamentoMensal (option Lancamento) :=
  do! self <- get;
  let '(r, ls) := remover_de lancamento_id (lancamentos self) in
  run! modify (fun o => com_lancamentos o ls);
  ret r.

(** [totais[k] += v] on a [defaultdict(float)]. *)
Definition acumular (k : string) (v : float) (totais : gmap string float) : gmap string float :=
  <[k := PrimFloat.add (default f0 (totais !! k)) v]> totais.

Definition despesas_por_categoria (self : OrcamentoMensal) : gmap string float :=
  fold_left (fun totais lanc =>
               if eh_despesa lanc
               then acumular (cat_nome (categoria (campos lanc))) (valor (campos lanc)) totais
               else totais)
            (lancamentos self) ∅.

(** A dict comprehension [{k: f(v) for k, v in m.items()}] whose value
    expression may raise. *)
Definition dict_comp {V W : Type} (f : V -> Resultado W) (m : gmap string V)
  : Resultado (gmap string W) :=
  map_fold (fun k v acc => try! r <- acc; try! w <- f v; Ok (<[k := w]> r)) (Ok ∅) m.

Definition percentual_por_categoria (self : OrcamentoMensal) : Resultado (gmap string float) :=
  let total := total_despesas self in
  if PrimFloat.eqb total f0 then Ok ∅
  else
    let despesas_cat := despesas_por_categoria self in
    dict_comp (fun v => try! q <- truediv v total; Ok (PrimFloat.mul q 100%float))
              despesas_cat.

(** One step of the loop of [saldo_por_dia]. *)
Definition passo_saldo (st : gmap date float * float) (lanc : Lancamento)
  : gmap date float * float :=
  let acumulado :=
    if eh_receita lanc then PrimFloat.add st.2 (valor (campos lanc))
    else PrimFloat.sub st.2 (valor (campos lanc)) in
  (<[data (campos lanc) := acumulado]> st.1, acumulado).

Definition por_data (a b : Lancamento) : bool :=
  date_ltb (data (campos a)) (data (campos b)).

Definition saldo_por_dia (self : OrcamentoMensal) : gmap date float :=
  (fold_left passo_saldo (sort por_data (lancamentos self)) (∅, f0)).1.

Local Close Scope py_scope.

(** ** Notions used to state the properties *)

(** The factory call [r] succeeded and [g] holds the one alert it made. *)
Definition gera (r : Resultado Alerta) (g : list Alerta) : Prop :=
  exists a, r = Ok a /\ g = [a].

(** Number of occurrences of a tag in a tag list. *)
Definition conta_tag (t : string) (tags : list string) : nat :=
  length (filter (fun x => String.eqb t x = true) tags).

(** A category of kind RECEITA carries no monthly limit. *)
Definition invariante_categoria (c : Categoria) : Prop :=
  cat_tipo c = RECEITA -> cat_limite_mensal c = None.

(** Number of deficit alerts of the budget's own month in its log. *)
Definition conta_deficit (self : OrcamentoMensal) : nat :=
  length (filter (fun a => eh_deficit_de (mes_ano self) a = true) (alertas self)).

(** A sequence of calls of [adicionar_lancamento], each with its own
    environment; a call that raises leaves the budget as the exception found
    it and the sequence goes on. *)
Fixpoint adicionar_varios (chamadas : list ((nat -> Carimbo) * Lancamento))
    (self : OrcamentoMensal) : OrcamentoMensal :=
  match chamadas with
  | [] => self
  | (fresh, l) :: resto => adicionar_varios resto (adicionar_lancamento fresh l self).2
  end.

(** The expenses filed under the category name [nome], and their total. *)
Definition despesas_de (nome : string) (self : OrcamentoMensal) : list Lancamento :=
  filter (fun l => eh_despesa l && String.eqb (cat_nome (categoria (campos l))) nome = true)
         (lancamentos self).

Definition total_despesas_de (nome : string) (self : OrcamentoMensal) : float :=
  Py.sum (valores (despesas_de nome self)).

Definition tem_despesa_de (nome : string) (self : OrcamentoMensal) : bool :=
  existsb (fun l => eh_despesa l && String.eqb (cat_nome (categoria (campos l))) nome)
          (lancamentos self).

(** The share of an amount in a total, as [percentual_por_categoria] writes it. *)
Definition percentual (total v : float) : float :=
  PrimFloat.mul (PrimFloat.div v total) 100%float.

(** One step of the replay: income adds, expense subtracts. *)
Definition movimento (ac : float) (l : Lancamento) : float :=
  if eh_receita l then PrimFloat.add ac (valor (campos l))
  else PrimFloat.sub ac (valor (campos l)).

(** The cumulative balance after replaying [ls] from zero. *)
Definition acumulado_apos (ls : list Lancamento) : float := fold_left movimento ls f0.

Definition na_data (d : date) (l : Lancamento) : bool := date_eqb (data (campos l)) d.

(** The prefix of [ls] that ends with the last entry dated [d] (empty when no
    entry has this date). *)
Fixpoint ate_ultimo (d : date) (ls : list Lancamento) : list Lancamento :=
  match ls with
  | [] => []
  | l :: ls' =>
      if existsb (na_data d) ls' then l :: ate_ultimo d ls'
      else if na_data d l then [l] else []
  end.

(** [a] is not dated after [b]. *)
Definition nao_depois (a b : Lancamento) : Prop :=
  date_ltb (data (campos b)) (data (campos a)) = false.

(** What the three policy steps of an accepted expense must produce, by kind. *)
Definition tipos_esperados (alto limite deficit : bool) : list TipoAlerta :=
  (if alto then [ALTO_VALOR] else [])
  ++ (if limite then [LIMITE_EXCEDIDO] else [])
  ++ (if deficit then [DEFICIT_ORCAMENTARIO] else []).

(** ** The scenarios of the test suite *)

Definition carimbo (k : nat) : Carimbo := mkCarimbo ("uuid-" +:+ pretty k) (Z.of_nat k).

Definition cat_food : Categoria :=
  mkCategoria "c-food" "Food" DESPESA (Some 500%float) None.

Definition cat_transport : Categoria :=
  mkCategoria "c-transport" "Transport" DESPESA None None.

Definition cat_salary : Categoria :=
  mkCategoria "c-salary" "Salary" RECEITA None None.

Definition despesa_400 : Despesa :=
  mkDespesa (mkCampos "l-1" 400%float cat_food (mkDate 2024 12 5) "Compra 1" DEBITO) [].

Definition despesa_200 : Despesa :=
  mkDespesa (mkCampos "l-2" 200%float cat_food (mkDate 2024 12 10) "Compra 2" DEBITO) [].

Definition dezembro : OrcamentoMensal :=
  mkOrcamento "o-1" 12 2024 5000%float [] [].


(** An expense dated in another month, and one that repeats date and
    description of [despesa_400] under another identifier and amount. *)
Definition despesa_janeiro : Despesa :=
  mkDespesa (mkCampos "l-3" 50%float cat_food (mkDate 2025 1 5) "Compra 3" PIX) [].

Definition despesa_repetida : Despesa :=
  mkDespesa (mkCampos "l-4" 35%float cat_transport (mkDate 2024 12 5) "COMPRA 1" PIX) [].

(** Expenses Food 300.0 (in two entries) and Transport 100.0, and an income. *)
Definition orcamento_percentual : OrcamentoMensal :=
  mkOrcamento "o-2" 12 2024 0%float
    [ EhDespesa (mkDespesa (mkCampos "p-1" 100%float cat_food (mkDate 2024 12 5)
                              "Supermercado" DEBITO) []);
      EhReceita (mkCampos "p-2" 1000%float cat_salary (mkDate 2024 12 5) "Salario" PIX);
      EhDespesa (mkDespesa (mkCampos "p-3" 100%float cat_transport (mkDate 2024 12 6)
                              "Uber" PIX) []);
      EhDespesa (mkDespesa (mkCampos "p-4" 200%float cat_food (mkDate 2024 12 7)
                              "Feira" DINHEIRO) []) ]
    [].

(** The alerts the two insertions of the limit scenario return. *)
Definition alerta_deficit_dezembro : Alerta :=
  mkAlerta "uuid-0" DEFICIT_ORCAMENTARIO "Déficit orçamentário em 12/2024: R$400.00" 0
    None None (Some (12, 2024)) false.

Definition alerta_limite_food : Alerta :=
  mkAlerta "uuid-0" LIMITE_EXCEDIDO
    "Limite da categoria 'Food' excedido! Limite: R$500.00, Total: R$600.00" 0
    None (Some "c-food") None false.

(** December after the first expense was added. *)
Definition dezembro_1 : OrcamentoMensal :=
  mkOrcamento "o-1" 12 2024 5000%float [EhDespesa despesa_400] [alerta_deficit_dezembro].

(** The outcome of the branch of [adicionar_lancamento] for its argument [l]:
    the entry [l'] that is appended and the alerts [g1] (high value) and [g2]
    (category limit) made before the entry is appended. *)
Definition etapa_despesa (fresh : nat -> Carimbo) (self : OrcamentoMensal)
    (l l' : Lancamento) (g1 g2 : list Alerta) : Prop :=
  match l with
  | EhReceita _ => l' = l /\ g1 = [] /\ g2 = []
  | EhDespesa d =>
      let total := total_por_categoria self (categoria (d_campos d)) in
      l' = EhDespesa (verificar_limite_categoria d total).2
      /\ (if str_in "ALTO_VALOR" (d_alertas d)
          then gera (criar_alerta_alto_valor (fresh 0%nat) (lanc_id (d_campos d))
                       (valor (d_campos d))) g1
          else g1 = [])
      /\ (if (verificar_limite_categoria d total).1
          then exists limite,
                 cat_limite_mensal (categoria (d_campos d)) = Some limite
                 /\ gera (criar_alerta_limite_excedido (fresh (length g1))
                            (cat_id (categoria (d_campos d)))
                            (cat_nome (categoria (d_campos d)))
                            limite
                            (PrimFloat.add total (valor (d_campos d)))) g2
          else g2 = [])
  end.

(** The deficit step on the budget [pos] reached after the entry was appended
    and the [n] alerts made so far were logged. *)
Definition etapa_deficit (fresh : nat -> Carimbo) (pos : OrcamentoMensal) (n : nat)
    (g3 : list Alerta) : Prop :=
  if tem_deficit pos && negb (deficit_existente pos)
  then gera (criar_alerta_deficit (fresh n) (mes pos) (ano pos) (saldo pos)) g3
  else g3 = [].

(** ** The rest of the model classes *)

(** *** models/categoria.py: ordering and serialization *)

(** [Categoria.__lt__]: by lower-cased name ([str.__lt__] is the
    lexicographic order of the characters). *)
Definition Categoria_lt (self other : Categoria) : bool :=
  String.ltb (lower (cat_nome self)) (lower (cat_nome other)).

Definition TipoCategoria_value (t : TipoCategoria) : string :=
  match t with
  | RECEITA => "RECEITA"
  | DESPESA => "DESPESA"
  end.

(** [TipoCategoria(valor)], the lookup of a member by its value; [repr] is the
    interpreter's [repr] on strings, which only the message uses. *)
Definition TipoCategoria_of (repr : string -> string) (valor : string)
  : Resultado TipoCategoria :=
  if String.eqb valor "RECEITA" then Ok RECEITA
  else if String.eqb valor "DESPESA" then Ok DESPESA
  else Raise (ValueError (repr valor +:+ " is not a valid TipoCategoria")).

(** The dictionary [Categoria.to_dict] builds and [Categoria.from_dict]
    reads: the five keys, each with a value of the type [to_dict] writes
    ([None] for a JSON null or, on reading, for a missing optional key). *)
Record CategoriaDict : Type := mkCategoriaDict {
  cd_id : option string;
  cd_nome : string;
  cd_tipo : string;
  cd_limite_mensal : option float;
  cd_descricao : option string
}.

Definition Categoria_to_dict (self : Categoria) : CategoriaDict :=
  mkCategoriaDict (Some (cat_id self)) (cat_nome self) (TipoCategoria_value (cat_tipo self))
    (cat_limite_mensal self) (cat_descricao self).

(** [Categoria.from_dict]: the arguments are evaluated, then the constructor
    runs. *)
Definition Categoria_from_dict (repr : string -> string) (data : CategoriaDict)
    (env : Carimbo) : Resultado Categoria :=
  try! tipo <- TipoCategoria_of repr (cd_tipo data);
  Categoria_init (cd_nome data) tipo (cd_limite_mensal data) (cd_descricao data)
    (cd_id data) env.

(** What the constructor and the setters accept again unchanged: a non-empty
    identifier, a trimmed name of two characters or more, and a limit that is
    absent or is a number not [<= 0] on a category that is not RECEITA. *)
Definition categoria_bem_formada (c : Categoria) : Prop :=
  truthy (cat_id c) = true
  /\ validar_nome (cat_nome c) = Ok (cat_nome c)
  /\ match cat_limite_mensal c with
     | Some v => cat_tipo c <> RECEITA /\ PrimFloat.leb v f0 = false
     | None => True
     end.

(** *** models/lancamento.py: the other setters of a Despesa *)

Definition FormaPagamento_value (fp : FormaPagamento) : string :=
  match fp with
  | DINHEIRO => "DINHEIRO"
  | DEBITO => "DEBITO"
  | CREDITO => "CREDITO"
  | PIX => "PIX"
  end.

#[global] Instance FormaPagamento_eq_dec : EqDecision FormaPagamento.
Proof. solve_decision. Defined.

Definition com_campos (self : Despesa) (cs : Campos) : Despesa :=
  mkDespesa cs (d_alertas self).

(** The [categoria] setter of a Despesa. *)
Definition Despesa_set_categoria (self : Despesa) (c : Categoria) : Resultado Despesa :=
  try! u <- Despesa_validar_categoria c;
  Ok (com_campos self
        (mkCampos (lanc_id (d_campos self)) (valor (d_campos self)) c (data (d_campos self))
           (descricao (d_campos self)) (forma_pagamento (d_campos self)))).

(** The [data] setter: a [date] is stored as it is. *)
Definition Despesa_set_data (self : Despesa) (dt : date) : Resultado Despesa :=
  Ok (com_campos self
        (mkCampos (lanc_id (d_campos self)) (valor (d_campos self))
           (categoria (d_campos self)) dt
           (descricao (d_campos self)) (forma_pagamento (d_campos self)))).

Definition Despesa_set_descricao (self : Despesa) (s : string) : Resultado Despesa :=
  try! s' <- validar_descricao s;
  Ok (com_campos self
        (mkCampos (lanc_id (d_campos self)) (valor (d_campos self))
           (categoria (d_campos self)) (data (d_campos self)) s'
           (forma_pagamento (d_campos self)))).

Definition Despesa_set_forma_pagamento (self : Despesa) (fp : FormaPagamento)
  : Resultado Despesa :=
  Ok (com_campos self
        (mkCampos (lanc_id (d_campos self)) (valor (d_campos self))
           (categoria (d_campos self)) (data (d_campos self))
           (descricao (d_campos self)) fp)).

(** A call of a public mutator of a Despesa. *)
Inductive OpDespesa : Type :=
| DValor (v : float)
| DCategoria (c : Categoria)
| DData (dt : date)
| DDescricao (s : string)
| DFormaPagamento (fp : FormaPagamento)
| DVerificarLimite (total_categoria_mes : float).

(** The object a call leaves: every setter raises before it assigns, so a
    call that raises leaves the object as it found it. *)
Definition depois_de {A} (r : Resultado A) (antes : A) : A :=
  match r with
  | Ok a => a
  | Raise _ => antes
  end.

Definition aplicar_op (self : Despesa) (op : OpDespesa) : Despesa :=
  match op with
  | DValor v => depois_de (Despesa_set_valor self v) self
  | DCategoria c => depois_de (Despesa_set_categoria self c) self
  | DData dt => depois_de (Despesa_set_data self dt) self
  | DDescricao s => depois_de (Despesa_set_descricao self s) self
  | DFormaPagamento fp => depois_de (Despesa_set_forma_pagamento self fp) self
  | DVerificarLimite t => (verificar_limite_categoria self t).2
  end.

Definition aplicar_ops (self : Despesa) (ops : list OpDespesa) : Despesa :=
  fold_left aplicar_op ops self.

(** What a Despesa keeps through its life: its identifier, a tag list without
    repetition that only holds the two tags, a category of kind DESPESA and an
    amount that is not [<= 0]. *)
Definition despesa_integra (id : string) (d : Despesa) : Prop :=
  lanc_id (d_campos d) = id
  /\ NoDup (d_alertas d)
  /\ Forall (fun t => t = "ALTO_VALOR" \/ t = "LIMITE_EXCEDIDO") (d_alertas d)
  /\ cat_tipo (categoria (d_campos d)) = DESPESA
  /\ PrimFloat.leb (valor (d_campos d)) f0 = false.

(** *** models/alerta.py: severity, equality and ordering *)

Definition Alerta_set_lido (self : Alerta) (v : bool) : Alerta :=
  mkAlerta (alerta_id self) (alerta_tipo self) (mensagem self) (data_criacao self)
    (lancamento_id self) (categoria_id self) (alerta_mes_ano self) v.

Definition marcar_como_lido (self : Alerta) : Alerta := Alerta_set_lido self true.

Definition nivel_severidade (self : Alerta) : Z :=
  match alerta_tipo self with
  | ALTO_VALOR => 1
  | META_NAO_ATINGIDA => 2
  | LIMITE_EXCEDIDO => 2
  | SALDO_NEGATIVO => 3
  | DEFICIT_ORCAMENTARIO => 3
  end.

Definition Alerta_eq (self other : Alerta) : bool :=
  String.eqb (alerta_id self) (alerta_id other).

Definition Alerta_hash (hash_str : string -> Z) (self : Alerta) : Z :=
  hash_str (alerta_id self).

(** [Alerta.__lt__]: the more severe first, then the more recent first. *)
Definition Alerta_lt (self other : Alerta) : bool :=
  if negb (nivel_severidade self =? nivel_severidade other) then
    nivel_severidade other <? nivel_severidade self
  else data_criacao other <? data_criacao self.

(** *** models/orcamento.py: setters, lookup, ordering *)

Definition Orcamento_set_mes (self : OrcamentoMensal) (v : Z) : Resultado OrcamentoMensal :=
  if negb ((1 <=? v) && (v <=? 12)) then
    Raise (ValueError "Mês deve ser um inteiro entre 1 e 12.")
  else Ok (mkOrcamento (orc_id self) v (ano self) (receitas_previstas self)
             (lancamentos self) (alertas self)).

Definition Orcamento_set_receitas_previstas (self : OrcamentoMensal) (v : float)
  : Resultado OrcamentoMensal :=
  if PrimFloat.ltb v f0 then
    Raise (ValueError "Receitas previstas não pode ser negativo.")
  else Ok (mkOrcamento (orc_id self) (mes self) (ano self) v
             (lancamentos self) (alertas self)).

(** [OrcamentoMensal.buscar_lancamento]: the first entry with this
    identifier. *)
Definition buscar_lancamento (lancamento_id : string) (self : OrcamentoMensal)
  : option Lancamento :=
  find (fun l => String.eqb (lanc_id (campos l)) lancamento_id) (lancamentos self).

Definition despesas_por_forma_pagamento (self : OrcamentoMensal) : gmap string float :=
  fold_left (fun totais lanc =>
               if eh_despesa lanc
               then acumular (FormaPagamento_value (forma_pagamento (campos lanc)))
                      (valor (campos lanc)) totais
               else totais)
            (lancamentos self) ∅.

Definition Orcamento_eq (self other : OrcamentoMensal) : bool :=
  bool_decide (mes_ano self = mes_ano other).

(** [OrcamentoMensal.__hash__], for the interpreter's hash of a pair. *)
Definition Orcamento_hash (hash_par : Z * Z -> Z) (self : OrcamentoMensal) : Z :=
  hash_par (mes_ano self).

Definition Orcamento_lt (self other : OrcamentoMensal) : bool :=
  if negb (ano self =? ano other) then ano self <? ano other
  else mes self <? mes other.

Definition Orcamento_len (self : OrcamentoMensal) : nat := length (lancamentos self).

Definition Orcamento_contains (self : OrcamentoMensal) (item : Lancamento) : bool :=
  lanc_in item (lancamentos self).

(** The dictionary [OrcamentoMensal.to_dict] builds and [from_dict] reads. *)
Record OrcamentoDict : Type := mkOrcamentoDict {
  od_id : option string;
  od_mes : Z;
  od_ano : Z;
  od_receitas_previstas : float;
  od_lancamentos_ids : list string;
  od_alertas_ids : list string
}.

Definition Orcamento_to_dict (self : OrcamentoMensal) : OrcamentoDict :=
  mkOrcamentoDict (Some (orc_id self)) (mes self) (ano self) (receitas_previstas self)
    (map (fun l => lanc_id (campos l)) (lancamentos self))
    (map alerta_id (alertas self)).

Definition Orcamento_from_dict (data : OrcamentoDict) (env : Carimbo)
  : Resultado OrcamentoMensal :=
  OrcamentoMensal_init (od_mes data) (od_ano data) (od_receitas_previstas data)
    (od_id data) env.

(** A call of one of the two methods that change the entries of a budget. *)
Inductive Operacao : Type :=
| Adicionar (fresh : nat -> Carimbo) (l : Lancamento)
| Remover (lancamento_id : string).

(** The budget a call leaves, whether it returns or raises. *)
Definition executar (self : OrcamentoMensal) (op : Operacao) : OrcamentoMensal :=
  match op with
  | Adicionar fresh l => (adicionar_lancamento fresh l self).2
  | Remover id => (remover_lancamento id self).2
  end.

Definition executar_varias (self : OrcamentoMensal) (ops : list Operacao) : OrcamentoMensal :=
  fold_left executar ops self.

(** Only whitespace. *)
Fixpoint so_espacos (s : string) : bool :=
  match s with
  | EmptyString => true
  | String c s' => isspace c && so_espacos s'
  end.

(** *** persistence/gerenciador_dados.py: the category cache

    The state is the list [self._categorias]. The write of the list to the
    storage that follows a change does not touch the list; it is taken to
    succeed and is not part of the state. *)

Local Open Scope py_scope.

Definition mesmo_nome_e_tipo (nome : string) (tipo : TipoCategoria) (cat : Categoria) : bool :=
  String.eqb (lower (cat_nome cat)) (lower nome) && bool_decide (cat_tipo cat = tipo).

Definition criar_categoria (nome : string) (tipo : TipoCategoria)
    (limite_mensal : option float) (descricao : option string) (env : Carimbo)
  : Py.M (list Categoria) Categoria :=
  do! categorias <- get;
  if existsb (mesmo_nome_e_tipo nome tipo) categorias then
    raise (ValueError ("Categoria '" +:+ nome +:+ "' do tipo "
                       +:+ TipoCategoria_value tipo +:+ " já existe."))
  else
    do! categoria <- lift (Categoria_init nome tipo limite_mensal descricao None env);
    run! modify (fun cs => cs ++ [categoria]);
    ret categoria.

Definition buscar_categoria_por_nome (nome : string) (tipo : TipoCategoria)
    (categorias : list Categoria) : option Categoria :=
  find (mesmo_nome_e_tipo nome tipo) categorias.

Local Close Scope py_scope.

End Modelo.

(** ** The ASCII interpreter

    The ASCII methods and the insertion sort satisfy the laws of the
    interpreter. The scenarios are run with them: their strings are ASCII and
    their amounts are ordered by [<]. *)
Definition interp_ascii : Interpretador.
Proof.
  refine {| lower := lower_ascii; strip := strip_ascii; len := String.length;
            sort := @ordenar |}.
  - reflexivity.
  - reflexivity.
  - reflexivity.
  - assert (Hr : forall s c, isspace (ultimo c s) = false ->
                             rstrip_ascii (String c s) = String c s).
    { induction s as [| c' s IH]; intros c Hc; simpl in *; [now rewrite Hc |].
      specialize (IH c' Hc). simpl in IH. now rewrite IH. }
    intros [| c s] H; [discriminate |]. simpl in H.
    apply andb_true_iff in H as [H1 H2]. unfold visivel in H1, H2.
    apply andb_true_iff in H1 as [_ H1]. apply andb_true_iff in H2 as [_ H2].
    apply negb_true_iff in H1, H2.
    unfold strip_ascii. simpl lstrip_ascii. rewrite H1. now apply Hr.
  - assert (Hr : forall s, rstrip_ascii (rstrip_ascii s) = rstrip_ascii s).
    { induction s as [| c s IH]; simpl; [reflexivity |].
      destruct (rstrip_ascii s) as [| c' r] eqn:E.
      - destruct (isspace c) eqn:Ec; simpl; [reflexivity |]. now rewrite Ec.
      - simpl in *. now rewrite IH. }
    assert (Hl : forall s, match lstrip_ascii s with
                           | EmptyString => True
                           | String c _ => isspace c = false
                           end).
    { induction s as [| c s IH]; simpl; [exact I |].
      destruct (isspace c) eqn:E; [exact IH | exact E]. }
    intros s. unfold strip_ascii. specialize (Hl s).
    destruct (lstrip_ascii s) as [| c t]; [reflexivity |].
    assert (Er : exists r, rstrip_ascii (String c t) = String c r).
    { simpl. destruct (rstrip_ascii t); [rewrite Hl |]; eauto. }
    destruct Er as [r Er]. rewrite Er. simpl lstrip_ascii. rewrite Hl, <- Er. apply Hr.
  - intros A lt l.
    assert (Hi : forall x k, insert lt x k ≡ₚ x :: k).
    { intros x k. induction k as [| y k IH]; simpl; [reflexivity |].
      destruct (lt x y); [reflexivity |]. rewrite IH. apply Permutation_swap. }
    unfold ordenar. induction l as [| x l IH] using rev_ind; [reflexivity |].
    rewrite fold_left_app. simpl. rewrite Hi, IH. apply Permutation_cons_append.
  - reflexivity.
  - intros A lt R l _ Hco.
    assert (Hi : forall x k, insert lt x k ≡ₚ x :: k).
    { intros x k. induction k as [| y k IH]; simpl; [reflexivity |].
      destruct (lt x y); [reflexivity |]. rewrite IH. apply Permutation_swap. }
    assert (Hs : forall x k, (forall y, y ∈ k -> if lt x y then R x y else R y x) ->
                             Sorted R k -> Sorted R (insert lt x k)).
    { intros x k Hx Hk. induction Hk as [| y k Hk IH Hhd]; simpl.
      - repeat constructor.
      - pose proof (Hx y (list_elem_of_here y k)) as Hxy.
        destruct (lt x y) eqn:E.
        + constructor; [now constructor |]. now constructor.
        + constructor.
          * apply IH. intros z Hz. apply Hx. now constructor.
          * destruct k as [| z k]; simpl; [now constructor |].
            destruct (lt x z); constructor; [exact Hxy |]. now inversion Hhd. }
    unfold ordenar.
    assert (Hf : forall k acc, (forall y, y ∈ acc -> y ∈ l) -> (forall y, y ∈ k -> y ∈ l) ->
                               Sorted R acc ->
                               Sorted R (fold_left (fun acc x => insert lt x acc) k acc)).
    { induction k as [| x k IH]; intros acc Ha Hk Hacc; simpl; [exact Hacc |].
      apply IH.
      - intros y Hy. rewrite Hi in Hy. apply elem_of_cons in Hy as [-> | Hy].
        + apply Hk. constructor.
        + now apply Ha.
      - intros y Hy. apply Hk. now constructor.
      - apply Hs; [| exact Hacc]. intros y Hy. apply Hco; [apply Hk; constructor |].
        now apply Ha. }
    apply Hf; [| auto | constructor]. intros y Hy. now apply elem_of_nil in Hy.
Defined.

(** * Properties *)

Section Propriedades.
Context `{interp : Interpretador}.

(** On the ASCII strings of the scenarios the methods of the interpreter are
    the ASCII functions, which compute. *)
Ltac ascii_norm :=
  repeat first [ rewrite strip_isascii by reflexivity
               | rewrite lower_isascii by reflexivity
               | rewrite len_isascii by reflexivity ].

(** ** Floats, strings and tags *)

Lemma prim2sf_zero : Prim2SF f0 = S754_zero false.
Proof. reflexivity. Qed.

(** A float above zero is not [<= 0]: the guard of the amount setter lets
    every positive amount through. *)
Lemma leb_zero_of_pos (v : float) :
  PrimFloat.ltb f0 v = true -> PrimFloat.leb v f0 = false.
Proof.
  rewrite ltb_spec, leb_spec, prim2sf_zero.
  unfold SFltb, SFleb.
  destruct (Prim2SF v) as [s | s | | s m e]; simpl; try destruct s; congruence.
Qed.

Lemma conta_tag_app (t : string) (xs ys : list string) :
  conta_tag t (xs ++ ys) = (conta_tag t xs + conta_tag t ys)%nat.
Proof. unfold conta_tag. now rewrite filter_app, length_app. Qed.

Lemma str_in_false_conta (t : string) (xs : list string) :
  str_in t xs = false -> conta_tag t xs = 0%nat.
Proof.
  unfold str_in, conta_tag. induction xs as [| x xs IH]; simpl; [easy |].
  intros H. apply orb_false_iff in H as [Hx Hxs].
  rewrite filter_cons. destruct (decide (String.eqb t x = true)); [congruence | auto].
Qed.

Lemma str_in_true_conta (t : string) (xs : list string) :
  str_in t xs = true -> (1 <= conta_tag t xs)%nat.
Proof.
  unfold str_in, conta_tag. induction xs as [| x xs IH]; simpl; [easy |].
  intros H. rewrite filter_cons.
  destruct (decide (String.eqb t x = true)) as [E | E]; simpl; [lia |].
  apply orb_true_iff in H as [Hx | Hxs]; [congruence | auto].
Qed.

Lemma str_in_app (t : string) (xs ys : list string) :
  str_in t (xs ++ ys) = str_in t xs || str_in t ys.
Proof. unfold str_in. apply existsb_app. Qed.

(** ** Despesa: the category limit check *)

Lemma verificar_limite_categoria_resposta (d : Despesa) (total : float) :
  (verificar_limite_categoria d total).1 =
  match cat_limite_mensal (categoria (d_campos d)) with
  | Some limite => PrimFloat.ltb limite (PrimFloat.add total (valor (d_campos d)))
  | None => false
  end.
Proof.
  unfold verificar_limite_categoria.
  destruct (cat_limite_mensal _); [| reflexivity].
  destruct (PrimFloat.ltb _ _); [| reflexivity].
  now destruct (negb _).
Qed.

Lemma verificar_limite_categoria_campos (d : Despesa) (total : float) :
  d_campos (verificar_limite_categoria d total).2 = d_campos d.
Proof.
  unfold verificar_limite_categoria.
  destruct (cat_limite_mensal _); [| reflexivity].
  destruct (PrimFloat.ltb _ _); [| reflexivity].
  now destruct (negb _).
Qed.

Lemma verificar_limite_categoria_tags (d : Despesa) (total : float) :
  d_alertas (verificar_limite_categoria d total).2 =
  if (verificar_limite_categoria d total).1 && negb (str_in "LIMITE_EXCEDIDO" (d_alertas d))
  then d_alertas d ++ ["LIMITE_EXCEDIDO"] else d_alertas d.
Proof.
  unfold verificar_limite_categoria.
  destruct (cat_limite_mensal _); [| reflexivity].
  destruct (PrimFloat.ltb _ _); [| reflexivity].
  now destruct (negb _).
Qed.

Lemma verificar_limite_categoria_idem (d : Despesa) (total : float) :
  verificar_limite_categoria (verificar_limite_categoria d total).2 total
  = verificar_limite_categoria d total.
Proof.
  unfold verificar_limite_categoria. destruct d as [cs tags]. simpl.
  destruct (cat_limite_mensal (categoria cs)) as [limite |] eqn:El; simpl;
    [| now rewrite El].
  destruct (PrimFloat.ltb limite _) eqn:Elt; simpl; [| now rewrite El, Elt].
  destruct (str_in "LIMITE_EXCEDIDO" tags) eqn:Ein; simpl.
  - now rewrite El, Elt, Ein.
  - rewrite El, Elt, str_in_app. simpl. now rewrite orb_true_r.
Qed.

(** C4. [verificar_limite_categoria] answers true exactly when the category
    has a limit and the amount already spent plus this expense's amount is
    above it, and false whenever there is no limit. It only touches the tag
    list: a false answer changes nothing, a true answer appends
    "LIMITE_EXCEDIDO" unless the tag is already there. A second call with the
    same argument gives the same answer and changes nothing more, so an
    expense that carried the tag at most once carries it exactly once after
    two calls that answer true. *)
Theorem verificar_limite_categoria_correto (d : Despesa) (total : float) :
  let r1 := verificar_limite_categoria d total in
  let r2 := verificar_limite_categoria r1.2 total in
  (r1.1 = true <->
     exists limite, cat_limite_mensal (categoria (d_campos d)) = Some limite
                    /\ PrimFloat.ltb limite (PrimFloat.add total (valor (d_campos d))) = true)
  /\ (cat_limite_mensal (categoria (d_campos d)) = None -> r1.1 = false)
  /\ d_campos r1.2 = d_campos d
  /\ (r1.1 = false -> r1.2 = d)
  /\ (r1.1 = true ->
        d_alertas r1.2 = (if str_in "LIMITE_EXCEDIDO" (d_alertas d) then d_alertas d
                          else d_alertas d ++ ["LIMITE_EXCEDIDO"])
        /\ conta_tag "LIMITE_EXCEDIDO" (d_alertas r1.2)
           = Nat.max 1 (conta_tag "LIMITE_EXCEDIDO" (d_alertas d)))
  /\ r2 = r1
  /\ ((conta_tag "LIMITE_EXCEDIDO" (d_alertas d) <= 1)%nat -> r1.1 = true ->
        conta_tag "LIMITE_EXCEDIDO" (d_alertas r2.2) = 1%nat).
Proof.
  cbv zeta.
  assert (Htags : (verificar_limite_categoria d total).1 = true ->
            d_alertas (verificar_limite_categoria d total).2
            = (if str_in "LIMITE_EXCEDIDO" (d_alertas d) then d_alertas d
               else d_alertas d ++ ["LIMITE_EXCEDIDO"])
            /\ conta_tag "LIMITE_EXCEDIDO" (d_alertas (verificar_limite_categoria d total).2)
               = Nat.max 1 (conta_tag "LIMITE_EXCEDIDO" (d_alertas d))).
  { intros Hr. rewrite verificar_limite_categoria_tags, Hr. simpl.
    destruct (str_in "LIMITE_EXCEDIDO" (d_alertas d)) eqn:Ein; simpl; split; try reflexivity.
    - apply str_in_true_conta in Ein. lia.
    - rewrite conta_tag_app, (str_in_false_conta _ _ Ein). reflexivity. }
  repeat split.
  - rewrite verificar_limite_categoria_resposta.
    destruct (cat_limite_mensal _) as [limite |]; [eauto | discriminate].
  - intros (limite & El & Hlt). now rewrite verificar_limite_categoria_resposta, El.
  - intros El. now rewrite verificar_limite_categoria_resposta, El.
  - apply verificar_limite_categoria_campos.
  - intros Hr. destruct d as [cs tags].
    pose proof (verificar_limite_categoria_campos (mkDespesa cs tags) total) as Hc.
    pose proof (verificar_limite_categoria_tags (mkDespesa cs tags) total) as Ht.
    rewrite Hr in Ht. simpl in *.
    destruct (verificar_limite_categoria (mkDespesa cs tags) total) as [b [cs' tags']].
    simpl in *. congruence.
  - now apply Htags.
  - now apply Htags.
  - apply verificar_limite_categoria_idem.
  - intros Hle Hr. rewrite verificar_limite_categoria_idem.
    destruct (Htags Hr) as [_ ->]. lia.
Qed.

(** An expense leaves its constructor without the tag, so the count the check
    starts from is zero. *)
Lemma Despesa_init_sem_limite_excedido v c dt desc fp id env d :
  Despesa_init v c dt desc fp id env = Ok d ->
  conta_tag "LIMITE_EXCEDIDO" (d_alertas d) = 0%nat.
Proof.
  unfold Despesa_init.
  destruct (Lancamento_init Despesa_validar_categoria v c dt desc fp id env) as [cs | e];
    simpl; [| discriminate].
  intros [= <-]. unfold verificar_alertas. simpl.
  destruct (PrimFloat.ltb LIMITE_ALTO_VALOR (valor cs)); reflexivity.
Qed.

(** ** Despesa: the high-value tag *)

Lemma validar_valor_ok (v : float) :
  PrimFloat.ltb f0 v = true -> validar_valor v = Ok v.
Proof. intros H. unfold validar_valor. now rewrite (leb_zero_of_pos v H). Qed.

Lemma Lancamento_init_valor validar v c dt desc fp id env cs :
  Lancamento_init validar v c dt desc fp id env = Ok cs -> valor cs = v.
Proof.
  unfold Lancamento_init, validar_valor, validar_descricao.
  destruct (PrimFloat.leb v f0); simpl; [discriminate |].
  destruct (validar c); simpl; [| discriminate].
  destruct (negb (truthy desc)); simpl; [discriminate |].
  now intros [= <-].
Qed.

(** The amount setter of an expense stores the amount and keeps the tags. *)
Lemma Despesa_set_valor_ok (d : Despesa) (v : float) :
  PrimFloat.ltb f0 v = true ->
  Despesa_set_valor d v
  = Ok (mkDespesa (mkCampos (lanc_id (d_campos d)) v (categoria (d_campos d))
                     (data (d_campos d)) (descricao (d_campos d))
                     (forma_pagamento (d_campos d)))
                  (d_alertas d)).
Proof.
  intros H. unfold Despesa_set_valor, Campos_set_valor.
  now rewrite (validar_valor_ok v H).
Qed.

Lemma Despesa_set_valor_alertas (d d' : Despesa) (v : float) :
  Despesa_set_valor d v = Ok d' ->
  valor (d_campos d') = v /\ d_alertas d' = d_alertas d.
Proof.
  unfold Despesa_set_valor, Campos_set_valor, validar_valor.
  destruct (PrimFloat.leb v f0); simpl; [discriminate |].
  intros [= <-]. now split.
Qed.

(** C9. An expense built with amount [v] holds [v] and carries the
    "ALTO_VALOR" tag exactly when [v] is above 500.0. The amount setter accepts
    every positive amount [v'], stores it and leaves the tag list as it was: the
    tag still tells whether the construction amount was above 500.0, whatever
    [v'] is. *)
Theorem alto_valor_so_na_construcao (v : float) (c : Categoria) (dt : date) (desc : string)
    (fp : FormaPagamento) (id : option string) (env : Carimbo) (d : Despesa) :
  Despesa_init v c dt desc fp id env = Ok d ->
  valor (d_campos d) = v
  /\ (str_in "ALTO_VALOR" (d_alertas d) = true <-> PrimFloat.ltb 500%float v = true)
  /\ forall v' : float, PrimFloat.ltb f0 v' = true ->
       exists d', Despesa_set_valor d v' = Ok d'
                  /\ valor (d_campos d') = v'
                  /\ d_alertas d' = d_alertas d
                  /\ (str_in "ALTO_VALOR" (d_alertas d') = true
                      <-> PrimFloat.ltb 500%float v = true).
Proof.
  unfold Despesa_init. intros H.
  destruct (Lancamento_init Despesa_validar_categoria v c dt desc fp id env) as [cs | e] eqn:E;
    simpl in H; [| discriminate].
  injection H as <-.
  pose proof (Lancamento_init_valor _ _ _ _ _ _ _ _ _ E) as Hv.
  assert (Htag : str_in "ALTO_VALOR" (d_alertas (verificar_alertas (mkDespesa cs [])))
                 = PrimFloat.ltb 500%float v).
  { unfold verificar_alertas, LIMITE_ALTO_VALOR. simpl. rewrite Hv.
    now destruct (PrimFloat.ltb 500%float v). }
  assert (Hval : valor (d_campos (verificar_alertas (mkDespesa cs []))) = v).
  { unfold verificar_alertas. simpl.
    destruct (PrimFloat.ltb LIMITE_ALTO_VALOR (valor cs)); exact Hv. }
  split; [exact Hval |]. split; [rewrite Htag; reflexivity |].
  intros v' Hpos. eexists. split; [apply Despesa_set_valor_ok; exact Hpos |].
  simpl. split; [reflexivity |]. split; [reflexivity |]. rewrite Htag. reflexivity.
Qed.

(** ** Categoria: kind and limit *)

Lemma Categoria_init_invariante nome tipo limite descr id env c :
  Categoria_init nome tipo limite descr id env = Ok c -> invariante_categoria c.
Proof.
  unfold Categoria_init, Categoria_set_tipo, Categoria_set_limite_mensal, invariante_categoria.
  destruct (validar_nome nome) as [n | e]; simpl; [| discriminate].
  destruct limite as [v |]; simpl.
  - destruct (bool_decide (tipo = RECEITA)) eqn:Et; [discriminate |].
    apply bool_decide_eq_false in Et.
    destruct (PrimFloat.leb v f0); [discriminate |].
    intros [= <-]. simpl. contradiction.
  - now intros [= <-].
Qed.

Lemma Categoria_set_nome_invariante c valor c' :
  invariante_categoria c -> Categoria_set_nome c valor = Ok c' -> invariante_categoria c'.
Proof.
  unfold Categoria_set_nome, invariante_categoria.
  destruct (validar_nome valor); simpl; [| discriminate].
  intros H [= <-]. exact H.
Qed.

Lemma Categoria_set_limite_mensal_invariante c valor c' :
  Categoria_set_limite_mensal c valor = Ok c' -> invariante_categoria c'.
Proof.
  unfold Categoria_set_limite_mensal, invariante_categoria.
  destruct valor as [v |].
  - destruct (bool_decide (cat_tipo c = RECEITA)) eqn:Et; [discriminate |].
    apply bool_decide_eq_false in Et.
    destruct (PrimFloat.leb v f0); [discriminate |].
    intros [= <-]. simpl. contradiction.
  - now intros [= <-].
Qed.

Lemma Categoria_set_descricao_invariante c valor c' :
  invariante_categoria c -> Categoria_set_descricao c valor = Ok c' -> invariante_categoria c'.
Proof. unfold Categoria_set_descricao, invariante_categoria. intros H [= <-]. exact H. Qed.

(** C5. The constructor and the setters of the name, the limit and the
    description keep "a RECEITA category has no limit" (the lemmas above), but
    the [tipo] setter does not look at the limit: a DESPESA category built with
    limit 100.0 becomes, after [tipo = RECEITA] succeeds, a RECEITA category
    that still carries the limit 100.0. *)
Theorem Categoria_set_tipo_quebra_invariante :
  exists c c',
    Categoria_init "Mercado" DESPESA (Some 100%float) None None (carimbo 0) = Ok c
    /\ invariante_categoria c
    /\ Categoria_set_tipo c RECEITA = Ok c'
    /\ cat_tipo c' = RECEITA
    /\ cat_limite_mensal c' = Some 100%float
    /\ ~ invariante_categoria c'.
Proof.
  exists (mkCategoria "uuid-0" "Mercado" DESPESA (Some 100%float) None),
         (mkCategoria "uuid-0" "Mercado" RECEITA (Some 100%float) None).
  split.
  { unfold Categoria_init, validar_nome. simpl. ascii_norm. reflexivity. }
  split; [intros H; discriminate H |].
  split; [reflexivity |]. split; [reflexivity |]. split; [reflexivity |].
  intros H. specialize (H eq_refl). discriminate H.
Qed.

(** ** Equality and hashing *)

Lemma Lancamento_eq_spec (a b : Lancamento) :
  Lancamento_eq a b = true <->
  lanc_id (campos a) = lanc_id (campos b)
  \/ (data (campos a) = data (campos b)
      /\ lower (descricao (campos a)) = lower (descricao (campos b))).
Proof.
  unfold Lancamento_eq, date_eqb.
  rewrite orb_true_iff, andb_true_iff, !String.eqb_eq, bool_decide_eq_true.
  reflexivity.
Qed.

Lemma Lancamento_eq_sym (a b : Lancamento) : Lancamento_eq a b = Lancamento_eq b a.
Proof.
  apply eq_true_iff_eq. rewrite !Lancamento_eq_spec. intuition congruence.
Qed.

Lemma Categoria_eq_spec (a b : Categoria) :
  Categoria_eq a b = true <->
  lower (cat_nome a) = lower (cat_nome b) /\ cat_tipo a = cat_tipo b.
Proof.
  unfold Categoria_eq.
  now rewrite andb_true_iff, String.eqb_eq, bool_decide_eq_true.
Qed.

(** C8. Whatever the string hash is, as soon as it tells two identifiers
    apart there are two categories built by the constructor that are equal
    (same trimmed name up to case, same kind) with different hashes, and two
    entries built by the constructor, with different identifiers, that are
    equal through date and description with different hashes. In both cases
    list membership, which duplicate detection uses, finds the second object
    in a collection holding the first, and hash-based membership does not. *)
Theorem hash_nao_segue_igualdade (hash_str : string -> Z) (i1 i2 : string) :
  hash_str i1 <> hash_str i2 ->
  (exists c1 c2,
      Categoria_init "Food" DESPESA None None None (mkCarimbo i1 0) = Ok c1
      /\ Categoria_init "  FOOD " DESPESA (Some 500%float) None None (mkCarimbo i2 0) = Ok c2
      /\ Categoria_eq c1 c2 = true
      /\ Categoria_hash hash_str c1 <> Categoria_hash hash_str c2
      /\ cat_in c2 [c1] = true
      /\ cat_in_set hash_str c2 [c1] = false)
  /\ (exists l1 l2,
      Receita_init 1000%float cat_salary (mkDate 2024 12 5) "Salario" PIX None (mkCarimbo i1 0)
      = Ok l1
      /\ Receita_init 250%float cat_salary (mkDate 2024 12 5) " SALARIO" DINHEIRO None
           (mkCarimbo i2 0) = Ok l2
      /\ String.eqb (lanc_id (campos l1)) (lanc_id (campos l2)) = false
      /\ Lancamento_eq l1 l2 = true
      /\ Lancamento_hash hash_str l1 <> Lancamento_hash hash_str l2
      /\ lanc_in l2 [l1] = true
      /\ lanc_in_set hash_str l2 [l1] = false).
Proof.
  intros Hh.
  assert (Hi : String.eqb i1 i2 = false).
  { apply String.eqb_neq. intros ->. now apply Hh. }
  apply Z.eqb_neq in Hh as Hb.
  split.
  - exists (mkCategoria i1 "Food" DESPESA None None),
           (mkCategoria i2 "FOOD" DESPESA (Some 500%float) None).
    split; [unfold Categoria_init, validar_nome; simpl; ascii_norm; reflexivity |].
    split; [unfold Categoria_init, validar_nome; simpl; ascii_norm; reflexivity |].
    split; [unfold Categoria_eq; simpl; ascii_norm; reflexivity |].
    split; [exact Hh |].
    split; [unfold cat_in, Categoria_eq; simpl; ascii_norm; reflexivity |].
    unfold cat_in_set, Categoria_hash. simpl. now rewrite Hb.
  - exists (EhReceita (mkCampos i1 1000%float cat_salary (mkDate 2024 12 5) "Salario" PIX)),
           (EhReceita (mkCampos i2 250%float cat_salary (mkDate 2024 12 5) "SALARIO" DINHEIRO)).
    split; [unfold Receita_init, Lancamento_init, validar_descricao; simpl; ascii_norm;
            reflexivity |].
    split; [unfold Receita_init, Lancamento_init, validar_descricao; simpl; ascii_norm;
            reflexivity |].
    split; [exact Hi |].
    split; [unfold Lancamento_eq; simpl; rewrite Hi; ascii_norm; reflexivity |].
    split; [exact Hh |].
    split; [unfold lanc_in, Lancamento_eq; simpl; rewrite Hi; ascii_norm; reflexivity |].
    unfold lanc_in_set, Lancamento_hash. simpl. now rewrite Hb.
Qed.

(** ** Alert factories *)

Lemma criar_alerta_alto_valor_ok (env : Carimbo) (id : string) (v : float) :
  exists a, criar_alerta_alto_valor env id v = Ok a
            /\ alerta_tipo a = ALTO_VALOR /\ lancamento_id a = Some id
            /\ categoria_id a = None /\ alerta_mes_ano a = None.
Proof. eexists. split; [reflexivity |]. simpl. auto. Qed.

Lemma criar_alerta_limite_excedido_ok (env : Carimbo) (cid nome : string) (limite total : float) :
  exists a, criar_alerta_limite_excedido env cid nome limite total = Ok a
            /\ alerta_tipo a = LIMITE_EXCEDIDO /\ lancamento_id a = None
            /\ categoria_id a = Some cid /\ alerta_mes_ano a = None.
Proof. eexists. split; [reflexivity |]. simpl. auto. Qed.

Lemma criar_alerta_deficit_ok (env : Carimbo) (m a : Z) (s : float) :
  exists al, criar_alerta_deficit env m a s = Ok al
             /\ alerta_tipo al = DEFICIT_ORCAMENTARIO /\ lancamento_id al = None
             /\ categoria_id al = None /\ alerta_mes_ano al = Some (m, a).
Proof.
  unfold criar_alerta_deficit, Alerta_init, fmt_02d.
  destruct ((0 <=? m) && (m <? 10)); eexists; (split; [reflexivity |]); simpl; auto.
Qed.

(** ** OrcamentoMensal: adding an entry *)

Ltac abrir_adicionar :=
  unfold adicionar_lancamento, Py.mbind, Py.get, Py.raise, Py.ret, Py.modify, Py.lift.

Ltac caso_em H :=
  match type of H with
  | context [match ?x with _ => _ end] =>
      lazymatch x with
      | context [match _ with _ => _ end] => fail
      | _ => destruct x eqn:?; simpl in H; try discriminate H
      end
  end.

#[local] Arguments verificar_limite_categoria : simpl never.
#[local] Arguments total_por_categoria : simpl never.
#[local] Arguments tem_deficit : simpl never.
#[local] Arguments deficit_existente : simpl never.
#[local] Arguments saldo : simpl never.
#[local] Arguments sort : simpl never.
#[local] Arguments criar_alerta_alto_valor : simpl never.
#[local] Arguments criar_alerta_limite_excedido : simpl never.
#[local] Arguments criar_alerta_deficit : simpl never.
#[local] Arguments str_in : simpl never.
#[local] Arguments lanc_in : simpl never.

Lemma mes_ano_de_igual l self :
  bool_decide (mes_ano_de l <> mes_ano self) = false -> mes_ano_de l = mes_ano self.
Proof.
  intros H. apply bool_decide_eq_false in H.
  destruct (decide (mes_ano_de l = mes_ano self)); [assumption | contradiction].
Qed.

Lemma limite_para_formatar_inv (o : option float) (a : float) :
  limite_para_formatar o = Ok a -> o = Some a.
Proof. destruct o; simpl; congruence. Qed.

Ltac usa_eqs :=
  repeat match goal with
         | H : ?x = _ |- context [?x] => rewrite H
         end.

Lemma adicionar_lancamento_inv fresh l self alerts self' :
  adicionar_lancamento fresh l self = (Ok alerts, self') ->
  mes_ano_de l = mes_ano self
  /\ lanc_in l (lancamentos self) = false
  /\ exists l' g1 g2 g3,
       etapa_despesa fresh self l l' g1 g2
       /\ let pos := mkOrcamento (orc_id self) (mes self) (ano self) (receitas_previstas self)
                       (sort Lancamento_lt (lancamentos self ++ [l']))
                       (alertas self ++ g1 ++ g2) in
          etapa_deficit fresh pos (length (g1 ++ g2)) g3
          /\ alerts = g1 ++ g2 ++ g3
          /\ self' = com_alertas pos (alertas pos ++ g3).
Proof.
  abrir_adicionar. intros H. simpl in H.
  destruct (bool_decide (mes_ano_de l <> mes_ano self)) eqn:Em; [discriminate H |].
  destruct (lanc_in l (lancamentos self)) eqn:Ein; [discriminate H |].
  split; [now apply mes_ano_de_igual |]. split; [reflexivity |].
  destruct l as [c | d]; simpl in H.
  - repeat caso_em H. all: injection H as <- <-.
    all: exists (EhReceita c), [], []; eexists.
    all: (split; [simpl; auto |]); cbv zeta; unfold etapa_deficit.
    all: unfold com_alertas, com_lancamentos in *; simpl in *.
    all: rewrite ?Heqb, ?Heqb0; simpl.
    all: (split; [first [reflexivity | eexists; split; reflexivity] |]).
    all: (split; [reflexivity |]).
    all: unfold com_alertas, com_lancamentos; simpl; rewrite ?app_nil_r; reflexivity.
  - pose proof (verificar_limite_categoria_campos d
                  (total_por_categoria self (categoria (d_campos d)))) as Hc.
    repeat caso_em H. all: simpl in Hc; rewrite ?Hc in *; injection H as <- <-.
    all: exists (EhDespesa d0); do 3 eexists.
    all: (split;
      [ unfold etapa_despesa; cbv zeta; usa_eqs; simpl;
        split; [reflexivity |];
        split; [first [reflexivity | eexists; split; reflexivity] |];
        first [ reflexivity
              | match goal with
                | H : limite_para_formatar _ = Ok ?a |- _ =>
                    exists a; split; [exact (limite_para_formatar_inv _ _ H) |];
                    eexists; split; reflexivity
                end ] |]).
    all: cbv zeta; unfold etapa_deficit.
    all: unfold com_alertas, com_lancamentos in *; simpl in *.
    all: usa_eqs; simpl.
    all: (split; [first [reflexivity | eexists; split; reflexivity] |]).
    all: (split; [reflexivity |]).
    all: rewrite ?app_nil_r; reflexivity.
Qed.

(** What the alerts of each step look like. *)
Lemma gera_alto_valor env id v g :
  gera (criar_alerta_alto_valor env id v) g ->
  exists a, g = [a] /\ criar_alerta_alto_valor env id v = Ok a
            /\ alerta_tipo a = ALTO_VALOR /\ lancamento_id a = Some id
            /\ categoria_id a = None /\ alerta_mes_ano a = None.
Proof.
  intros (a & E & ->). destruct (criar_alerta_alto_valor_ok env id v) as (a' & E' & Hf).
  rewrite E in E'. injection E' as <-. eauto.
Qed.

Lemma gera_limite_excedido env cid nome limite total g :
  gera (criar_alerta_limite_excedido env cid nome limite total) g ->
  exists a, g = [a] /\ criar_alerta_limite_excedido env cid nome limite total = Ok a
            /\ alerta_tipo a = LIMITE_EXCEDIDO /\ lancamento_id a = None
            /\ categoria_id a = Some cid /\ alerta_mes_ano a = None.
Proof.
  intros (a & E & ->).
  destruct (criar_alerta_limite_excedido_ok env cid nome limite total) as (a' & E' & Hf).
  rewrite E in E'. injection E' as <-. eauto.
Qed.

Lemma gera_deficit env m y s g :
  gera (criar_alerta_deficit env m y s) g ->
  exists a, g = [a] /\ criar_alerta_deficit env m y s = Ok a
            /\ alerta_tipo a = DEFICIT_ORCAMENTARIO /\ lancamento_id a = None
            /\ categoria_id a = None /\ alerta_mes_ano a = Some (m, y).
Proof.
  intros (a & E & ->). destruct (criar_alerta_deficit_ok env m y s) as (a' & E' & Hf).
  rewrite E in E'. injection E' as <-. eauto.
Qed.

(** The kinds of the alerts of the expense branch, and the log they leave. *)
Lemma etapa_despesa_tipos fresh self l l' g1 g2 :
  etapa_despesa fresh self l l' g1 g2 ->
  Forall (fun a => alerta_tipo a = ALTO_VALOR) g1
  /\ Forall (fun a => alerta_tipo a = LIMITE_EXCEDIDO) g2.
Proof.
  unfold etapa_despesa. destruct l as [c | d].
  - intros (_ & -> & ->). split; constructor.
  - cbv zeta. intros (_ & H1 & H2). split.
    + destruct (str_in "ALTO_VALOR" (d_alertas d)).
      * apply gera_alto_valor in H1 as (a & -> & _ & Ht & _). repeat constructor. exact Ht.
      * subst. constructor.
    + destruct (verificar_limite_categoria d _).1.
      * destruct H2 as (limite & _ & H2).
        apply gera_limite_excedido in H2 as (a & -> & _ & Ht & _).
        repeat constructor. exact Ht.
      * subst. constructor.
Qed.

Lemma eh_deficit_de_tipo ma a : eh_deficit_de ma a = true -> alerta_tipo a = DEFICIT_ORCAMENTARIO.
Proof.
  unfold eh_deficit_de. intros H. apply andb_true_iff in H as [H _].
  now apply bool_decide_eq_true in H.
Qed.

Lemma sem_deficit_filter ma (g : list Alerta) :
  Forall (fun a => alerta_tipo a <> DEFICIT_ORCAMENTARIO) g ->
  filter (fun a => eh_deficit_de ma a = true) g = [] /\ existsb (eh_deficit_de ma) g = false.
Proof.
  induction 1 as [| a g Ha _ [IH1 IH2]]; [split; reflexivity |].
  assert (E : eh_deficit_de ma a = false).
  { destruct (eh_deficit_de ma a) eqn:E; [| reflexivity].
    apply eh_deficit_de_tipo in E. contradiction. }
  split.
  - rewrite filter_cons. destruct (decide (eh_deficit_de ma a = true)); [congruence | exact IH1].
  - simpl. now rewrite E, IH2.
Qed.

Lemma etapa_despesa_sem_deficit fresh self l l' g1 g2 :
  etapa_despesa fresh self l l' g1 g2 ->
  Forall (fun a => alerta_tipo a <> DEFICIT_ORCAMENTARIO) (g1 ++ g2).
Proof.
  intros H. apply etapa_despesa_tipos in H as [H1 H2].
  apply Forall_app. split; eapply Forall_impl; eauto; simpl; intros a ->; discriminate.
Qed.

Lemma existsb_filter_vazio {A} (f : A -> bool) (xs : list A) :
  existsb f xs = false <-> filter (fun a => f a = true) xs = [].
Proof.
  induction xs as [| x xs IH]; simpl; [easy |].
  rewrite filter_cons, orb_false_iff.
  destruct (decide (f x = true)) as [E | E].
  - rewrite E. split; [intros [? _]; discriminate | discriminate].
  - apply not_true_is_false in E. rewrite E, IH. tauto.
Qed.

(** A call either raises at one of its two guards, before any change, or is
    accepted: nothing else in the method can raise. *)
Lemma adicionar_lancamento_casos fresh l self :
  (exists msg, adicionar_lancamento fresh l self = (Raise (ValueError msg), self)
               /\ (mes_ano_de l <> mes_ano self \/ lanc_in l (lancamentos self) = true))
  \/ (exists alerts self', adicionar_lancamento fresh l self = (Ok alerts, self')
                           /\ mes_ano_de l = mes_ano self
                           /\ lanc_in l (lancamentos self) = false).
Proof.
  abrir_adicionar. simpl.
  destruct (bool_decide (mes_ano_de l <> mes_ano self)) eqn:Em.
  { left. eexists. split; [reflexivity |]. left. now apply bool_decide_eq_true in Em. }
  destruct (lanc_in l (lancamentos self)) eqn:Ein.
  { left. eexists. split; [reflexivity |]. now right. }
  right. apply mes_ano_de_igual in Em.
  destruct l as [c | d]; simpl.
  - destruct (tem_deficit _); [destruct (negb _) |]; simpl; eauto.
  - pose proof (verificar_limite_categoria_resposta d
                  (total_por_categoria self (categoria (d_campos d)))) as Hr.
    pose proof (verificar_limite_categoria_campos d
                  (total_por_categoria self (categoria (d_campos d)))) as Hc.
    destruct (verificar_limite_categoria d _) as [exc d'].
    simpl in Hr, Hc. rewrite Hc.
    destruct (str_in "ALTO_VALOR" (d_alertas d)); simpl;
      (destruct exc;
       [ destruct (cat_limite_mensal (categoria (d_campos d))); [| discriminate Hr] |]);
      simpl; (destruct (tem_deficit _); [destruct (negb _) |]); simpl; eauto.
Qed.

(** C2. An entry of another month-year, or one equal to an entry already
    held (same identifier, or same date and same description up to case),
    makes [adicionar_lancamento] raise a ValueError, and the budget the
    exception leaves behind (entries and alert log included) is the budget the
    call found. *)
Theorem adicionar_lancamento_rejeita (fresh : nat -> Carimbo) (self : OrcamentoMensal)
    (l : Lancamento) :
  mes_ano_de l <> mes_ano self
  \/ (exists e, e ∈ lancamentos self
                /\ (lanc_id (campos e) = lanc_id (campos l)
                    \/ (data (campos e) = data (campos l)
                        /\ lower (descricao (campos e)) = lower (descricao (campos l))))) ->
  exists msg, adicionar_lancamento fresh l self = (Raise (ValueError msg), self).
Proof.
  intros H.
  destruct (adicionar_lancamento_casos fresh l self)
    as [(msg & E & _) | (alerts & self' & _ & Hm & Hin)]; [eauto |].
  exfalso. destruct H as [H | (e & He & Heq)]; [contradiction |].
  apply Lancamento_eq_spec in Heq.
  assert (lanc_in l (lancamentos self) = true); [| congruence].
  unfold lanc_in. apply existsb_exists. exists e. split; [| exact Heq].
  now apply list_elem_of_In.
Qed.

Lemma adicionar_lancamento_aceita fresh self l :
  mes_ano_de l = mes_ano self -> lanc_in l (lancamentos self) = false ->
  exists alerts self', adicionar_lancamento fresh l self = (Ok alerts, self').
Proof.
  intros Hm Hin.
  destruct (adicionar_lancamento_casos fresh l self)
    as [(msg & _ & [H | H]) | (alerts & self' & E & _)]; [contradiction | congruence | eauto].
Qed.

(** ** OrcamentoMensal: at most one deficit alert *)

Lemma conta_deficit_passo fresh l self :
  (conta_deficit self <= 1)%nat ->
  (conta_deficit (adicionar_lancamento fresh l self).2 <= 1)%nat.
Proof.
  intros Hinv.
  destruct (adicionar_lancamento_casos fresh l self)
    as [(msg & E & _) | (alerts & self' & E & _)]; rewrite E; simpl; [exact Hinv |].
  apply adicionar_lancamento_inv in E
    as (_ & _ & l' & g1 & g2 & g3 & Hd & Hdef & -> & ->).
  pose proof (etapa_despesa_sem_deficit _ _ _ _ _ _ Hd) as Hnd.
  destruct (sem_deficit_filter (mes_ano self) _ Hnd) as [Hf He].
  unfold conta_deficit in *. unfold etapa_deficit in Hdef.
  unfold com_alertas, mes_ano in *. simpl in *.
  rewrite !filter_app, !length_app.
  rewrite filter_app in Hf. apply app_eq_nil in Hf as [-> ->]. simpl.
  destruct (tem_deficit _ && negb (deficit_existente _)) eqn:Ec.
  - apply andb_true_iff in Ec as [_ Ec]. apply negb_true_iff in Ec.
    unfold deficit_existente, mes_ano in Ec. simpl in Ec.
    rewrite existsb_app in Ec. apply orb_false_iff in Ec as [Ec _].
    apply existsb_filter_vazio in Ec. rewrite Ec.
    destruct Hdef as (a & _ & ->). rewrite filter_cons.
    destruct (decide _); simpl; lia.
  - subst g3. rewrite filter_nil. simpl. lia.
Qed.

Lemma conta_deficit_varios chamadas self :
  (conta_deficit self <= 1)%nat ->
  (conta_deficit (adicionar_varios chamadas self) <= 1)%nat.
Proof.
  revert self. induction chamadas as [| [fresh l] resto IH]; intros self Hinv; simpl.
  - exact Hinv.
  - apply IH, conta_deficit_passo, Hinv.
Qed.

(** C3. A budget starts with an empty log, and no sequence of calls of
    [adicionar_lancamento], accepted or refused, ever leaves more than one
    DEFICIT_ORCAMENTARIO alert of the budget's own month-year in the log. *)
Theorem no_maximo_um_alerta_deficit (m a : Z) (previstas : float) (id : option string)
    (env : Carimbo) (self : OrcamentoMensal)
    (chamadas : list ((nat -> Carimbo) * Lancamento)) :
  OrcamentoMensal_init m a previstas id env = Ok self ->
  (conta_deficit (adicionar_varios chamadas self) <= 1)%nat.
Proof.
  intros H. apply conta_deficit_varios.
  unfold OrcamentoMensal_init in H.
  destruct (negb _); [discriminate |].
  destruct (_ || _); [discriminate |].
  destruct (PrimFloat.ltb _ _); [discriminate |].
  injection H as <-. unfold conta_deficit. simpl. lia.
Qed.

(** ** OrcamentoMensal: the alerts of an accepted expense *)

Lemma deficit_existente_pos fresh self l l' g1 g2 :
  etapa_despesa fresh self l l' g1 g2 ->
  deficit_existente
    (mkOrcamento (orc_id self) (mes self) (ano self) (receitas_previstas self)
       (sort Lancamento_lt (lancamentos self ++ [l'])) (alertas self ++ g1 ++ g2))
  = deficit_existente self.
Proof.
  intros H. apply etapa_despesa_sem_deficit in H.
  destruct (sem_deficit_filter (mes_ano self) _ H) as [_ He].
  unfold deficit_existente, mes_ano in *. simpl.
  now rewrite existsb_app, He, orb_false_r.
Qed.

Ltac elementos Ha :=
  simpl in Ha;
  repeat (apply elem_of_cons in Ha as [-> | Ha]);
  try (apply elem_of_nil in Ha; contradiction).

(** The two insertions of the limit scenario, followed through the steps of
    [adicionar_lancamento]. *)
Lemma sort_um {A} (lt : A -> A -> bool) (x : A) : sort lt [x] = [x].
Proof. apply Permutation_singleton_r. apply sort_permuta. Qed.

Lemma cenario_1 :
  adicionar_lancamento carimbo (EhDespesa despesa_400) dezembro
  = (Ok [alerta_deficit_dezembro], dezembro_1).
Proof.
  destruct (adicionar_lancamento_casos carimbo (EhDespesa despesa_400) dezembro)
    as [(msg & _ & [H | H]) | (alerts & self' & E & _)].
  - exfalso. apply H. reflexivity.
  - discriminate H.
  - rewrite E.
    apply adicionar_lancamento_inv in E
      as (_ & _ & l' & g1 & g2 & g3 & Hd & Hdef & -> & ->).
    unfold etapa_despesa in Hd. cbv zeta in Hd.
    change (total_por_categoria dezembro (categoria (d_campos despesa_400))) with f0 in Hd.
    change (verificar_limite_categoria despesa_400 f0) with (false, despesa_400) in Hd.
    change (str_in "ALTO_VALOR" (d_alertas despesa_400)) with false in Hd.
    simpl in Hd. destruct Hd as (-> & -> & ->).
    simpl in Hdef. unfold etapa_deficit in Hdef. simpl in Hdef.
    rewrite sort_um in Hdef.
    change (tem_deficit (mkOrcamento "o-1" 12 2024 5000%float [EhDespesa despesa_400] []))
      with true in Hdef.
    simpl in Hdef. destruct Hdef as (a & Ea & ->).
    unfold criar_alerta_deficit, Alerta_init in Ea.
    match type of Ea with
    | context [strip ?m] =>
        replace m with "Déficit orçamentário em 12/2024: R$400.00" in Ea
          by (vm_compute; reflexivity)
    end.
    rewrite strip_bordas in Ea by reflexivity.
    simpl in Ea. injection Ea as <-.
    simpl. rewrite sort_um. reflexivity.
Qed.

Lemma cenario_2 :
  (adicionar_lancamento carimbo (EhDespesa despesa_200) dezembro_1).1
  = Ok [alerta_limite_food].
Proof.
  assert (Ht : total_por_categoria dezembro_1 cat_food = 400%float).
  { assert (Hc : Categoria_eq cat_food cat_food = true)
      by (apply Categoria_eq_spec; now split).
    unfold total_por_categoria, dezembro_1. simpl lancamentos.
    rewrite filter_cons, decide_True by exact Hc. reflexivity. }
  destruct (adicionar_lancamento_casos carimbo (EhDespesa despesa_200) dezembro_1)
    as [(msg & _ & [H | H]) | (alerts & self' & E & _)].
  - exfalso. apply H. reflexivity.
  - unfold lanc_in, Lancamento_eq in H. simpl in H. discriminate H.
  - rewrite E. simpl. f_equal.
    apply adicionar_lancamento_inv in E
      as (_ & _ & l' & g1 & g2 & g3 & Hd & Hdef & -> & _).
    unfold etapa_despesa in Hd. cbv zeta in Hd.
    change (categoria (d_campos despesa_200)) with cat_food in Hd.
    rewrite Ht in Hd.
    change (verificar_limite_categoria despesa_200 400%float)
      with (true, mkDespesa (d_campos despesa_200) ["LIMITE_EXCEDIDO"]) in Hd.
    change (str_in "ALTO_VALOR" (d_alertas despesa_200)) with false in Hd.
    simpl in Hd. destruct Hd as (-> & -> & lim & Hlim & a & Ea & ->).
    injection Hlim as <-.
    unfold etapa_deficit in Hdef.
    simpl in Hdef. rewrite andb_false_r in Hdef. subst g3.
    unfold criar_alerta_limite_excedido, Alerta_init in Ea.
    match type of Ea with
    | context [strip ?m] =>
        replace m
          with "Limite da categoria 'Food' excedido! Limite: R$500.00, Total: R$600.00"
          in Ea by (vm_compute; reflexivity)
    end.
    rewrite strip_bordas in Ea by reflexivity.
    simpl in Ea. injection Ea as <-. reflexivity.
Qed.

(** C1 (as amended). For an expense [d] that [adicionar_lancamento] accepts,
    the returned alerts are, in this order: one ALTO_VALOR alert iff [d]
    carries the "ALTO_VALOR" tag; one LIMITE_EXCEDIDO alert iff
    [verificar_limite_categoria] answers true for the sum of the amounts of the
    entries held before the call whose category equals the category of [d];
    one DEFICIT_ORCAMENTARIO alert iff the balance after the insertion is
    negative and the log held no deficit alert of this month-year before the
    call. The alerts are the ones the factories make: the limit alert is made
    from the category's identifier, name and limit and from that sum plus the
    amount of [d]; the deficit alert from the balance after the insertion. The
    budget then holds the sorted entries with the (tagged) expense, and the old
    log followed by the returned alerts. In particular, on the empty budget of
    December 2024, adding the expense of 400.0 in Food (limit 500.0) returns
    exactly one alert, the deficit alert of 400.00; on the budget this leaves,
    which holds only that expense, adding the expense of 200.0 in Food returns
    exactly one alert, the limit alert with limit 500.00 and total 600.00. *)
Theorem adicionar_lancamento_alertas :
  (forall (fresh : nat -> Carimbo) (self : OrcamentoMensal) (d : Despesa)
          (alerts : list Alerta) (self' : OrcamentoMensal),
    adicionar_lancamento fresh (EhDespesa d) self = (Ok alerts, self') ->
    let cat := categoria (d_campos d) in
    let total_antes :=
      Py.sum (valores (filter (fun l => Categoria_eq (categoria (campos l)) cat = true)
                              (lancamentos self))) in
    let excedeu := (verificar_limite_categoria d total_antes).1 in
    map alerta_tipo alerts
    = tipos_esperados (str_in "ALTO_VALOR" (d_alertas d)) excedeu
        (PrimFloat.ltb (saldo self') f0 && negb (deficit_existente self))
    /\ (forall a, a ∈ alerts -> alerta_tipo a = ALTO_VALOR ->
          exists k, criar_alerta_alto_valor (fresh k) (lanc_id (d_campos d))
                      (valor (d_campos d)) = Ok a)
    /\ (forall a, a ∈ alerts -> alerta_tipo a = LIMITE_EXCEDIDO ->
          exists k limite,
            cat_limite_mensal cat = Some limite
            /\ criar_alerta_limite_excedido (fresh k) (cat_id cat) (cat_nome cat) limite
                 (PrimFloat.add total_antes (valor (d_campos d))) = Ok a)
    /\ (forall a, a ∈ alerts -> alerta_tipo a = DEFICIT_ORCAMENTARIO ->
          exists k, criar_alerta_deficit (fresh k) (mes self) (ano self) (saldo self') = Ok a)
    /\ lancamentos self'
       = sort Lancamento_lt
           (lancamentos self ++ [EhDespesa (verificar_limite_categoria d total_antes).2])
    /\ alertas self' = alertas self ++ alerts)
  /\ adicionar_lancamento carimbo (EhDespesa despesa_400) dezembro
     = (Ok [alerta_deficit_dezembro], dezembro_1)
  /\ lancamentos dezembro_1 = [EhDespesa despesa_400]
  /\ (adicionar_lancamento carimbo (EhDespesa despesa_200) dezembro_1).1
     = Ok [alerta_limite_food].
Proof.
  split; [| split; [exact cenario_1 | split; [reflexivity | exact cenario_2]]].
  intros fresh self d alerts self'.
  intros H. cbv zeta.
  apply adicionar_lancamento_inv in H
    as (_ & _ & l' & g1 & g2 & g3 & Hd & Hdef & -> & ->).
  unfold etapa_deficit in Hdef.
  rewrite (deficit_existente_pos _ _ _ _ _ _ Hd) in Hdef.
  destruct Hd as (-> & H1 & H2).
  fold (total_por_categoria self (categoria (d_campos d))).
  set (total := total_por_categoria self (categoria (d_campos d))) in *.
  change (saldo (com_alertas ?p ?x)) with (saldo p).
  unfold tem_deficit in Hdef. simpl in Hdef.
  destruct (str_in "ALTO_VALOR" (d_alertas d));
    [apply gera_alto_valor in H1 as (a1 & -> & Hc1 & Ht1 & _) | subst g1];
  (destruct (verificar_limite_categoria d total).1;
    [destruct H2 as (lim & Hlim & H2);
     apply gera_limite_excedido in H2 as (a2 & -> & Hc2 & Ht2 & _) | subst g2]);
  (destruct (PrimFloat.ltb _ f0 && negb (deficit_existente self));
    [apply gera_deficit in Hdef as (a3 & -> & Hc3 & Ht3 & _) | subst g3]).
  all: unfold tipos_esperados; simpl; rewrite ?Ht1, ?Ht2, ?Ht3.
  all: split; [reflexivity |].
  all: split; [intros a Ha Ht; elementos Ha; try congruence; eauto |].
  all: split; [intros a Ha Ht; elementos Ha; try congruence; eauto |].
  all: split; [intros a Ha Ht; elementos Ha; try congruence; eauto |].
  all: split; [reflexivity |].
  all: rewrite <- ?app_assoc; reflexivity.
Qed.

(** C10. Every LIMITE_EXCEDIDO alert returned by [adicionar_lancamento]
    names the category of the entry in [categoria_id] and has neither a
    [lancamento_id] nor a [mes_ano]. *)
Theorem alerta_limite_so_liga_categoria (fresh : nat -> Carimbo) (self : OrcamentoMensal)
    (l : Lancamento) (alerts : list Alerta) (self' : OrcamentoMensal) (a : Alerta) :
  adicionar_lancamento fresh l self = (Ok alerts, self') ->
  a ∈ alerts -> alerta_tipo a = LIMITE_EXCEDIDO ->
  categoria_id a = Some (cat_id (categoria (campos l)))
  /\ lancamento_id a = None
  /\ alerta_mes_ano a = None.
Proof.
  intros H Ha Ht.
  apply adicionar_lancamento_inv in H
    as (_ & _ & l' & g1 & g2 & g3 & Hd & Hdef & -> & _).
  pose proof (etapa_despesa_tipos _ _ _ _ _ _ Hd) as [Hg1 _].
  apply elem_of_app in Ha as [Ha | Ha].
  { rewrite Forall_forall in Hg1. apply Hg1 in Ha. congruence. }
  apply elem_of_app in Ha as [Ha | Ha].
  - unfold etapa_despesa in Hd. destruct l as [c | d].
    + destruct Hd as (_ & _ & ->). now apply elem_of_nil in Ha.
    + cbv zeta in Hd. destruct Hd as (_ & _ & H2).
      destruct (verificar_limite_categoria d _).1; [| subst g2; now apply elem_of_nil in Ha].
      destruct H2 as (limite & _ & H2).
      apply gera_limite_excedido in H2 as (a2 & -> & _ & _ & Hl & Hc & Hm).
      apply list_elem_of_singleton in Ha as ->. simpl. auto.
  - unfold etapa_deficit in Hdef.
    destruct (tem_deficit _ && negb (deficit_existente _));
      [| subst g3; now apply elem_of_nil in Ha].
    apply gera_deficit in Hdef as (a3 & -> & _ & Ht3 & _).
    apply list_elem_of_singleton in Ha as ->. congruence.
Qed.

(** ** OrcamentoMensal: percentages by category *)

Lemma sum_cons (v : float) (vs : list float) (ac : float) :
  fold_left PrimFloat.add (v :: vs) ac = fold_left PrimFloat.add vs (PrimFloat.add ac v).
Proof. reflexivity. Qed.

(** The dictionary built by the loop of [despesas_por_categoria], key by key. *)
Lemma despesas_por_categoria_fold (nome : string) (ls : list Lancamento)
    (totais : gmap string float) :
  let P := fun l => eh_despesa l && String.eqb (cat_nome (categoria (campos l))) nome in
  fold_left (fun totais lanc =>
               if eh_despesa lanc
               then acumular (cat_nome (categoria (campos lanc))) (valor (campos lanc)) totais
               else totais) ls totais !! nome
  = match totais !! nome with
    | Some v => Some (fold_left PrimFloat.add (valores (filter (fun l => P l = true) ls)) v)
    | None => if existsb P ls
              then Some (fold_left PrimFloat.add (valores (filter (fun l => P l = true) ls)) f0)
              else None
    end.
Proof.
  cbv zeta. revert totais. induction ls as [| l ls IH]; intros totais; simpl.
  - now destruct (totais !! nome).
  - rewrite IH, filter_cons. clear IH.
    destruct (eh_despesa l) eqn:Ed; simpl.
    + unfold acumular.
      destruct (String.eqb (cat_nome (categoria (campos l))) nome) eqn:En.
      * apply String.eqb_eq in En. rewrite En, lookup_insert_eq.
        destruct (decide (true = true)); [| congruence]. simpl.
        now destruct (totais !! nome).
      * apply String.eqb_neq in En. rewrite lookup_insert_ne by exact En.
        destruct (decide (false = true)); [discriminate |]. reflexivity.
    + destruct (decide (false = true)); [discriminate |]. reflexivity.
Qed.

Lemma despesas_por_categoria_lookup (self : OrcamentoMensal) (nome : string) :
  despesas_por_categoria self !! nome
  = if tem_despesa_de nome self then Some (total_despesas_de nome self) else None.
Proof.
  unfold despesas_por_categoria. rewrite despesas_por_categoria_fold, lookup_empty.
  reflexivity.
Qed.

(** A comprehension whose value expression never raises maps the values. *)
Lemma dict_comp_ok {V W : Type} (f : V -> Resultado W) (g : V -> W) (m : gmap string V) :
  (forall v, f v = Ok (g v)) -> dict_comp f m = Ok (g <$> m).
Proof.
  intros Hf. unfold dict_comp.
  apply (map_fold_weak_ind (fun r m => r = Ok (g <$> m))).
  - now rewrite fmap_empty.
  - intros k v m' r Hk ->. simpl. rewrite Hf. simpl. now rewrite fmap_insert.
Qed.

Lemma truediv_ok (v total : float) :
  PrimFloat.eqb total f0 = false -> truediv v total = Ok (PrimFloat.div v total).
Proof. intros H. unfold truediv. now rewrite H. Qed.

(** C6. [percentual_por_categoria] never raises. With a zero expense total it
    returns the empty mapping; otherwise it maps every category name that has
    expenses to that category's expense total divided by the expense total,
    times 100, and has no other key. Expenses Food 300.0 and Transport 100.0
    give Food 75.0 and Transport 25.0. *)
Theorem percentual_por_categoria_correto :
  (forall self : OrcamentoMensal,
      let total := total_despesas self in
      exists m,
        percentual_por_categoria self = Ok m
        /\ forall nome,
             m !! nome
             = if PrimFloat.eqb total f0 then None
               else if tem_despesa_de nome self
                    then Some (PrimFloat.mul
                                 (PrimFloat.div (total_despesas_de nome self) total)
                                 100%float)
                    else None)
  /\ percentual_por_categoria orcamento_percentual
     = Ok (<["Food" := 75%float]> (<["Transport" := 25%float]> ∅))
  /\ total_despesas dezembro = f0
  /\ percentual_por_categoria dezembro = Ok ∅.
Proof.
  split; [| repeat split; vm_compute; reflexivity].
  intros self. cbv zeta. unfold percentual_por_categoria.
  destruct (PrimFloat.eqb (total_despesas self) f0) eqn:Ez.
  - exists ∅. split; [reflexivity |]. intros nome. apply lookup_empty.
  - eexists. split.
    + apply (dict_comp_ok _ (percentual (total_despesas self))).
      intros v. now rewrite (truediv_ok _ _ Ez).
    + intros nome. rewrite lookup_fmap, despesas_por_categoria_lookup.
      now destruct (tem_despesa_de nome self).
Qed.

(** ** OrcamentoMensal: running balance by day *)

Lemma date_ltb_spec (a b : date) :
  date_ltb a b = true <->
  (year a < year b
   \/ (year a = year b
       /\ (month a < month b \/ (month a = month b /\ day a < day b)))).
Proof.
  unfold date_ltb.
  rewrite !orb_true_iff, !andb_true_iff, !orb_true_iff, !andb_true_iff,
          !Z.ltb_lt, !Z.eqb_eq.
  reflexivity.
Qed.

Lemma date_ltb_false (a b : date) :
  date_ltb a b = false <->
  ~ (year a < year b
     \/ (year a = year b
         /\ (month a < month b \/ (month a = month b /\ day a < day b)))).
Proof. rewrite <- date_ltb_spec. now destruct (date_ltb a b). Qed.

Lemma date_ltb_asym (a b : date) : date_ltb a b = true -> date_ltb b a = false.
Proof. rewrite date_ltb_spec, date_ltb_false. lia. Qed.

Lemma date_ltb_irrefl (a : date) : date_ltb a a = false.
Proof. rewrite date_ltb_false. lia. Qed.

#[local] Instance nao_depois_trans : Transitive nao_depois.
Proof.
  intros a b c. unfold nao_depois. rewrite !date_ltb_false. lia.
Qed.

Lemma na_data_true (d : date) (l : Lancamento) : na_data d l = true <-> data (campos l) = d.
Proof. unfold na_data, date_eqb. apply bool_decide_eq_true. Qed.

(** *** The stable sort *)

Lemma ordenar_snoc {A} (lt : A -> A -> bool) (l : list A) (x : A) :
  ordenar lt (l ++ [x]) = Py.insert lt x (ordenar lt l).
Proof. unfold ordenar. now rewrite fold_left_app. Qed.

Lemma insert_perm {A} (lt : A -> A -> bool) (x : A) (l : list A) :
  Py.insert lt x l ≡ₚ x :: l.
Proof.
  induction l as [| y l IH]; simpl; [reflexivity |].
  destruct (lt x y); [reflexivity |]. rewrite IH. apply Permutation_swap.
Qed.

Lemma ordenar_perm {A} (lt : A -> A -> bool) (l : list A) : ordenar lt l ≡ₚ l.
Proof.
  induction l as [| x l IH] using rev_ind; [reflexivity |].
  rewrite ordenar_snoc, insert_perm, IH. apply Permutation_cons_append.
Qed.

Lemma sort_perm {A} (lt : A -> A -> bool) (l : list A) : sort lt l ≡ₚ l.
Proof. apply sort_permuta. Qed.

(** The dates are totally ordered, so [<] on the dates of the entries is a
    strict weak order, and the sort is the stable one. *)
Lemma por_data_ordem_fraca (l : list Lancamento) : ordem_fraca por_data l.
Proof.
  unfold ordem_fraca, por_data. repeat split.
  - intros x _. apply date_ltb_irrefl.
  - intros x y z _ _ _. rewrite !date_ltb_spec. lia.
  - intros x y z _ _ _. rewrite !date_ltb_false. lia.
Qed.

Lemma sort_por_data (l : list Lancamento) : sort por_data l = ordenar por_data l.
Proof. apply sort_estavel, por_data_ordem_fraca. Qed.

Lemma insert_por_data_sorted (x : Lancamento) (l : list Lancamento) :
  Sorted nao_depois l -> Sorted nao_depois (Py.insert por_data x l).
Proof.
  induction 1 as [| y l Hs IH Hhd]; simpl.
  - repeat constructor.
  - destruct (por_data x y) eqn:E.
    + constructor; [now constructor |]. constructor.
      unfold nao_depois. apply date_ltb_asym. exact E.
    + constructor; [exact IH |].
      destruct l as [| z l]; simpl.
      * constructor. exact E.
      * destruct (por_data x z); constructor; [exact E |].
        now inversion Hhd.
Qed.

Lemma ordenar_por_data_sorted (l : list Lancamento) :
  Sorted nao_depois (ordenar por_data l).
Proof.
  induction l as [| x l IH] using rev_ind; [constructor |].
  rewrite ordenar_snoc. now apply insert_por_data_sorted.
Qed.

Lemma sort_por_data_sorted (l : list Lancamento) : Sorted nao_depois (sort por_data l).
Proof. rewrite sort_por_data. apply ordenar_por_data_sorted. Qed.

Lemma filtro_data_vazio (d : date) (ys : list Lancamento) :
  Forall (fun e => data (campos e) <> d) ys ->
  filter (fun e => na_data d e = true) ys = [].
Proof.
  induction 1 as [| y ys Hy _ IH]; [reflexivity |].
  rewrite filter_cons. destruct (decide (na_data d y = true)) as [E | E]; [| exact IH].
  apply na_data_true in E. contradiction.
Qed.

(** Inserting [x] puts it after the entries of its own date and does not
    move the entries of any date. *)
Lemma insert_por_data_filter (d : date) (x : Lancamento) (l : list Lancamento) :
  Sorted nao_depois l ->
  filter (fun e => na_data d e = true) (Py.insert por_data x l)
  = filter (fun e => na_data d e = true) (l ++ [x]).
Proof.
  intros Hs. apply Sorted_StronglySorted in Hs; [| apply nao_depois_trans].
  induction Hs as [| y l Hs IH Hall]; [reflexivity |].
  simpl. destruct (por_data x y) eqn:E.
  - rewrite (filter_app _ (y :: l) [x]), (filter_cons _ x (y :: l)), (filter_cons _ x []).
    rewrite filter_nil.
    destruct (decide (na_data d x = true)) as [Hx | Hx]; [| now rewrite app_nil_r].
    apply na_data_true in Hx.
    rewrite filtro_data_vazio; [reflexivity |].
    unfold por_data in E. rewrite Hx in E.
    constructor.
    + intros Hy. rewrite Hy, date_ltb_irrefl in E. discriminate.
    + eapply Forall_impl; [exact Hall |]. simpl. intros z Hz Hd.
      unfold nao_depois in Hz. rewrite Hd in Hz.
      apply date_ltb_spec in E. apply date_ltb_false in Hz. lia.
  - rewrite (filter_cons _ y (Py.insert por_data x l)), IH.
    now rewrite (filter_cons _ y (l ++ [x])).
Qed.

Lemma sort_por_data_estavel (d : date) (l : list Lancamento) :
  filter (fun e => na_data d e = true) (sort por_data l)
  = filter (fun e => na_data d e = true) l.
Proof.
  rewrite sort_por_data.
  induction l as [| x l IH] using rev_ind; [reflexivity |].
  rewrite ordenar_snoc, insert_por_data_filter by apply ordenar_por_data_sorted.
  now rewrite !filter_app, IH.
Qed.

(** *** The replay *)

Lemma replay_fold (d : date) (s : list Lancamento) (m0 : gmap date float) (ac0 : float) :
  (fold_left passo_saldo s (m0, ac0)).1 !! d
  = if existsb (na_data d) s then Some (fold_left movimento (ate_ultimo d s) ac0)
    else m0 !! d.
Proof.
  revert m0 ac0. induction s as [| l s IH]; intros m0 ac0; [reflexivity |].
  simpl. unfold passo_saldo at 2. simpl. rewrite IH. fold (movimento ac0 l).
  destruct (existsb (na_data d) s) eqn:Es.
  - now rewrite orb_true_r.
  - rewrite orb_false_r. destruct (na_data d l) eqn:El.
    + apply na_data_true in El. subst d. now rewrite lookup_insert_eq.
    + rewrite lookup_insert_ne; [reflexivity |].
      intros Hd. apply na_data_true in Hd. congruence.
Qed.

Lemma existsb_perm {A} (f : A -> bool) (xs ys : list A) :
  xs ≡ₚ ys -> existsb f xs = existsb f ys.
Proof.
  induction 1 as [| x xs ys _ IH | x y xs | xs ys zs _ IH1 _ IH2]; simpl.
  - reflexivity.
  - now rewrite IH.
  - now rewrite !orb_assoc, (orb_comm (f y)).
  - congruence.
Qed.

(** C7. [saldo_por_dia] replays the entries held, put in date order by a
    stable sort (a permutation of the entries, dates never decreasing, entries
    of one date in the order they are held), adding each income and
    subtracting each expense; a date with no entry is not a key, and every other
    date maps to the cumulative balance reached after the last entry of that
    date: one key per date, however many entries share it. In the budget of
    four entries below, two of them dated 2024-12-05, the mapping has three
    keys. *)
Theorem saldo_por_dia_correto :
  (forall self : OrcamentoMensal,
      let ordem := sort por_data (lancamentos self) in
      ordem ≡ₚ lancamentos self
      /\ Sorted nao_depois ordem
      /\ (forall d, filter (fun l => na_data d l = true) ordem
                    = filter (fun l => na_data d l = true) (lancamentos self))
      /\ forall d,
           saldo_por_dia self !! d
           = if existsb (na_data d) (lancamentos self)
             then Some (acumulado_apos (ate_ultimo d ordem))
             else None)
  /\ saldo_por_dia orcamento_percentual
     = <[mkDate 2024 12 5 := 900%float]>
         (<[mkDate 2024 12 6 := 800%float]> (<[mkDate 2024 12 7 := 600%float]> ∅))
  /\ length (lancamentos orcamento_percentual) = 4%nat
  /\ size (saldo_por_dia orcamento_percentual) = 3%nat.
Proof.
  split; [| repeat split; unfold saldo_por_dia; rewrite ?sort_por_data;
             vm_compute; reflexivity].
  intros self. cbv zeta.
  split; [apply sort_perm |]. split; [apply sort_por_data_sorted |].
  split; [intros d; apply sort_por_data_estavel |].
  intros d. unfold saldo_por_dia. rewrite replay_fold, lookup_empty.
  now rewrite (existsb_perm _ _ _ (sort_perm por_data (lancamentos self))).
Qed.

(** * Further properties of the model classes *)

(** ** Equality and order of the four classes *)

Lemma Lancamento_eq_refl (a : Lancamento) : Lancamento_eq a a = true.
Proof. apply Lancamento_eq_spec. now left. Qed.

(** [Lancamento.__eq__] is reflexive and symmetric but not transitive: an
    entry can equal one entry through the identifier and another through date
    and description, while those two differ. *)
Theorem Lancamento_eq_nao_transitiva :
  (forall a, Lancamento_eq a a = true)
  /\ (forall a b, Lancamento_eq a b = Lancamento_eq b a)
  /\ (forall (c1 c2 c3 : Campos),
         lanc_id c1 = lanc_id c2 ->
         data c2 = data c3 -> lower (descricao c2) = lower (descricao c3) ->
         lanc_id c1 <> lanc_id c3 ->
         data c1 <> data c3 ->
         Lancamento_eq (EhReceita c1) (EhReceita c2) = true
         /\ Lancamento_eq (EhReceita c2) (EhReceita c3) = true
         /\ Lancamento_eq (EhReceita c1) (EhReceita c3) = false)
  /\ exists a b c,
       Lancamento_eq a b = true /\ Lancamento_eq b c = true /\ Lancamento_eq a c = false.
Proof.
  split; [apply Lancamento_eq_refl |]. split; [apply Lancamento_eq_sym |].
  assert (H : forall c1 c2 c3 : Campos,
             lanc_id c1 = lanc_id c2 ->
             data c2 = data c3 -> lower (descricao c2) = lower (descricao c3) ->
             lanc_id c1 <> lanc_id c3 -> data c1 <> data c3 ->
             Lancamento_eq (EhReceita c1) (EhReceita c2) = true
             /\ Lancamento_eq (EhReceita c2) (EhReceita c3) = true
             /\ Lancamento_eq (EhReceita c1) (EhReceita c3) = false).
  { intros c1 c2 c3 Hid Hd Hs Hn Hdn.
    split; [apply Lancamento_eq_spec; now left |].
    split; [apply Lancamento_eq_spec; now right |].
    apply not_true_is_false. rewrite Lancamento_eq_spec. simpl. tauto. }
  split; [exact H |].
  exists (EhReceita (mkCampos "a" 10%float cat_salary (mkDate 2024 12 1) "Bonus" PIX)),
         (EhReceita (mkCampos "a" 10%float cat_salary (mkDate 2024 12 2) "Salario" PIX)),
         (EhReceita (mkCampos "b" 10%float cat_salary (mkDate 2024 12 2) "SALARIO" PIX)).
  apply H; simpl; ascii_norm; first [reflexivity | congruence].
Qed.

Lemma string_compare_refl (s : string) : String.compare s s = Eq.
Proof.
  pose proof (String.compare_antisym s s) as H.
  destruct (String.compare s s); simpl in H; congruence.
Qed.

(** [Categoria.__eq__] is an equivalence relation, and [Categoria.__lt__]
    agrees with it: two equal categories are never ordered, and the order is
    irreflexive and asymmetric. *)
Theorem Categoria_eq_equivalencia :
  (forall a, Categoria_eq a a = true)
  /\ (forall a b, Categoria_eq a b = Categoria_eq b a)
  /\ (forall a b c, Categoria_eq a b = true -> Categoria_eq b c = true ->
                    Categoria_eq a c = true)
  /\ (forall a b, Categoria_eq a b = true ->
                  Categoria_lt a b = false /\ Categoria_lt b a = false)
  /\ (forall a b, Categoria_lt a b = true -> Categoria_lt b a = false).
Proof.
  repeat split.
  - intros a. now apply Categoria_eq_spec.
  - intros a b. apply eq_true_iff_eq. rewrite !Categoria_eq_spec. intuition congruence.
  - intros a b c. rewrite !Categoria_eq_spec. intuition congruence.
  - apply Categoria_eq_spec in H as [H _]. unfold Categoria_lt, String.ltb.
    now rewrite H, string_compare_refl.
  - apply Categoria_eq_spec in H as [H _]. unfold Categoria_lt, String.ltb.
    now rewrite H, string_compare_refl.
  - intros a b. unfold Categoria_lt, String.ltb.
    rewrite (String.compare_antisym (lower (cat_nome b))).
    now destruct (String.compare (lower (cat_nome a)) (lower (cat_nome b))).
Qed.

(** [Alerta.__lt__] is a strict order that puts the more severe alert first
    whatever the creation times, and the more recent first among alerts of one
    severity; the severity is 1, 2 or 3. Equality and hash only read the
    identifier, so equal alerts have equal hashes and marking an alert as read
    changes neither its equality, its hash nor its place in the order. *)
Theorem Alerta_lt_ordem_estrita :
  (forall a, 1 <= nivel_severidade a <= 3)
  /\ (forall a, Alerta_lt a a = false)
  /\ (forall a b, Alerta_lt a b = true -> Alerta_lt b a = false)
  /\ (forall a b c, Alerta_lt a b = true -> Alerta_lt b c = true -> Alerta_lt a c = true)
  /\ (forall a b, nivel_severidade b < nivel_severidade a -> Alerta_lt a b = true)
  /\ (forall a b, nivel_severidade a = nivel_severidade b ->
                  Alerta_lt a b = (data_criacao b <? data_criacao a))
  /\ (forall hash_str a b, Alerta_eq a b = true ->
                           Alerta_hash hash_str a = Alerta_hash hash_str b)
  /\ (forall hash_str a b,
         Alerta_eq (marcar_como_lido a) b = Alerta_eq a b
         /\ Alerta_hash hash_str (marcar_como_lido a) = Alerta_hash hash_str a
         /\ Alerta_lt (marcar_como_lido a) b = Alerta_lt a b
         /\ lido (marcar_como_lido a) = true).
Proof.
  split; [intros a; unfold nivel_severidade; destruct (alerta_tipo a); lia |].
  split.
  { intros a. unfold Alerta_lt. rewrite Z.eqb_refl. simpl. apply Z.ltb_irrefl. }
  split.
  { intros a b. unfold Alerta_lt.
    destruct (Z.eqb_spec (nivel_severidade a) (nivel_severidade b)) as [E | E];
      destruct (Z.eqb_spec (nivel_severidade b) (nivel_severidade a)) as [E' | E'];
      simpl; rewrite ?Z.ltb_lt, ?Z.ltb_ge; lia. }
  split.
  { intros a b c. unfold Alerta_lt.
    destruct (Z.eqb_spec (nivel_severidade a) (nivel_severidade b));
      destruct (Z.eqb_spec (nivel_severidade b) (nivel_severidade c));
      destruct (Z.eqb_spec (nivel_severidade a) (nivel_severidade c));
      simpl; rewrite ?Z.ltb_lt; lia. }
  split.
  { intros a b H. unfold Alerta_lt.
    destruct (Z.eqb_spec (nivel_severidade a) (nivel_severidade b)); simpl;
      rewrite ?Z.ltb_lt; lia. }
  split.
  { intros a b H. unfold Alerta_lt. rewrite H, Z.eqb_refl. reflexivity. }
  split.
  { intros hash_str a b H. unfold Alerta_eq in H. apply String.eqb_eq in H.
    unfold Alerta_hash. now rewrite H. }
  intros hash_str a b. repeat split.
Qed.

(** [OrcamentoMensal.__lt__] and [__eq__] make a total order of the budgets by
    (year, month): of [a < b], [a == b] and [b < a] exactly one holds, [<] is
    transitive, and equal budgets have equal hashes. *)
Theorem Orcamento_lt_tricotomia :
  (forall a b,
      (Orcamento_lt a b = true /\ Orcamento_eq a b = false /\ Orcamento_lt b a = false)
      \/ (Orcamento_lt a b = false /\ Orcamento_eq a b = true /\ Orcamento_lt b a = false)
      \/ (Orcamento_lt a b = false /\ Orcamento_eq a b = false /\ Orcamento_lt b a = true))
  /\ (forall a b c, Orcamento_lt a b = true -> Orcamento_lt b c = true ->
                    Orcamento_lt a c = true)
  /\ (forall hash_par a b, Orcamento_eq a b = true ->
                           Orcamento_hash hash_par a = Orcamento_hash hash_par b).
Proof.
  split; [| split].
  - intros a b. unfold Orcamento_lt, Orcamento_eq, mes_ano.
    destruct (Z.eqb_spec (ano a) (ano b)) as [E | E];
      destruct (Z.eqb_spec (ano b) (ano a)) as [E' | E']; try congruence; simpl.
    + destruct (Z.lt_total (mes a) (mes b)) as [H | [H | H]].
      * left. rewrite bool_decide_eq_false_2 by (intros [=]; lia).
        rewrite (proj2 (Z.ltb_lt _ _) H), (proj2 (Z.ltb_ge _ _)); [auto | lia].
      * right; left. rewrite bool_decide_eq_true_2 by congruence.
        rewrite !(proj2 (Z.ltb_ge _ _)); [auto | lia | lia].
      * right; right. rewrite bool_decide_eq_false_2 by (intros [=]; lia).
        rewrite (proj2 (Z.ltb_lt _ _) H), (proj2 (Z.ltb_ge _ _)); [auto | lia].
    + rewrite bool_decide_eq_false_2 by (intros [=]; lia).
      destruct (Z.lt_total (ano a) (ano b)) as [H | [H | H]]; [| congruence |].
      * left. rewrite (proj2 (Z.ltb_lt _ _) H), (proj2 (Z.ltb_ge _ _)); [auto | lia].
      * right; right. rewrite (proj2 (Z.ltb_lt _ _) H), (proj2 (Z.ltb_ge _ _)); [auto | lia].
  - intros a b c. unfold Orcamento_lt.
    destruct (Z.eqb_spec (ano a) (ano b)); destruct (Z.eqb_spec (ano b) (ano c));
      destruct (Z.eqb_spec (ano a) (ano c)); simpl; rewrite ?Z.ltb_lt; lia.
  - intros hash_par a b H. unfold Orcamento_eq in H. apply bool_decide_eq_true in H.
    unfold Orcamento_hash. now rewrite H.
Qed.

(** ** Entries of a budget: what a call leaves *)

Lemma Lancamento_eq_campos (e a a' : Lancamento) :
  campos a = campos a' -> Lancamento_eq e a = Lancamento_eq e a'.
Proof. intros H. unfold Lancamento_eq. now rewrite H. Qed.

Lemma lanc_in_false (l : Lancamento) (ls : list Lancamento) :
  lanc_in l ls = false <-> Forall (fun e => Lancamento_eq e l = false) ls.
Proof.
  unfold lanc_in. induction ls as [| e ls IH]; simpl.
  - split; [constructor | reflexivity].
  - rewrite orb_false_iff, IH. split.
    + intros [H1 H2]. now constructor.
    + intros H. inversion H; subst. now split.
Qed.

Lemma lanc_in_true (l : Lancamento) (ls : list Lancamento) :
  lanc_in l ls = true <-> exists e, e ∈ ls /\ Lancamento_eq e l = true.
Proof.
  unfold lanc_in. rewrite existsb_exists. split; intros (e & He & H); exists e;
    (split; [now apply list_elem_of_In | exact H]).
Qed.

Lemma Lancamento_eq_false_id (e l : Lancamento) :
  Lancamento_eq e l = false -> lanc_id (campos e) <> lanc_id (campos l).
Proof.
  intros H Hid. assert (Lancamento_eq e l = true); [| congruence].
  apply Lancamento_eq_spec. now left.
Qed.

(** The budget an accepted call leaves, field by field. *)
Lemma adicionar_lancamento_estado fresh l self alerts self' :
  adicionar_lancamento fresh l self = (Ok alerts, self') ->
  mes_ano_de l = mes_ano self
  /\ lanc_in l (lancamentos self) = false
  /\ orc_id self' = orc_id self /\ mes self' = mes self /\ ano self' = ano self
  /\ receitas_previstas self' = receitas_previstas self
  /\ alertas self' = alertas self ++ alerts
  /\ exists l', campos l' = campos l
                /\ eh_receita l' = eh_receita l
                /\ lancamentos self' = sort Lancamento_lt (lancamentos self ++ [l']).
Proof.
  intros H.
  apply adicionar_lancamento_inv in H
    as (Hm & Hin & l' & g1 & g2 & g3 & Hd & _ & -> & ->).
  split; [exact Hm |]. split; [exact Hin |].
  unfold com_alertas. simpl.
  repeat (split; [reflexivity |]).
  split; [now rewrite <- !app_assoc |].
  exists l'. split; [| split; [| reflexivity]].
  - unfold etapa_despesa in Hd. destruct l as [c | d].
    + now destruct Hd as (-> & _).
    + cbv zeta in Hd. destruct Hd as (-> & _). simpl.
      apply verificar_limite_categoria_campos.
  - unfold etapa_despesa in Hd. destruct l as [c | d].
    + now destruct Hd as (-> & _).
    + cbv zeta in Hd. now destruct Hd as (-> & _).
Qed.

(** A refused call leaves the budget as it was. *)
Lemma adicionar_lancamento_recusado fresh l self e self' :
  adicionar_lancamento fresh l self = (Raise e, self') -> self' = self.
Proof.
  intros H.
  destruct (adicionar_lancamento_casos fresh l self)
    as [(msg & E & _) | (alerts & s & E & _)]; rewrite E in H; congruence.
Qed.

Lemma remover_de_spec (id : string) (ls : list Lancamento) :
  (remover_de id ls).1 = find (fun l => String.eqb (lanc_id (campos l)) id) ls
  /\ match find (fun l => String.eqb (lanc_id (campos l)) id) ls with
     | None => (remover_de id ls).2 = ls
     | Some l =>
         lanc_id (campos l) = id
         /\ exists l1 l2,
              ls = l1 ++ l :: l2
              /\ (remover_de id ls).2 = l1 ++ l2
              /\ Forall (fun e => lanc_id (campos e) <> id) l1
     end.
Proof.
  induction ls as [| x ls [IH1 IH2]]; simpl; [now split |].
  destruct (String.eqb (lanc_id (campos x)) id) eqn:E; simpl.
  - split; [reflexivity |]. apply String.eqb_eq in E. split; [exact E |].
    exists [], ls. repeat split. constructor.
  - destruct (remover_de id ls) as [r ls'] eqn:Er. simpl in *.
    split; [exact IH1 |].
    destruct (find _ ls) as [l |].
    + destruct IH2 as (Hid & l1 & l2 & -> & -> & Hall). split; [exact Hid |].
      exists (x :: l1), l2. repeat split. constructor; [| exact Hall].
      now apply String.eqb_neq in E.
    + now rewrite IH2.
Qed.

(** [remover_lancamento] never raises and returns what [buscar_lancamento]
    finds. When no entry has the identifier the budget is unchanged; otherwise
    exactly the first entry with this identifier is taken out and the others
    keep their order. The alert log is never touched: the alerts an entry
    caused stay after the entry is removed. *)
Theorem remover_lancamento_correto (lancamento_id : string) (self : OrcamentoMensal) :
  let r := remover_lancamento lancamento_id self in
  r.1 = Ok (buscar_lancamento lancamento_id self)
  /\ alertas r.2 = alertas self
  /\ r.2 = com_lancamentos self (lancamentos r.2)
  /\ match buscar_lancamento lancamento_id self with
     | None => r.2 = self
     | Some l =>
         lanc_id (campos l) = lancamento_id
         /\ exists l1 l2,
              lancamentos self = l1 ++ l :: l2
              /\ lancamentos r.2 = l1 ++ l2
              /\ Forall (fun e => lanc_id (campos e) <> lancamento_id) l1
     end.
Proof.
  cbv zeta. unfold remover_lancamento, buscar_lancamento, Py.mbind, Py.get, Py.modify, Py.ret.
  destruct (remover_de_spec lancamento_id (lancamentos self)) as [H1 H2].
  destruct (remover_de lancamento_id (lancamentos self)) as [r ls]. simpl in *.
  split; [now rewrite H1 |]. split; [reflexivity |]. split; [reflexivity |].
  destruct (find _ (lancamentos self)) as [l |].
  - exact H2.
  - rewrite H2. now destruct self.
Qed.

Lemma find_unico {A} (p : A -> bool) (xs : list A) (x : A) :
  x ∈ xs -> p x = true -> (forall y, y ∈ xs -> p y = true -> y = x) ->
  find p xs = Some x.
Proof.
  induction xs as [| z xs IH]; intros Hin Hp Hu; [now apply elem_of_nil in Hin |].
  simpl. destruct (p z) eqn:Ez.
  - f_equal. apply Hu; [constructor | exact Ez].
  - apply IH; [| exact Hp |].
    + apply elem_of_cons in Hin as [-> | Hin]; [congruence | exact Hin].
    + intros y Hy. apply Hu. now constructor.
Qed.

(** The entry an accepted call appends is in the list the call leaves. *)
Lemma aceito_esta_contido fresh l self alerts self' :
  adicionar_lancamento fresh l self = (Ok alerts, self') ->
  lanc_in l (lancamentos self') = true.
Proof.
  intros H.
  apply adicionar_lancamento_estado in H
    as (_ & _ & _ & _ & _ & _ & _ & l' & Hc & _ & Hl).
  apply lanc_in_true. exists l'. split.
  - rewrite Hl, (sort_perm Lancamento_lt), elem_of_app, list_elem_of_singleton. now right.
  - apply Lancamento_eq_spec. left. now rewrite Hc.
Qed.

(** An accepted entry is found again: [buscar_lancamento] with its identifier
    returns the entry as it is held (the same attributes; an expense may have
    gained the limit tag), [in] answers true for it, and the budget has one
    entry more. *)
Theorem buscar_apos_adicionar (fresh : nat -> Carimbo) (l : Lancamento)
    (self : OrcamentoMensal) (alerts : list Alerta) (self' : OrcamentoMensal) :
  adicionar_lancamento fresh l self = (Ok alerts, self') ->
  (exists l', buscar_lancamento (lanc_id (campos l)) self' = Some l'
              /\ campos l' = campos l
              /\ eh_receita l' = eh_receita l)
  /\ Orcamento_contains self' l = true
  /\ Orcamento_len self' = S (Orcamento_len self).
Proof.
  intros H.
  apply adicionar_lancamento_estado in H
    as (_ & Hin & _ & _ & _ & _ & _ & l' & Hc & Hr & Hl).
  pose proof (sort_perm Lancamento_lt (lancamentos self ++ [l'])) as Hp.
  rewrite <- Hl in Hp.
  assert (Hl' : l' ∈ lancamentos self').
  { rewrite Hp, elem_of_app, list_elem_of_singleton. now right. }
  repeat split.
  - exists l'. split; [| now split].
    unfold buscar_lancamento. apply find_unico.
    + exact Hl'.
    + rewrite Hc. apply String.eqb_refl.
    + intros y Hy Hid. rewrite Hp, elem_of_app, list_elem_of_singleton in Hy.
      destruct Hy as [Hy | Hy]; [| exact Hy].
      apply lanc_in_false in Hin. rewrite Forall_forall in Hin.
      apply Hin, Lancamento_eq_false_id in Hy.
      apply String.eqb_eq in Hid. contradiction.
  - unfold Orcamento_contains. apply lanc_in_true. exists l'. split; [exact Hl' |].
    apply Lancamento_eq_spec. left. now rewrite Hc.
  - unfold Orcamento_len. rewrite Hp, length_app. simpl. lia.
Qed.

(** An entry that was accepted is refused when it is added again, whatever
    happened to the budget's alerts in between: the second call raises a
    ValueError and changes nothing. *)
Theorem adicionar_duas_vezes (fresh fresh2 : nat -> Carimbo) (l : Lancamento)
    (self : OrcamentoMensal) (alerts : list Alerta) (self' : OrcamentoMensal) :
  adicionar_lancamento fresh l self = (Ok alerts, self') ->
  adicionar_lancamento fresh2 l self'
  = (Raise (ValueError "Lançamento já existe neste orçamento."), self').
Proof.
  intros H.
  pose proof (aceito_esta_contido _ _ _ _ _ H) as Hin.
  apply adicionar_lancamento_estado in H as (Hm & _ & _ & Hmes & Hano & _).
  abrir_adicionar. simpl.
  rewrite bool_decide_eq_false_2.
  - now rewrite Hin.
  - intros Hne. apply Hne. unfold mes_ano in *. now rewrite Hmes, Hano.
Qed.

Lemma remover_de_insert (lt : Lancamento -> Lancamento -> bool) (x : Lancamento)
    (L : list Lancamento) :
  Forall (fun e => lanc_id (campos e) <> lanc_id (campos x)) L ->
  remover_de (lanc_id (campos x)) (Py.insert lt x L) = (Some x, L).
Proof.
  induction 1 as [| y L Hy _ IH]; simpl.
  - now rewrite String.eqb_refl.
  - destruct (lt x y); simpl.
    + now rewrite String.eqb_refl.
    + apply String.eqb_neq in Hy. now rewrite Hy, IH.
Qed.

(** Removing by identifier from a list that holds [x] and, besides it, only
    entries of other identifiers: [x] leaves, the others stay. *)
Lemma remover_de_unico (x : Lancamento) (L ls : list Lancamento) :
  ls ≡ₚ L ++ [x] ->
  Forall (fun e => lanc_id (campos e) <> lanc_id (campos x)) L ->
  exists resto, remover_de (lanc_id (campos x)) ls = (Some x, resto) /\ resto ≡ₚ L.
Proof.
  intros Hp Hids.
  assert (Hf : find (fun e => String.eqb (lanc_id (campos e)) (lanc_id (campos x))) ls
               = Some x).
  { apply find_unico.
    - rewrite Hp, elem_of_app, list_elem_of_singleton. now right.
    - apply String.eqb_refl.
    - intros y Hy Hid. rewrite Hp, elem_of_app, list_elem_of_singleton in Hy.
      destruct Hy as [Hy | Hy]; [| exact Hy].
      rewrite Forall_forall in Hids. apply Hids in Hy.
      apply String.eqb_eq in Hid. contradiction. }
  destruct (remover_de_spec (lanc_id (campos x)) ls) as [H1 H2].
  rewrite Hf in H1, H2.
  destruct H2 as (_ & l1 & l2 & E & Hr & _).
  exists (l1 ++ l2). split.
  - destruct (remover_de _ ls) as [r resto]. simpl in *. congruence.
  - apply (Permutation_cons_inv (a := x)).
    rewrite Permutation_middle, <- E, Hp. symmetry. apply Permutation_cons_append.
Qed.

Lemma ordem_fraca_contida {A} (lt : A -> A -> bool) (l1 l2 : list A) :
  (forall x, x ∈ l1 -> x ∈ l2) -> ordem_fraca lt l2 -> ordem_fraca lt l1.
Proof.
  intros Hs (H1 & H2 & H3). repeat split.
  - intros x Hx. apply H1, Hs, Hx.
  - intros x y z Hx Hy Hz. apply H2; apply Hs; assumption.
  - intros x y z Hx Hy Hz. apply H3; apply Hs; assumption.
Qed.

(** Adding an entry and then removing it by its identifier gives back the
    entry as it was held and leaves the entries the budget had before, in some
    order: in sorted order when [<] is a strict weak order on the entries at
    hand (it is not when an amount is NaN). The alerts the insertion made stay
    in the log. *)
Theorem remover_apos_adicionar (fresh : nat -> Carimbo) (l : Lancamento)
    (self : OrcamentoMensal) (alerts : list Alerta) (self' : OrcamentoMensal) :
  adicionar_lancamento fresh l self = (Ok alerts, self') ->
  exists l' self'',
    remover_lancamento (lanc_id (campos l)) self' = (Ok (Some l'), self'')
    /\ campos l' = campos l
    /\ (ordem_fraca Lancamento_lt (lancamentos self ++ [l']) ->
        lancamentos self'' = sort Lancamento_lt (lancamentos self))
    /\ lancamentos self'' ≡ₚ lancamentos self
    /\ alertas self'' = alertas self ++ alerts
    /\ mes_ano self'' = mes_ano self.
Proof.
  intros H.
  apply adicionar_lancamento_estado in H
    as (_ & Hin & _ & Hmes & Hano & _ & Hal & l' & Hc & _ & Hl).
  assert (Hids : Forall (fun e => lanc_id (campos e) <> lanc_id (campos l'))
                        (lancamentos self)).
  { rewrite Hc. apply lanc_in_false in Hin. eapply Forall_impl; [exact Hin |].
    intros e. apply Lancamento_eq_false_id. }
  destruct (remover_de_unico l' (lancamentos self) (lancamentos self'))
    as (resto & Er & Hp); [rewrite Hl; apply sort_perm | exact Hids |].
  exists l', (com_lancamentos self' resto). split; [| split; [exact Hc |]].
  - unfold remover_lancamento, Py.mbind, Py.get, Py.modify, Py.ret.
    now rewrite <- Hc, Er.
  - simpl. split; [| split; [exact Hp |]].
    + intros Hof.
      rewrite Hl, (sort_estavel _ _ _ Hof), ordenar_snoc, remover_de_insert in Er.
      * injection Er as <-. symmetry. apply sort_estavel.
        eapply ordem_fraca_contida; [| exact Hof].
        intros x Hx. apply elem_of_app. now left.
      * now rewrite (ordenar_perm Lancamento_lt (lancamentos self)).
    + split; [exact Hal |]. unfold mes_ano. simpl. now rewrite Hmes, Hano.
Qed.

(** ** Invariants of a budget under [adicionar_lancamento] and [remover_lancamento] *)

Lemma remover_de_sublist (id : string) (ls : list Lancamento) :
  (remover_de id ls).2 `sublist_of` ls.
Proof.
  destruct (remover_de_spec id ls) as [_ H].
  destruct (find _ ls) as [l |].
  - destruct H as (_ & l1 & l2 & E & -> & _). rewrite E.
    apply sublist_app; [reflexivity | now apply sublist_cons].
  - now rewrite H.
Qed.

(** What one call does to a budget: identifier, month, year and planned income
    stay; either the entries shrink to a sublist and the log stays (a removal,
    or an insertion that was refused), or the insertion was accepted. *)
Lemma executar_casos (self : OrcamentoMensal) (op : Operacao) :
  orc_id (executar self op) = orc_id self
  /\ mes (executar self op) = mes self
  /\ ano (executar self op) = ano self
  /\ receitas_previstas (executar self op) = receitas_previstas self
  /\ ((lancamentos (executar self op) `sublist_of` lancamentos self
       /\ alertas (executar self op) = alertas self)
      \/ exists fresh l alerts,
           op = Adicionar fresh l
           /\ adicionar_lancamento fresh l self = (Ok alerts, executar self op)).
Proof.
  destruct op as [fresh l | id]; simpl.
  - destruct (adicionar_lancamento_casos fresh l self)
      as [(msg & E & _) | (alerts & self' & E & _)]; rewrite E; simpl.
    + repeat (split; [reflexivity |]). left. now split.
    + pose proof (adicionar_lancamento_estado _ _ _ _ _ E)
        as (_ & _ & H1 & H2 & H3 & H4 & _).
      repeat (split; [assumption |]). right. now exists fresh, l, alerts.
  - unfold remover_lancamento, Py.mbind, Py.get, Py.modify, Py.ret.
    pose proof (remover_de_sublist id (lancamentos self)) as Hs.
    destruct (remover_de id (lancamentos self)) as [r ls]. simpl in *.
    repeat (split; [reflexivity |]). left. now split.
Qed.

Lemma invariante_varias (I : OrcamentoMensal -> Prop) :
  (forall s op, I s -> I (executar s op)) ->
  forall ops s, I s -> I (executar_varias s ops).
Proof.
  intros Hstep ops. unfold executar_varias.
  induction ops as [| op ops IH]; intros s Hs; simpl; [exact Hs |].
  apply IH, Hstep, Hs.
Qed.

Lemma OrcamentoMensal_init_vazio m a previstas id env self :
  OrcamentoMensal_init m a previstas id env = Ok self ->
  lancamentos self = [] /\ alertas self = [] /\ mes self = m /\ ano self = a
  /\ 1 <= m <= 12 /\ 1900 <= a <= 2100 /\ PrimFloat.ltb previstas f0 = false
  /\ receitas_previstas self = previstas
  /\ orc_id self = str_or id (uuid4 env).
Proof.
  unfold OrcamentoMensal_init.
  destruct ((1 <=? m) && (m <=? 12)) eqn:Em; simpl; [| discriminate].
  destruct ((a <? 1900) || (2100 <? a)) eqn:Ea; [discriminate |].
  destruct (PrimFloat.ltb previstas f0) eqn:Ep; [discriminate |].
  intros [= <-]. simpl.
  apply andb_true_iff in Em as [Em1 Em2]. apply orb_false_iff in Ea as [Ea1 Ea2].
  apply Z.leb_le in Em1, Em2. apply Z.ltb_ge in Ea1, Ea2.
  repeat split; auto; lia.
Qed.

Lemma Forall_sublist_de {A} (P : A -> Prop) (l1 l2 : list A) :
  l1 `sublist_of` l2 -> Forall P l2 -> Forall P l1.
Proof.
  intros Hs Hall. rewrite Forall_forall in *. intros x Hx.
  apply Hall. eapply elem_of_sublist; eauto.
Qed.

Lemma mes_ano_de_campos (l l' : Lancamento) :
  campos l' = campos l -> mes_ano_de l' = mes_ano_de l.
Proof. intros H. unfold mes_ano_de. now rewrite H. Qed.

Lemma pertence_passo (s : OrcamentoMensal) (op : Operacao) :
  Forall (fun l => mes_ano_de l = mes_ano s) (lancamentos s) ->
  mes_ano (executar s op) = mes_ano s
  /\ Forall (fun l => mes_ano_de l = mes_ano (executar s op)) (lancamentos (executar s op)).
Proof.
  intros Hinv.
  destruct (executar_casos s op) as (_ & Hm & Ha & _ & Hc).
  assert (Hma : mes_ano (executar s op) = mes_ano s).
  { unfold mes_ano. now rewrite Hm, Ha. }
  split; [exact Hma |]. rewrite Hma.
  destruct Hc as [[Hs _] | (fresh & l & alerts & -> & E)].
  - eapply Forall_sublist_de; eauto.
  - apply adicionar_lancamento_estado in E
      as (Hl & _ & _ & _ & _ & _ & _ & l' & Hc & _ & ->).
    rewrite (sort_perm Lancamento_lt). apply Forall_app. split; [exact Hinv |].
    constructor; [| constructor]. now rewrite (mes_ano_de_campos _ _ Hc).
Qed.

(** From its construction on, whatever entries are added (accepted or
    refused) and removed, a budget keeps its month and year and only holds
    entries dated in that month and year. *)
Theorem lancamentos_do_mes (m a : Z) (previstas : float) (id : option string)
    (env : Carimbo) (self : OrcamentoMensal) (ops : list Operacao) :
  OrcamentoMensal_init m a previstas id env = Ok self ->
  mes_ano (executar_varias self ops) = (m, a)
  /\ Forall (fun l => month (data (campos l)) = m /\ year (data (campos l)) = a)
            (lancamentos (executar_varias self ops)).
Proof.
  intros H. apply OrcamentoMensal_init_vazio in H as (Hl & _ & Hm & Ha & _).
  assert (HI : mes_ano (executar_varias self ops) = mes_ano self
               /\ Forall (fun l => mes_ano_de l = mes_ano (executar_varias self ops))
                         (lancamentos (executar_varias self ops))).
  { apply (invariante_varias
             (fun s => mes_ano s = mes_ano self
                       /\ Forall (fun l => mes_ano_de l = mes_ano s) (lancamentos s))).
    - intros s op [Hs1 Hs2]. destruct (pertence_passo s op Hs2) as [H1 H2].
      split; [congruence | exact H2].
    - split; [reflexivity |]. rewrite Hl. constructor. }
  destruct HI as [HI1 HI2].
  assert (Hma : mes_ano (executar_varias self ops) = (m, a)).
  { rewrite HI1. unfold mes_ano. now rewrite Hm, Ha. }
  split; [exact Hma |].
  eapply Forall_impl; [exact HI2 |]. simpl. intros l Hl'.
  rewrite Hma in Hl'. unfold mes_ano_de in Hl'. injection Hl' as H1 H2. now split.
Qed.

Lemma lanc_in_false_chaves (l : Lancamento) (ls : list Lancamento) :
  lanc_in l ls = false ->
  (lanc_id (campos l) ∉ map (fun e => lanc_id (campos e)) ls)
  /\ ((data (campos l), lower (descricao (campos l)))
       ∉ map (fun e => (data (campos e), lower (descricao (campos e)))) ls).
Proof.
  intros H. apply lanc_in_false in H. rewrite Forall_forall in H.
  split; intros Hin; apply (list_elem_of_fmap (A := Lancamento)) in Hin as (e & He & Hin);
    apply H in Hin; apply not_true_iff_false in Hin; apply Hin, Lancamento_eq_spec.
  - left. congruence.
  - right. injection He as H1 H2. split; congruence.
Qed.

Lemma sem_repetidos_passo (s : OrcamentoMensal) (op : Operacao) :
  NoDup (map (fun e => lanc_id (campos e)) (lancamentos s))
  /\ NoDup (map (fun e => (data (campos e), lower (descricao (campos e)))) (lancamentos s)) ->
  NoDup (map (fun e => lanc_id (campos e)) (lancamentos (executar s op)))
  /\ NoDup (map (fun e => (data (campos e), lower (descricao (campos e))))
              (lancamentos (executar s op))).
Proof.
  intros [H1 H2].
  destruct (executar_casos s op) as (_ & _ & _ & _ & Hc).
  destruct Hc as [[Hs _] | (fresh & l & alerts & -> & E)].
  - split; (eapply sublist_NoDup; [eassumption | apply (fmap_sublist _ _ _ Hs)]).
  - apply adicionar_lancamento_estado in E
      as (_ & Hin & _ & _ & _ & _ & _ & l' & Hc & _ & ->).
    apply lanc_in_false_chaves in Hin as [Hi1 Hi2].
    pose proof (sort_perm Lancamento_lt (lancamentos s ++ [l'])) as Hp.
    split.
    + rewrite (fmap_Permutation _ _ _ Hp), fmap_app. simpl. rewrite Hc.
      apply NoDup_app. split; [exact H1 |]. split; [| apply NoDup_singleton].
      intros x Hx Hx'. apply list_elem_of_singleton in Hx'. subst. contradiction.
    + rewrite (fmap_Permutation _ _ _ Hp), fmap_app. simpl. rewrite Hc.
      apply NoDup_app. split; [exact H2 |]. split; [| apply NoDup_singleton].
      intros x Hx Hx'. apply list_elem_of_singleton in Hx'. subst. contradiction.
Qed.

(** From its construction on, whatever entries are added and removed, a
    budget never holds two entries with the same identifier, nor two with the
    same date and the same description up to case: any two entries at
    different positions are different under [Lancamento.__eq__]. *)
Theorem lancamentos_sem_repetidos (m a : Z) (previstas : float) (id : option string)
    (env : Carimbo) (self : OrcamentoMensal) (ops : list Operacao) :
  OrcamentoMensal_init m a previstas id env = Ok self ->
  let ls := lancamentos (executar_varias self ops) in
  NoDup (map (fun e => lanc_id (campos e)) ls)
  /\ NoDup (map (fun e => (data (campos e), lower (descricao (campos e)))) ls)
  /\ forall i j l1 l2, ls !! i = Some l1 -> ls !! j = Some l2 -> i <> j ->
                       Lancamento_eq l1 l2 = false.
Proof.
  intros H. cbv zeta. apply OrcamentoMensal_init_vazio in H as (Hl & _).
  assert (HI : NoDup (map (fun e => lanc_id (campos e))
                        (lancamentos (executar_varias self ops)))
               /\ NoDup (map (fun e => (data (campos e), lower (descricao (campos e))))
                           (lancamentos (executar_varias self ops)))).
  { apply (invariante_varias
             (fun s => NoDup (map (fun e => lanc_id (campos e)) (lancamentos s))
                       /\ NoDup (map (fun e => (data (campos e),
                                                 lower (descricao (campos e))))
                                   (lancamentos s)))).
    - intros s op. apply sem_repetidos_passo.
    - rewrite Hl. split; constructor. }
  destruct HI as [H1 H2]. split; [exact H1 |]. split; [exact H2 |].
  intros i j l1 l2 Hi Hj Hne. apply not_true_is_false. intros Heq.
  apply Lancamento_eq_spec in Heq. destruct Heq as [Heq | [Hd Hs]].
  - apply Hne. eapply (proj1 (NoDup_alt _) H1).
    + change (map ?f ?l) with (f <$> l). rewrite list_lookup_fmap, Hi. reflexivity.
    + change (map ?f ?l) with (f <$> l). rewrite list_lookup_fmap, Hj. simpl.
      now rewrite Heq.
  - apply Hne. eapply (proj1 (NoDup_alt _) H2).
    + change (map ?f ?l) with (f <$> l). rewrite list_lookup_fmap, Hi. reflexivity.
    + change (map ?f ?l) with (f <$> l). rewrite list_lookup_fmap, Hj. simpl.
      now rewrite Hd, Hs.
Qed.

Lemma Lancamento_lt_true (x y : Lancamento) : Lancamento_lt x y = true -> nao_depois x y.
Proof.
  unfold Lancamento_lt, nao_depois, date_eqb.
  destruct (bool_decide_reflect (data (campos x) = data (campos y))) as [E | E].
  - intros _. rewrite E. apply date_ltb_irrefl.
  - apply date_ltb_asym.
Qed.

Lemma Lancamento_lt_false (x y : Lancamento) : Lancamento_lt x y = false -> nao_depois y x.
Proof.
  unfold Lancamento_lt, nao_depois, date_eqb.
  destruct (bool_decide_reflect (data (campos x) = data (campos y))) as [E | E].
  - intros _. rewrite E. apply date_ltb_irrefl.
  - trivial.
Qed.

(** Every answer of [Lancamento.__lt__] agrees with the order of the dates,
    also when it compares a NaN amount: the sort leaves the dates in order. *)
Lemma sort_Lancamento_lt_sorted (l : list Lancamento) :
  Sorted nao_depois (sort Lancamento_lt l).
Proof.
  apply sort_coerente.
  - apply nao_depois_trans.
  - intros x y _ _. destruct (Lancamento_lt x y) eqn:E.
    + now apply Lancamento_lt_true.
    + now apply Lancamento_lt_false.
Qed.

Lemma StronglySorted_sublist_de {A} (R : A -> A -> Prop) (l1 l2 : list A) :
  l1 `sublist_of` l2 -> StronglySorted R l2 -> StronglySorted R l1.
Proof.
  induction 1 as [| x l1 l2 Hs IH | x l1 l2 Hs IH]; intros H.
  - constructor.
  - inversion H; subst. constructor; [now apply IH |].
    eapply Forall_sublist_de; eauto.
  - inversion H; subst. now apply IH.
Qed.

Lemma ordenado_passo (s : OrcamentoMensal) (op : Operacao) :
  Sorted nao_depois (lancamentos s) -> Sorted nao_depois (lancamentos (executar s op)).
Proof.
  intros Hinv.
  destruct (executar_casos s op) as (_ & _ & _ & _ & Hc).
  destruct Hc as [[Hs _] | (fresh & l & alerts & -> & E)].
  - apply StronglySorted_Sorted. eapply StronglySorted_sublist_de; [exact Hs |].
    apply Sorted_StronglySorted; [apply nao_depois_trans | exact Hinv].
  - apply adicionar_lancamento_estado in E
      as (_ & _ & _ & _ & _ & _ & _ & l' & _ & _ & ->).
    apply sort_Lancamento_lt_sorted.
Qed.

(** An accepted insertion leaves the entries in date order, whatever order
    they were in before; and from its construction on, whatever entries are
    added and removed, a budget holds its entries in date order (no entry is
    dated before the one in front of it). *)
Theorem lancamentos_em_ordem_de_data :
  (forall fresh l self alerts self',
      adicionar_lancamento fresh l self = (Ok alerts, self') ->
      Sorted nao_depois (lancamentos self'))
  /\ (forall m a previstas id env self ops,
         OrcamentoMensal_init m a previstas id env = Ok self ->
         Sorted nao_depois (lancamentos (executar_varias self ops))).
Proof.
  split.
  - intros fresh l self alerts self' E.
    apply adicionar_lancamento_estado in E
      as (_ & _ & _ & _ & _ & _ & _ & l' & _ & _ & ->).
    apply sort_Lancamento_lt_sorted.
  - intros m a previstas id env self ops H.
    apply OrcamentoMensal_init_vazio in H as (Hl & _).
    apply (invariante_varias (fun s => Sorted nao_depois (lancamentos s))).
    + apply ordenado_passo.
    + rewrite Hl. constructor.
Qed.

(** ** The alert log *)

Lemma log_passo (s : OrcamentoMensal) (op : Operacao) :
  alertas s `prefix_of` alertas (executar s op).
Proof.
  destruct (executar_casos s op) as (_ & _ & _ & _ & Hc).
  destruct Hc as [[_ ->] | (fresh & l & alerts & -> & E)]; [reflexivity |].
  apply adicionar_lancamento_estado in E as (_ & _ & _ & _ & _ & _ & -> & _).
  now apply prefix_app_r.
Qed.

(** The alert log of a budget only grows at its end: after any sequence of
    insertions (accepted or refused) and removals the log the budget had
    before is a prefix of its log, so no alert is ever dropped, changed or
    moved, not even when the entry that caused it is removed. *)
Theorem log_so_cresce (self : OrcamentoMensal) (ops : list Operacao) :
  alertas self `prefix_of` alertas (executar_varias self ops).
Proof.
  apply (invariante_varias (fun s => alertas self `prefix_of` alertas s)).
  - intros s op Hs. etransitivity; [exact Hs | apply log_passo].
  - reflexivity.
Qed.

(** After an accepted insertion a negative balance is always on record: if
    the budget is in deficit its log holds a deficit alert of its month and
    year. *)
Theorem deficit_sempre_registrado (fresh : nat -> Carimbo) (l : Lancamento)
    (self : OrcamentoMensal) (alerts : list Alerta) (self' : OrcamentoMensal) :
  adicionar_lancamento fresh l self = (Ok alerts, self') ->
  tem_deficit self' = true -> deficit_existente self' = true.
Proof.
  intros H Hdef.
  apply adicionar_lancamento_inv in H
    as (_ & _ & l' & g1 & g2 & g3 & _ & Hg3 & _ & ->).
  unfold etapa_deficit in Hg3.
  change (tem_deficit (com_alertas ?p ?x)) with (tem_deficit p) in Hdef.
  rewrite Hdef in Hg3. simpl in Hg3.
  unfold deficit_existente, com_alertas, mes_ano in *. simpl in *.
  rewrite existsb_app.
  destruct (existsb _ (alertas self ++ g1 ++ g2)); [reflexivity |]. simpl in Hg3.
  apply gera_deficit in Hg3 as (a & -> & _ & Ht & _ & _ & Hm).
  simpl. unfold eh_deficit_de. rewrite Ht, Hm.
  rewrite !bool_decide_eq_true_2; reflexivity.
Qed.

(** The alerts an accepted insertion returns are at most three, of different
    kinds, in the order high value, limit, deficit (least severe first); an
    income entry can only return the deficit alert; every returned alert is
    unread. *)
Theorem alertas_de_uma_insercao (fresh : nat -> Carimbo) (l : Lancamento)
    (self : OrcamentoMensal) (alerts : list Alerta) (self' : OrcamentoMensal) :
  adicionar_lancamento fresh l self = (Ok alerts, self') ->
  map alerta_tipo alerts `sublist_of` [ALTO_VALOR; LIMITE_EXCEDIDO; DEFICIT_ORCAMENTARIO]
  /\ (eh_receita l = true -> map alerta_tipo alerts `sublist_of` [DEFICIT_ORCAMENTARIO])
  /\ (length alerts <= 3)%nat
  /\ Forall (fun a => lido a = false) alerts.
Proof.
  intros H.
  apply adicionar_lancamento_inv in H
    as (_ & _ & l' & g1 & g2 & g3 & Hd & Hg3 & -> & _).
  assert (H1 : (g1 = [] \/ exists a, g1 = [a] /\ alerta_tipo a = ALTO_VALOR /\ lido a = false)
               /\ (g2 = [] \/ exists a, g2 = [a] /\ alerta_tipo a = LIMITE_EXCEDIDO
                                        /\ lido a = false)
               /\ (eh_receita l = true -> g1 = [] /\ g2 = [])).
  { unfold etapa_despesa in Hd. destruct l as [c | d].
    - destruct Hd as (_ & -> & ->). auto.
    - cbv zeta in Hd. destruct Hd as (_ & Ha & Hb).
      split; [| split; [| discriminate]].
      + destruct (str_in "ALTO_VALOR" (d_alertas d)); [| now left].
        right. destruct Ha as (a & Ea & ->). exists a. split; [reflexivity |].
        unfold criar_alerta_alto_valor, Alerta_init in Ea. simpl in Ea.
        injection Ea as <-. now split.
      + destruct (verificar_limite_categoria d _).1; [| now left].
        right. destruct Hb as (lim & _ & a & Ea & ->). exists a. split; [reflexivity |].
        unfold criar_alerta_limite_excedido, Alerta_init in Ea. simpl in Ea.
        injection Ea as <-. now split. }
  assert (H3 : g3 = [] \/ exists a, g3 = [a] /\ alerta_tipo a = DEFICIT_ORCAMENTARIO
                                    /\ lido a = false).
  { unfold etapa_deficit in Hg3.
    destruct (tem_deficit _ && negb (deficit_existente _)); [| now left].
    right. destruct Hg3 as (a & Ea & ->). exists a. split; [reflexivity |].
    unfold criar_alerta_deficit, Alerta_init in Ea. simpl in Ea.
    injection Ea as <-. now split. }
  destruct H1 as (Hg1 & Hg2 & Hrec).
  destruct Hg1 as [-> | (a1 & -> & Ht1 & Hl1)];
    destruct Hg2 as [-> | (a2 & -> & Ht2 & Hl2)];
    destruct H3 as [-> | (a3 & -> & Ht3 & Hl3)]; simpl;
    rewrite ?Ht1, ?Ht2, ?Ht3.
  all: split; [repeat first [apply sublist_nil_l | apply sublist_skip | apply sublist_cons] |].
  all: split;
    [ intros Hr; destruct (Hrec Hr) as [E1 E2]; try discriminate E1; try discriminate E2;
      repeat first [apply sublist_nil_l | apply sublist_skip | apply sublist_cons] |].
  all: split; [lia |].
  all: repeat constructor; assumption.
Qed.

(** ** Planned income and the setters of a budget *)

Ltac abrir_totais :=
  unfold tem_deficit, deficit_existente, saldo, total_receitas, total_despesas,
    total_por_categoria, mes_ano, com_lancamentos, com_alertas.

Lemma adicionar_lancamento_previstas fresh l self v :
  adicionar_lancamento fresh l
    (mkOrcamento (orc_id self) (mes self) (ano self) v (lancamentos self) (alertas self))
  = ((adicionar_lancamento fresh l self).1,
     mkOrcamento (orc_id (adicionar_lancamento fresh l self).2)
       (mes (adicionar_lancamento fresh l self).2)
       (ano (adicionar_lancamento fresh l self).2) v
       (lancamentos (adicionar_lancamento fresh l self).2)
       (alertas (adicionar_lancamento fresh l self).2)).
Proof.
  abrir_adicionar. abrir_totais. simpl.
  destruct (bool_decide _); [reflexivity |].
  destruct (lanc_in l (lancamentos self)); [reflexivity |].
  destruct l as [c | d]; simpl.
  - abrir_totais. simpl.
    destruct (PrimFloat.ltb _ f0); [| reflexivity].
    destruct (negb _); reflexivity.
  - destruct (str_in "ALTO_VALOR" (d_alertas d)); simpl;
      (destruct (verificar_limite_categoria d _) as [exc d']; destruct exc; simpl;
       [ destruct (limite_para_formatar _); simpl; [| reflexivity] |]);
      abrir_totais; simpl;
      (destruct (PrimFloat.ltb _ f0); [| reflexivity]);
      destruct (negb _); reflexivity.
Qed.

(** Planned income plays no part in the alert engine: after the
    [receitas_previstas] setter accepted a value, the balance and the deficit
    flag are what they were and [adicionar_lancamento] returns the same result
    (the same alerts or the same exception) and leaves the same entries and
    the same log as it would have without the change. *)
Theorem receitas_previstas_nao_influi (fresh : nat -> Carimbo) (l : Lancamento)
    (self self_v : OrcamentoMensal) (v : float) :
  Orcamento_set_receitas_previstas self v = Ok self_v ->
  saldo self_v = saldo self
  /\ tem_deficit self_v = tem_deficit self
  /\ (adicionar_lancamento fresh l self_v).1 = (adicionar_lancamento fresh l self).1
  /\ lancamentos (adicionar_lancamento fresh l self_v).2
     = lancamentos (adicionar_lancamento fresh l self).2
  /\ alertas (adicionar_lancamento fresh l self_v).2
     = alertas (adicionar_lancamento fresh l self).2
  /\ receitas_previstas (adicionar_lancamento fresh l self_v).2 = v.
Proof.
  unfold Orcamento_set_receitas_previstas.
  destruct (PrimFloat.ltb v f0); [discriminate |]. intros [= <-].
  rewrite adicionar_lancamento_previstas. simpl. repeat split.
Qed.

(** The [mes] setter checks the range of the month and nothing else: on a
    budget that holds entries it accepts another month and keeps the entries,
    which then belong to a month that is not the budget's. *)
Theorem Orcamento_set_mes_nao_verifica (self : OrcamentoMensal) (v : Z) (l : Lancamento) :
  l ∈ lancamentos self -> mes_ano_de l = mes_ano self ->
  1 <= v <= 12 -> v <> mes self ->
  exists self',
    Orcamento_set_mes self v = Ok self'
    /\ lancamentos self' = lancamentos self
    /\ alertas self' = alertas self
    /\ mes_ano self' = (v, ano self)
    /\ mes_ano_de l <> mes_ano self'.
Proof.
  intros Hin Hm Hv Hne. unfold Orcamento_set_mes.
  replace ((1 <=? v) && (v <=? 12)) with true
    by (symmetry; apply andb_true_iff; split; apply Z.leb_le; lia).
  simpl. eexists. split; [reflexivity |]. simpl. repeat split.
  rewrite Hm. unfold mes_ano. simpl. intros [=]. congruence.
Qed.

(** ** Invariants of a Despesa under its public mutators *)

Lemma str_in_false_not_in (t : string) (ts : list string) :
  str_in t ts = false -> t ∉ ts.
Proof.
  unfold str_in. intros H Hin. apply list_elem_of_In in Hin.
  assert (existsb (String.eqb t) ts = true); [| congruence].
  apply existsb_exists. exists t. split; [exact Hin | apply String.eqb_refl].
Qed.

Lemma despesa_integra_passo (id : string) (d : Despesa) (op : OpDespesa) :
  despesa_integra id d -> despesa_integra id (aplicar_op d op).
Proof.
  intros (Hid & Hnd & Hts & Hc & Hv). unfold despesa_integra.
  destruct op as [v | c | dt | s | fp | t]; simpl.
  - unfold Despesa_set_valor, Campos_set_valor, validar_valor.
    destruct (PrimFloat.leb v f0) eqn:E; simpl; repeat split; assumption.
  - unfold Despesa_set_categoria, Despesa_validar_categoria.
    destruct (bool_decide_reflect (cat_tipo c <> DESPESA)) as [E | E]; simpl;
      repeat split; try assumption.
    destruct (cat_tipo c); [contradiction E; discriminate | reflexivity].
  - repeat split; assumption.
  - unfold Despesa_set_descricao, validar_descricao.
    destruct (negb (truthy s)); simpl; repeat split; assumption.
  - repeat split; assumption.
  - pose proof (verificar_limite_categoria_campos d t) as Hcs.
    rewrite Hcs.
    split; [exact Hid |].
    assert (Hcase : d_alertas (verificar_limite_categoria d t).2 = d_alertas d
                    \/ (str_in "LIMITE_EXCEDIDO" (d_alertas d) = false
                        /\ d_alertas (verificar_limite_categoria d t).2
                           = d_alertas d ++ ["LIMITE_EXCEDIDO"])).
    { unfold verificar_limite_categoria.
      destruct (cat_limite_mensal _); [| now left].
      destruct (PrimFloat.ltb _ _); [| now left].
      destruct (str_in "LIMITE_EXCEDIDO" (d_alertas d)) eqn:E; simpl; [now left |].
      right. now split. }
    destruct Hcase as [-> | [Hn ->]]; [repeat split; assumption |].
    split; [| split; [| now split]].
    + apply NoDup_app. split; [exact Hnd |]. split; [| apply NoDup_singleton].
      intros x Hx Hx'. apply list_elem_of_singleton in Hx'. subst.
      now apply str_in_false_not_in in Hn.
    + apply Forall_app. split; [exact Hts |]. constructor; [now right | constructor].
Qed.

(** From its construction on, whatever setters and limit checks are called
    on it (accepted or refused), a Despesa keeps its identifier, has a tag list
    without repetition that only holds "ALTO_VALOR" and "LIMITE_EXCEDIDO", a
    category of kind DESPESA and an amount that is not [<= 0]. *)
Theorem Despesa_invariantes (v : float) (c : Categoria) (dt : date) (desc : string)
    (fp : FormaPagamento) (id : option string) (env : Carimbo) (d : Despesa)
    (ops : list OpDespesa) :
  Despesa_init v c dt desc fp id env = Ok d ->
  despesa_integra (str_or id (uuid4 env)) (aplicar_ops d ops).
Proof.
  intros H.
  assert (H0 : despesa_integra (str_or id (uuid4 env)) d).
  { unfold Despesa_init, Lancamento_init, validar_valor, Despesa_validar_categoria,
      validar_descricao in H.
    destruct (PrimFloat.leb v f0) eqn:Ev; simpl in H; [discriminate |].
    destruct (bool_decide_reflect (cat_tipo c <> DESPESA)) as [Ec | Ec];
      simpl in H; [discriminate |].
    destruct (negb (truthy desc)); simpl in H; [discriminate |].
    injection H as <-. unfold verificar_alertas. simpl.
    assert (Hc : cat_tipo c = DESPESA).
    { destruct (cat_tipo c); [contradiction Ec; discriminate | reflexivity]. }
    destruct (PrimFloat.ltb LIMITE_ALTO_VALOR v); unfold despesa_integra; simpl;
      repeat split; try assumption; try constructor.
    - apply not_elem_of_nil.
    - constructor.
    - now left.
    - constructor. }
  clear H. unfold aplicar_ops. revert d H0.
  induction ops as [| op ops IH]; intros d H0; simpl; [exact H0 |].
  apply IH, despesa_integra_passo, H0.
Qed.

(** ** Serialization round trips *)

Lemma validar_nome_strip (valor n : string) :
  validar_nome valor = Ok n -> n = strip valor /\ validar_nome n = Ok n.
Proof.
  unfold validar_nome. destruct (negb (truthy valor)); [discriminate |].
  destruct (Nat.ltb (len (strip valor)) 2) eqn:E; [discriminate |].
  intros [= <-]. split; [reflexivity |].
  rewrite strip_strip, E.
  destruct (strip valor); [| reflexivity].
  rewrite len_isascii in E by reflexivity. discriminate E.
Qed.

Lemma TipoCategoria_of_value (repr : string -> string) (t : TipoCategoria) :
  TipoCategoria_of repr (TipoCategoria_value t) = Ok t.
Proof. now destruct t. Qed.

Lemma Categoria_init_bem_formada nome tipo limite descr id env c :
  Categoria_init nome tipo limite descr id env = Ok c ->
  truthy (uuid4 env) = true -> categoria_bem_formada c.
Proof.
  unfold Categoria_init, Categoria_set_tipo, Categoria_set_limite_mensal.
  destruct (validar_nome nome) as [n | e] eqn:En; simpl; [| discriminate].
  apply validar_nome_strip in En as [_ En].
  assert (Hid : truthy (uuid4 env) = true -> truthy (str_or id (uuid4 env)) = true).
  { intros Hu. destruct id as [s |]; simpl; [| exact Hu].
    destruct (truthy s) eqn:Es; [exact Es | exact Hu]. }
  destruct limite as [v |]; simpl.
  - destruct (bool_decide_reflect (tipo = RECEITA)) as [Et | Et]; [discriminate |].
    destruct (PrimFloat.leb v f0) eqn:Ev; [discriminate |].
    intros [= <-] Hu. unfold categoria_bem_formada. simpl. auto.
  - intros [= <-] Hu. unfold categoria_bem_formada. simpl. auto.
Qed.

(** [Categoria.from_dict] rebuilds from [to_dict] exactly the category it was
    given, for every category with a non-empty identifier, a name the name
    setter accepts unchanged and a limit the limit setter accepts; every
    category made by the constructor (with a non-empty fresh identifier) is
    one, and stays one through the setters of the name, the limit and the
    description. *)
Theorem Categoria_dict_ida_e_volta :
  (forall (repr : string -> string) (c : Categoria) (env : Carimbo),
      categoria_bem_formada c ->
      Categoria_from_dict repr (Categoria_to_dict c) env = Ok c)
  /\ (forall nome tipo limite descr id env c,
         Categoria_init nome tipo limite descr id env = Ok c ->
         truthy (uuid4 env) = true -> categoria_bem_formada c)
  /\ (forall c c',
         categoria_bem_formada c ->
         (exists n, Categoria_set_nome c n = Ok c')
         \/ (exists v, Categoria_set_limite_mensal c v = Ok c')
         \/ (exists s, Categoria_set_descricao c s = Ok c') ->
         categoria_bem_formada c').
Proof.
  split; [| split].
  - intros repr c env (Hid & Hn & Hl).
    unfold Categoria_from_dict, Categoria_to_dict. simpl.
    rewrite TipoCategoria_of_value. simpl.
    unfold Categoria_init. rewrite Hn. simpl. rewrite Hid.
    unfold Categoria_set_limite_mensal. simpl.
    destruct c as [cid cnome ctipo [v |] cdesc]; simpl in *; [| reflexivity].
    destruct Hl as [Ht Hv]. rewrite Hv.
    destruct (bool_decide_reflect (ctipo = RECEITA)); [contradiction | reflexivity].
  - apply Categoria_init_bem_formada.
  - intros c c' (Hid & Hn & Hl) [(n & H) | [(v & H) | (s & H)]].
    + unfold Categoria_set_nome in H.
      destruct (validar_nome n) as [n' | e] eqn:En; simpl in H; [| discriminate].
      injection H as <-. apply validar_nome_strip in En as [_ En].
      unfold categoria_bem_formada. simpl. auto.
    + unfold Categoria_set_limite_mensal in H. destruct v as [v |].
      * destruct (bool_decide_reflect (cat_tipo c = RECEITA)) as [Et | Et]; [discriminate |].
        destruct (PrimFloat.leb v f0) eqn:Ev; [discriminate |].
        injection H as <-. unfold categoria_bem_formada. simpl. auto.
      * injection H as <-. unfold categoria_bem_formada. simpl. auto.
    + unfold Categoria_set_descricao in H. injection H as <-.
      unfold categoria_bem_formada. simpl. auto.
Qed.

(** A category of kind RECEITA that carries a limit (the [tipo] setter lets
    one arise) is written by [to_dict] but cannot be read back: [from_dict]
    raises the ValueError of the limit setter. *)
Theorem Categoria_receita_com_limite_nao_recarrega (repr : string -> string)
    (c : Categoria) (v : float) (env : Carimbo) :
  cat_tipo c = RECEITA -> cat_limite_mensal c = Some v ->
  validar_nome (cat_nome c) = Ok (cat_nome c) ->
  Categoria_from_dict repr (Categoria_to_dict c) env
  = Raise (ValueError "Categorias de receita não podem ter limite de gastos.").
Proof.
  intros Ht Hl Hn. unfold Categoria_from_dict, Categoria_to_dict. simpl.
  rewrite TipoCategoria_of_value. simpl.
  unfold Categoria_init. rewrite Hn. simpl.
  unfold Categoria_set_limite_mensal. rewrite Hl, Ht. reflexivity.
Qed.

(** [OrcamentoMensal.to_dict] lists the entries and the alerts by identifier
    only, and [from_dict] does not read those lists: whatever was added to or
    removed from a budget since its construction, reading back its dictionary
    gives the budget as it was constructed, with the same identifier, month,
    year and planned income and with no entry and no alert. *)
Theorem Orcamento_dict_ida_e_volta (m a : Z) (previstas : float) (id : option string)
    (env env' : Carimbo) (self : OrcamentoMensal) (ops : list Operacao) :
  OrcamentoMensal_init m a previstas id env = Ok self ->
  truthy (uuid4 env) = true ->
  Orcamento_from_dict (Orcamento_to_dict (executar_varias self ops)) env' = Ok self
  /\ od_lancamentos_ids (Orcamento_to_dict (executar_varias self ops))
     = map (fun l => lanc_id (campos l)) (lancamentos (executar_varias self ops)).
Proof.
  intros H Hu. split; [| reflexivity].
  pose proof (OrcamentoMensal_init_vazio _ _ _ _ _ _ H)
    as (Hl & Hal & Hm & Ha & Hmr & Har & Hp & Hpr & Hid).
  assert (HI : orc_id (executar_varias self ops) = orc_id self
               /\ mes (executar_varias self ops) = mes self
               /\ ano (executar_varias self ops) = ano self
               /\ receitas_previstas (executar_varias self ops) = receitas_previstas self).
  { apply (invariante_varias
             (fun s => orc_id s = orc_id self /\ mes s = mes self /\ ano s = ano self
                       /\ receitas_previstas s = receitas_previstas self)).
    - intros s op (H1 & H2 & H3 & H4).
      destruct (executar_casos s op) as (E1 & E2 & E3 & E4 & _).
      repeat split; congruence.
    - repeat split. }
  destruct HI as (H1 & H2 & H3 & H4).
  unfold Orcamento_from_dict, Orcamento_to_dict. simpl.
  rewrite H1, H2, H3, H4, Hm, Ha, Hpr, Hid.
  assert (Ht : truthy (str_or id (uuid4 env)) = true).
  { destruct id as [s |]; simpl; [| exact Hu].
    destruct (truthy s) eqn:Es; [exact Es | exact Hu]. }
  unfold OrcamentoMensal_init.
  replace ((1 <=? m) && (m <=? 12)) with true
    by (symmetry; apply andb_true_iff; split; apply Z.leb_le; lia).
  replace ((a <? 1900) || (2100 <? a)) with false
    by (symmetry; apply orb_false_iff; split; apply Z.ltb_ge; lia).
  rewrite Hp. simpl. rewrite Ht.
  destruct self as [sid sm sa sp sl sal]. simpl in *. subst. reflexivity.
Qed.

(** ** Expenses by payment form *)

Lemma acumular_fold (chave : Lancamento -> string) (k : string) (ls : list Lancamento)
    (totais : gmap string float) :
  let P := fun l => eh_despesa l && String.eqb (chave l) k in
  fold_left (fun totais lanc =>
               if eh_despesa lanc
               then acumular (chave lanc) (valor (campos lanc)) totais
               else totais) ls totais !! k
  = match totais !! k with
    | Some v => Some (fold_left PrimFloat.add (valores (filter (fun l => P l = true) ls)) v)
    | None => if existsb P ls
              then Some (fold_left PrimFloat.add (valores (filter (fun l => P l = true) ls)) f0)
              else None
    end.
Proof.
  cbv zeta. revert totais. induction ls as [| l ls IH]; intros totais; simpl.
  - now destruct (totais !! k).
  - rewrite IH, filter_cons. clear IH.
    destruct (eh_despesa l) eqn:Ed; simpl.
    + unfold acumular.
      destruct (String.eqb (chave l) k) eqn:En.
      * apply String.eqb_eq in En. rewrite En, lookup_insert_eq.
        destruct (decide (true = true)); [| congruence]. simpl.
        now destruct (totais !! k).
      * apply String.eqb_neq in En. rewrite lookup_insert_ne by exact En.
        destruct (decide (false = true)); [discriminate |]. reflexivity.
    + destruct (decide (false = true)); [discriminate |]. reflexivity.
Qed.

(** [despesas_por_forma_pagamento] has a key for a payment form exactly when
    the budget holds an expense paid that way, and the value is the sum of
    the amounts of those expenses in the order they are held; income entries
    never count, a form that was not used has no entry (not a zero), and no
    key other than the four names of the payment forms appears. *)
Theorem despesas_por_forma_pagamento_correto (self : OrcamentoMensal) :
  (forall fp : FormaPagamento,
      let pagas := filter (fun l => eh_despesa l
                                    && bool_decide (forma_pagamento (campos l) = fp) = true)
                          (lancamentos self) in
      despesas_por_forma_pagamento self !! FormaPagamento_value fp
      = match pagas with
        | [] => None
        | _ => Some (Py.sum (valores pagas))
        end)
  /\ (forall k, (forall fp, k <> FormaPagamento_value fp) ->
                despesas_por_forma_pagamento self !! k = None).
Proof.
  assert (Hinj : forall fp fp', String.eqb (FormaPagamento_value fp') (FormaPagamento_value fp)
                                = bool_decide (fp' = fp)).
  { intros [] []; reflexivity. }
  split.
  - intros fp. cbv zeta. unfold despesas_por_forma_pagamento.
    rewrite (acumular_fold (fun l => FormaPagamento_value (forma_pagamento (campos l)))).
    rewrite lookup_empty. unfold Py.sum.
    replace (filter (fun l => eh_despesa l
                              && bool_decide (forma_pagamento (campos l) = fp) = true)
                    (lancamentos self))
      with (filter (fun l => eh_despesa l
                             && String.eqb (FormaPagamento_value (forma_pagamento (campos l)))
                                           (FormaPagamento_value fp) = true)
                   (lancamentos self))
      by (apply list_filter_iff; intros x; now rewrite Hinj).
    destruct (existsb _ (lancamentos self)) eqn:E.
    + destruct (filter _ (lancamentos self)) eqn:F; [| reflexivity].
      apply existsb_filter_vazio in F. congruence.
    + apply existsb_filter_vazio in E. now rewrite E.
  - intros k Hk. unfold despesas_por_forma_pagamento.
    rewrite (acumular_fold (fun l => FormaPagamento_value (forma_pagamento (campos l)))).
    rewrite lookup_empty.
    replace (existsb _ (lancamentos self)) with false; [reflexivity |].
    symmetry. induction (lancamentos self) as [| l ls IH]; simpl; [reflexivity |].
    rewrite IH, orb_false_r. apply andb_false_iff. right.
    apply String.eqb_neq. intros E. now apply (Hk (forma_pagamento (campos l))).
Qed.

(** ** Descriptions of only whitespace *)

Lemma lstrip_so_espacos (s : string) :
  so_espacos s = true -> lstrip_ascii s = EmptyString.
Proof.
  induction s as [| c s IH]; simpl; [reflexivity |].
  intros H. apply andb_true_iff in H as [Hc Hs]. rewrite Hc. now apply IH.
Qed.

Lemma isspace_isascii (c : ascii) :
  isspace c = true -> Nat.ltb (nat_of_ascii c) 128 = true.
Proof.
  unfold isspace. cbv zeta.
  rewrite orb_true_iff, !andb_true_iff, !Nat.leb_le, Nat.ltb_lt. lia.
Qed.

Lemma so_espacos_isascii (s : string) : so_espacos s = true -> isascii s = true.
Proof.
  induction s as [| c s IH]; simpl; [reflexivity |].
  intros H. apply andb_true_iff in H as [Hc Hs].
  now rewrite (isspace_isascii c Hc), IH.
Qed.

Lemma strip_so_espacos (s : string) : so_espacos s = true -> strip s = EmptyString.
Proof.
  intros H. rewrite strip_isascii by now apply so_espacos_isascii.
  unfold strip_ascii. now rewrite (lstrip_so_espacos s H).
Qed.

(** The description setter tests the raw string and stores the trimmed one:
    a description that is not empty but holds only whitespace is accepted, and
    the entry is built with the empty description; the name setter of a
    category refuses the same string. *)
Theorem descricao_so_de_espacos (validar : Categoria -> Resultado unit) (v : float)
    (c : Categoria) (dt : date) (desc : string) (fp : FormaPagamento)
    (id : option string) (env : Carimbo) :
  truthy desc = true -> so_espacos desc = true ->
  PrimFloat.leb v f0 = false -> validar c = Ok tt ->
  Lancamento_init validar v c dt desc fp id env
  = Ok (mkCampos (str_or id (uuid4 env)) v c dt "" fp)
  /\ validar_nome desc
     = Raise (ValueError "Nome da categoria deve ter pelo menos 2 caracteres.").
Proof.
  intros Ht Hs Hv Hc. split.
  - unfold Lancamento_init, validar_valor, validar_descricao.
    rewrite Hv, Hc, Ht. simpl. now rewrite (strip_so_espacos desc Hs).
  - unfold validar_nome. rewrite Ht, (strip_so_espacos desc Hs).
    rewrite len_isascii by reflexivity. reflexivity.
Qed.

(** ** The category cache of the data manager *)

Lemma find_app_none {A} (p : A -> bool) (xs ys : list A) :
  existsb p xs = false -> find p (xs ++ ys) = find p ys.
Proof.
  induction xs as [| x xs IH]; simpl; [reflexivity |].
  intros H. apply orb_false_iff in H as [Hx Hxs]. rewrite Hx. now apply IH.
Qed.

Lemma find_app_some {A} (p : A -> bool) (xs ys : list A) :
  existsb p xs = true -> exists x, find p (xs ++ ys) = Some x /\ x ∈ xs.
Proof.
  induction xs as [| x xs IH]; simpl; [discriminate |].
  destruct (p x) eqn:Hx.
  - intros _. exists x. split; [reflexivity | constructor].
  - simpl. intros H. destruct (IH H) as (y & Hy & Hin). exists y.
    split; [exact Hy | now constructor].
Qed.

Lemma Categoria_init_campos nome tipo limite descr id env c :
  Categoria_init nome tipo limite descr id env = Ok c ->
  cat_nome c = strip nome /\ cat_tipo c = tipo /\ cat_id c = str_or id (uuid4 env).
Proof.
  unfold Categoria_init, Categoria_set_tipo, Categoria_set_limite_mensal.
  destruct (validar_nome nome) as [n | e] eqn:En; simpl; [| discriminate].
  apply validar_nome_strip in En as [-> _].
  destruct limite as [v |]; simpl.
  - destruct (bool_decide (tipo = RECEITA)); [discriminate |].
    destruct (PrimFloat.leb v f0); [discriminate |].
    intros [= <-]. auto.
  - intros [= <-]. auto.
Qed.

(** [criar_categoria] either raises and leaves the cache as it was, or
    appends the new category, whose name is the trimmed name and whose kind is
    the kind asked for. It only succeeds when no cached category has this name
    (up to case) and kind, and when the name was given trimmed
    [buscar_categoria_por_nome] then finds the new category under it. *)
Theorem criar_categoria_correto (nome : string) (tipo : TipoCategoria)
    (limite : option float) (descr : option string) (env : Carimbo)
    (cs : list Categoria) :
  match criar_categoria nome tipo limite descr env cs with
  | (Raise e, cs') => cs' = cs
  | (Ok c, cs') =>
      cs' = cs ++ [c]
      /\ Categoria_init nome tipo limite descr None env = Ok c
      /\ cat_nome c = strip nome /\ cat_tipo c = tipo
      /\ buscar_categoria_por_nome nome tipo cs = None
      /\ (strip nome = nome -> buscar_categoria_por_nome nome tipo cs' = Some c)
  end.
Proof.
  unfold criar_categoria, Py.mbind, Py.get, Py.raise, Py.lift, Py.modify, Py.ret.
  destruct (existsb (mesmo_nome_e_tipo nome tipo) cs) eqn:E; [reflexivity |].
  destruct (Categoria_init nome tipo limite descr None env) as [c | e] eqn:Ec;
    [| reflexivity].
  simpl. pose proof (Categoria_init_campos _ _ _ _ _ _ _ Ec) as (Hn & Ht & _).
  split; [reflexivity |]. split; [reflexivity |].
  split; [exact Hn |]. split; [exact Ht |].
  split.
  - unfold buscar_categoria_por_nome.
    destruct (find _ cs) as [x |] eqn:F; [| reflexivity].
    apply find_some in F as [Hin Hx].
    assert (existsb (mesmo_nome_e_tipo nome tipo) cs = true); [| congruence].
    apply existsb_exists. eauto.
  - intros Hs. unfold buscar_categoria_por_nome. rewrite (find_app_none _ _ _ E).
    simpl. unfold mesmo_nome_e_tipo. rewrite Hn, Hs, Ht, String.eqb_refl.
    now rewrite bool_decide_eq_true_2.
Qed.

(** The duplicate check of [criar_categoria] compares the name as given,
    while the constructor stores it trimmed: a name that only differs from a
    cached category's name by surrounding whitespace passes the check, and the
    cache then holds two categories that are equal under [Categoria.__eq__];
    looking the new category up by its own name returns an older one. *)
Theorem criar_categoria_duplica_com_espacos (nome : string) (tipo : TipoCategoria)
    (limite : option float) (descr : option string) (env : Carimbo)
    (cs : list Categoria) (c0 c : Categoria) :
  c0 ∈ cs -> cat_tipo c0 = tipo -> lower (cat_nome c0) = lower (strip nome) ->
  (forall c1, c1 ∈ cs -> cat_tipo c1 = tipo -> lower (cat_nome c1) <> lower nome) ->
  Categoria_init nome tipo limite descr None env = Ok c ->
  criar_categoria nome tipo limite descr env cs = (Ok c, cs ++ [c])
  /\ Categoria_eq c0 c = true
  /\ exists c1, buscar_categoria_por_nome (cat_nome c) tipo (cs ++ [c]) = Some c1
                /\ c1 ∈ cs.
Proof.
  intros Hin Ht Hn Hcheck Hc.
  pose proof (Categoria_init_campos _ _ _ _ _ _ _ Hc) as (Hcn & Hct & _).
  assert (E : existsb (mesmo_nome_e_tipo nome tipo) cs = false).
  { apply not_true_is_false. intros E. apply existsb_exists in E as (x & Hx & Hp).
    unfold mesmo_nome_e_tipo in Hp. apply andb_true_iff in Hp as [Hp1 Hp2].
    apply String.eqb_eq in Hp1. apply bool_decide_eq_true in Hp2.
    apply (Hcheck x); [now apply list_elem_of_In | exact Hp2 | exact Hp1]. }
  split; [| split].
  - unfold criar_categoria, Py.mbind, Py.get, Py.raise, Py.lift, Py.modify, Py.ret.
    now rewrite E, Hc.
  - apply Categoria_eq_spec. split; congruence.
  - unfold buscar_categoria_por_nome. apply find_app_some.
    apply existsb_exists. exists c0. split; [now apply list_elem_of_In |].
    unfold mesmo_nome_e_tipo. rewrite Hcn, Hn, String.eqb_refl.
    now rewrite bool_decide_eq_true_2.
Qed.

(** ** Deficit alerts across insertions and removals *)

Lemma deficit_existente_passo (s : OrcamentoMensal) (op : Operacao) :
  deficit_existente s = true -> deficit_existente (executar s op) = true.
Proof.
  intros H. destruct (executar_casos s op) as (_ & Hm & Ha & _ & _).
  destruct (log_passo s op) as [k Hk].
  unfold deficit_existente, mes_ano in *. rewrite Hm, Ha, Hk, existsb_app, H. reflexivity.
Qed.

Lemma conta_deficit_executar (s : OrcamentoMensal) (op : Operacao) :
  (conta_deficit s <= 1)%nat -> (conta_deficit (executar s op) <= 1)%nat.
Proof.
  intros H. destruct op as [fresh l | id]; simpl.
  - now apply conta_deficit_passo.
  - unfold remover_lancamento, Py.mbind, Py.get, Py.modify, Py.ret.
    destruct (remover_de id (lancamentos s)) as [r ls]. exact H.
Qed.

(** Once a deficit alert of the budget's month is in the log, no later
    insertion returns a deficit alert, whatever was added or removed in
    between, even if the balance recovered and fell below zero again; and
    with removals interleaved a budget still never logs more than one deficit
    alert of its month. *)
Theorem deficit_alertado_uma_so_vez :
  (forall self ops fresh l alerts self',
      deficit_existente self = true ->
      adicionar_lancamento fresh l (executar_varias self ops) = (Ok alerts, self') ->
      Forall (fun a => alerta_tipo a <> DEFICIT_ORCAMENTARIO) alerts)
  /\ (forall m a previstas id env self ops,
         OrcamentoMensal_init m a previstas id env = Ok self ->
         (conta_deficit (executar_varias self ops) <= 1)%nat).
Proof.
  split.
  - intros self ops fresh l alerts self' Hd E.
    assert (Hd' : deficit_existente (executar_varias self ops) = true).
    { apply (invariante_varias (fun s => deficit_existente s = true));
        [apply deficit_existente_passo | exact Hd]. }
    apply adicionar_lancamento_inv in E
      as (_ & _ & l' & g1 & g2 & g3 & He & Hg3 & -> & _).
    unfold etapa_deficit in Hg3.
    rewrite (deficit_existente_pos _ _ _ _ _ _ He), Hd', andb_false_r in Hg3.
    subst g3. rewrite app_nil_r.
    eapply etapa_despesa_sem_deficit; eauto.
  - intros m a previstas id env self ops H.
    apply OrcamentoMensal_init_vazio in H as (_ & Hal & _).
    apply (invariante_varias (fun s => (conta_deficit s <= 1)%nat)).
    + apply conta_deficit_executar.
    + unfold conta_deficit. rewrite Hal. simpl. lia.
Qed.

End Propriedades.

(** * The scenarios, run with the ASCII methods *)

#[global] Existing Instance interp_ascii.

(** The check on an expense just built over the limit, called twice. *)
Lemma verificar_limite_categoria_correto_witness :
  let r1 := verificar_limite_categoria despesa_200 400%float in
  r1.1 = true
  /\ conta_tag "LIMITE_EXCEDIDO"
       (d_alertas (verificar_limite_categoria r1.2 400%float).2) = 1%nat.
Proof.
  cbv zeta.
  pose proof (verificar_limite_categoria_correto despesa_200 400%float) as H.
  cbv zeta in H. destruct H as (_ & _ & _ & _ & _ & _ & H).
  split; [reflexivity |].
  apply H; [vm_compute; lia | reflexivity].
Defined.

(** An expense of 600.0 set to 100.0 keeps the tag. *)
Lemma alto_valor_so_na_construcao_witness :
  exists d d',
    Despesa_init 600%float cat_food (mkDate 2024 12 5) "Compra grande" CREDITO None (carimbo 0)
    = Ok d
    /\ Despesa_set_valor d 100%float = Ok d'
    /\ valor (d_campos d') = 100%float
    /\ str_in "ALTO_VALOR" (d_alertas d') = true.
Proof.
  eexists.
  destruct (alto_valor_so_na_construcao 600%float cat_food (mkDate 2024 12 5) "Compra grande"
              CREDITO None (carimbo 0) _ eq_refl) as (_ & Htag & Hset).
  destruct (Hset 100%float eq_refl) as (d' & Hd' & Hv & _ & Htag').
  exists d'. split; [reflexivity |]. split; [exact Hd' |]. split; [exact Hv |].
  apply Htag'. reflexivity.
Defined.

(** An expense of 100.0 set to 600.0 does not gain the tag. *)
Lemma alto_valor_nao_acrescentado :
  exists d d',
    Despesa_init 100%float cat_food (mkDate 2024 12 5) "Compra" CREDITO None (carimbo 0) = Ok d
    /\ Despesa_set_valor d 600%float = Ok d'
    /\ valor (d_campos d') = 600%float
    /\ d_alertas d' = [].
Proof. do 2 eexists. repeat split; reflexivity. Qed.

(** A hash that is the length of the identifier already separates two. *)
Lemma hash_nao_segue_igualdade_witness :
  exists c1 c2 : Categoria,
    Categoria_eq c1 c2 = true
    /\ cat_in c2 [c1] = true
    /\ cat_in_set (fun s => Z.of_nat (String.length s)) c2 [c1] = false.
Proof.
  destruct (hash_nao_segue_igualdade (fun s => Z.of_nat (String.length s)) "a" "bb")
    as [(c1 & c2 & _ & _ & Heq & _ & Hin & Hset) _].
  - vm_compute. discriminate.
  - exists c1, c2. auto.
Defined.

(** An expense that repeats date and description of an entry already held,
    under another identifier and another amount, is refused and the budget
    stays as it was. *)
Lemma adicionar_lancamento_rejeita_witness :
  exists msg, adicionar_lancamento carimbo (EhDespesa despesa_repetida) dezembro_1
              = (Raise (ValueError msg), dezembro_1).
Proof.
  apply adicionar_lancamento_rejeita. right.
  exists (EhDespesa despesa_400). split.
  - replace (lancamentos dezembro_1) with [EhDespesa despesa_400]
      by (vm_compute; reflexivity).
    constructor.
  - right. split; reflexivity.
Defined.

(** An expense dated January 2025 does not enter the budget of December 2024. *)
Lemma adicionar_lancamento_rejeita_outro_mes :
  adicionar_lancamento carimbo (EhDespesa despesa_janeiro) dezembro_1
  = (Raise (ValueError "Lançamento de 01/2025 não pertence ao orçamento de 12/2024."),
     dezembro_1).
Proof. vm_compute. reflexivity. Qed.

(** Three deficit-causing insertions, the last one refused: one alert. *)
Lemma no_maximo_um_alerta_deficit_witness :
  (conta_deficit
     (adicionar_varios [ (carimbo, EhDespesa despesa_400);
                         (carimbo, EhDespesa despesa_200);
                         (carimbo, EhDespesa despesa_repetida) ] dezembro) <= 1)%nat.
Proof.
  apply (no_maximo_um_alerta_deficit 12 2024 5000%float (Some "o-1") (carimbo 0)).
  reflexivity.
Defined.

Example um_alerta_deficit_em_dezembro :
  conta_deficit
    (adicionar_varios [ (carimbo, EhDespesa despesa_400);
                        (carimbo, EhDespesa despesa_200);
                        (carimbo, EhDespesa despesa_repetida) ] dezembro) = 1%nat
  /\ tem_deficit
       (adicionar_varios [ (carimbo, EhDespesa despesa_400);
                           (carimbo, EhDespesa despesa_200) ] dezembro) = true.
Proof. split; vm_compute; reflexivity. Qed.

(** The second insertion of the scenario, read through the theorem: only the
    limit step fires. *)
Lemma adicionar_lancamento_alertas_witness :
  adicionar_lancamento carimbo (EhDespesa despesa_200) dezembro_1
  = (Ok [alerta_limite_food],
     (adicionar_lancamento carimbo (EhDespesa despesa_200) dezembro_1).2)
  /\ map alerta_tipo [alerta_limite_food] = tipos_esperados false true false.
Proof.
  assert (E : adicionar_lancamento carimbo (EhDespesa despesa_200) dezembro_1
              = (Ok [alerta_limite_food],
                 (adicionar_lancamento carimbo (EhDespesa despesa_200) dezembro_1).2)).
  { vm_compute. reflexivity. }
  split; [exact E |].
  pose proof (proj1 adicionar_lancamento_alertas carimbo dezembro_1 despesa_200 _ _ E) as H.
  cbv zeta in H. destruct H as [H _].
  vm_compute in H. vm_compute. exact H.
Defined.

(** The first insertion of the scenario does not return an empty list: the
    budget has no income, so the expense of 400.0 puts it in deficit. *)
Lemma primeira_insercao_gera_alerta :
  (adicionar_lancamento carimbo (EhDespesa despesa_400) dezembro).1 <> Ok [].
Proof. vm_compute. discriminate. Qed.

(** The objects of the scenario are the ones the constructors build. *)
Lemma cenario_construido :
  Categoria_init "Food" DESPESA (Some 500%float) None (Some "c-food") (carimbo 0) = Ok cat_food
  /\ Despesa_init 400%float cat_food (mkDate 2024 12 5) "Compra 1" DEBITO (Some "l-1")
       (carimbo 0) = Ok despesa_400
  /\ Despesa_init 200%float cat_food (mkDate 2024 12 10) "Compra 2" DEBITO (Some "l-2")
       (carimbo 0) = Ok despesa_200
  /\ OrcamentoMensal_init 12 2024 5000%float (Some "o-1") (carimbo 0) = Ok dezembro.
Proof. repeat split; reflexivity. Qed.

(** The limit alert of the scenario. *)
Lemma alerta_limite_so_liga_categoria_witness :
  categoria_id alerta_limite_food = Some "c-food"
  /\ lancamento_id alerta_limite_food = None
  /\ alerta_mes_ano alerta_limite_food = None.
Proof.
  apply (alerta_limite_so_liga_categoria carimbo dezembro_1 (EhDespesa despesa_200)
           [alerta_limite_food]
           (adicionar_lancamento carimbo (EhDespesa despesa_200) dezembro_1).2).
  - vm_compute. reflexivity.
  - constructor.
  - reflexivity.
Defined.

(** The entry of the limit scenario, found again with the tag it gained. *)
Lemma buscar_apos_adicionar_witness :
  buscar_lancamento "l-2" (adicionar_lancamento carimbo (EhDespesa despesa_200) dezembro_1).2
  = Some (EhDespesa (mkDespesa (d_campos despesa_200) ["LIMITE_EXCEDIDO"]))
  /\ Orcamento_len (adicionar_lancamento carimbo (EhDespesa despesa_200) dezembro_1).2
     = S (Orcamento_len dezembro_1).
Proof.
  assert (E : adicionar_lancamento carimbo (EhDespesa despesa_200) dezembro_1
              = (Ok [alerta_limite_food],
                 (adicionar_lancamento carimbo (EhDespesa despesa_200) dezembro_1).2)).
  { vm_compute. reflexivity. }
  destruct (buscar_apos_adicionar _ _ _ _ _ E) as (_ & _ & Hlen).
  split; [vm_compute; reflexivity | exact Hlen].
Defined.

Lemma adicionar_duas_vezes_witness :
  adicionar_lancamento carimbo (EhDespesa despesa_400) dezembro_1
  = (Raise (ValueError "Lançamento já existe neste orçamento."), dezembro_1).
Proof.
  apply (adicionar_duas_vezes carimbo carimbo (EhDespesa despesa_400) dezembro
           [alerta_deficit_dezembro]).
  vm_compute. reflexivity.
Defined.

Lemma remover_apos_adicionar_witness :
  exists l' self'',
    remover_lancamento "l-1" dezembro_1 = (Ok (Some l'), self'')
    /\ campos l' = d_campos despesa_400
    /\ (ordem_fraca Lancamento_lt (lancamentos dezembro ++ [l']) ->
        lancamentos self'' = sort Lancamento_lt (lancamentos dezembro))
    /\ lancamentos self'' ≡ₚ lancamentos dezembro
    /\ alertas self'' = alertas dezembro ++ [alerta_deficit_dezembro]
    /\ mes_ano self'' = mes_ano dezembro.
Proof.
  apply (remover_apos_adicionar carimbo (EhDespesa despesa_400) dezembro
           [alerta_deficit_dezembro] dezembro_1).
  vm_compute. reflexivity.
Defined.

Lemma lancamentos_do_mes_witness :
  let fim := executar_varias dezembro
               [ Adicionar carimbo (EhDespesa despesa_400);
                 Adicionar carimbo (EhDespesa despesa_janeiro);
                 Adicionar carimbo (EhDespesa despesa_200);
                 Remover "l-1" ] in
  mes_ano fim = (12, 2024)
  /\ Forall (fun l => month (data (campos l)) = 12 /\ year (data (campos l)) = 2024)
            (lancamentos fim).
Proof.
  apply (lancamentos_do_mes 12 2024 5000%float (Some "o-1") (carimbo 0)).
  reflexivity.
Defined.

Lemma lancamentos_sem_repetidos_witness :
  let ls := lancamentos (executar_varias dezembro
                           [ Adicionar carimbo (EhDespesa despesa_400);
                             Adicionar carimbo (EhDespesa despesa_repetida);
                             Adicionar carimbo (EhDespesa despesa_200);
                             Adicionar carimbo (EhDespesa despesa_400) ]) in
  NoDup (map (fun e => lanc_id (campos e)) ls)
  /\ NoDup (map (fun e => (data (campos e), lower (descricao (campos e)))) ls)
  /\ forall i j l1 l2, ls !! i = Some l1 -> ls !! j = Some l2 -> i <> j ->
                       Lancamento_eq l1 l2 = false.
Proof.
  apply (lancamentos_sem_repetidos 12 2024 5000%float (Some "o-1") (carimbo 0)).
  reflexivity.
Defined.

Lemma lancamentos_em_ordem_de_data_witness :
  Sorted nao_depois
    (lancamentos (executar_varias dezembro
                    [ Adicionar carimbo (EhDespesa despesa_200);
                      Adicionar carimbo (EhDespesa despesa_400);
                      Remover "l-2";
                      Adicionar carimbo (EhDespesa despesa_repetida) ])).
Proof.
  apply (proj2 lancamentos_em_ordem_de_data 12 2024 5000%float (Some "o-1") (carimbo 0)).
  reflexivity.
Defined.

Lemma deficit_sempre_registrado_witness :
  deficit_existente (adicionar_lancamento carimbo (EhDespesa despesa_200) dezembro_1).2 = true.
Proof.
  apply (deficit_sempre_registrado carimbo (EhDespesa despesa_200) dezembro_1
           [alerta_limite_food]).
  - vm_compute. reflexivity.
  - vm_compute. reflexivity.
Defined.

Lemma alertas_de_uma_insercao_witness :
  map alerta_tipo [alerta_deficit_dezembro]
    `sublist_of` [ALTO_VALOR; LIMITE_EXCEDIDO; DEFICIT_ORCAMENTARIO]
  /\ (length [alerta_deficit_dezembro] <= 3)%nat.
Proof.
  destruct (alertas_de_uma_insercao carimbo (EhDespesa despesa_400) dezembro
              [alerta_deficit_dezembro] dezembro_1) as (H1 & _ & H3 & _).
  - vm_compute. reflexivity.
  - split; [exact H1 | exact H3].
Defined.

Lemma receitas_previstas_nao_influi_witness :
  (adicionar_lancamento carimbo (EhDespesa despesa_400)
     (mkOrcamento "o-1" 12 2024 0%float [] [])).1
  = (adicionar_lancamento carimbo (EhDespesa despesa_400) dezembro).1.
Proof.
  destruct (receitas_previstas_nao_influi carimbo (EhDespesa despesa_400) dezembro
              (mkOrcamento "o-1" 12 2024 0%float [] []) 0%float eq_refl)
    as (_ & _ & H & _).
  exact H.
Defined.

Lemma Orcamento_set_mes_nao_verifica_witness :
  exists self',
    Orcamento_set_mes dezembro_1 11 = Ok self'
    /\ lancamentos self' = lancamentos dezembro_1
    /\ alertas self' = alertas dezembro_1
    /\ mes_ano self' = (11, ano dezembro_1)
    /\ mes_ano_de (EhDespesa despesa_400) <> mes_ano self'.
Proof.
  apply Orcamento_set_mes_nao_verifica.
  - replace (lancamentos dezembro_1) with [EhDespesa despesa_400]
      by (vm_compute; reflexivity).
    constructor.
  - reflexivity.
  - lia.
  - vm_compute. discriminate.
Defined.

Lemma Despesa_invariantes_witness :
  despesa_integra "l-9"
    (aplicar_ops (mkDespesa (mkCampos "l-9" 600%float cat_food (mkDate 2024 12 5)
                               "Compra grande" CREDITO) ["ALTO_VALOR"])
       [ DVerificarLimite 0%float; DValor 100%float; DVerificarLimite 450%float;
         DCategoria cat_salary; DValor 0%float ]).
Proof.
  apply (Despesa_invariantes 600%float cat_food (mkDate 2024 12 5) "Compra grande" CREDITO
           (Some "l-9") (carimbo 0)).
  reflexivity.
Defined.

Lemma Categoria_dict_ida_e_volta_witness :
  Categoria_from_dict (fun s => s) (Categoria_to_dict cat_food) (carimbo 7) = Ok cat_food.
Proof.
  apply (proj1 Categoria_dict_ida_e_volta).
  unfold categoria_bem_formada. simpl. repeat split. discriminate.
Defined.

Lemma Categoria_receita_com_limite_nao_recarrega_witness :
  exists c c',
    Categoria_init "Mercado" DESPESA (Some 100%float) None (Some "c-1") (carimbo 0) = Ok c
    /\ Categoria_set_tipo c RECEITA = Ok c'
    /\ Categoria_from_dict (fun s => s) (Categoria_to_dict c') (carimbo 1)
       = Raise (ValueError "Categorias de receita não podem ter limite de gastos.").
Proof.
  do 2 eexists. split; [reflexivity |]. split; [reflexivity |].
  apply (Categoria_receita_com_limite_nao_recarrega (fun s => s) _ 100%float);
    reflexivity.
Defined.

Lemma Orcamento_dict_ida_e_volta_witness :
  Orcamento_from_dict (Orcamento_to_dict dezembro_1) (carimbo 9) = Ok dezembro
  /\ od_lancamentos_ids (Orcamento_to_dict dezembro_1) = ["l-1"].
Proof.
  destruct (Orcamento_dict_ida_e_volta 12 2024 5000%float (Some "o-1") (carimbo 0)
              (carimbo 9) dezembro [Adicionar carimbo (EhDespesa despesa_400)]
              eq_refl eq_refl) as [H1 H2].
  split; [exact H1 |]. vm_compute. reflexivity.
Defined.

Lemma descricao_so_de_espacos_witness :
  Despesa_init 10%float cat_food (mkDate 2024 12 5) "   " PIX (Some "l-7") (carimbo 0)
  = Ok (mkDespesa (mkCampos "l-7" 10%float cat_food (mkDate 2024 12 5) "" PIX) []).
Proof.
  unfold Despesa_init.
  rewrite (proj1 (descricao_so_de_espacos Despesa_validar_categoria 10%float cat_food
                    (mkDate 2024 12 5) "   " PIX (Some "l-7") (carimbo 0)
                    eq_refl eq_refl eq_refl eq_refl)).
  reflexivity.
Defined.

Lemma criar_categoria_duplica_com_espacos_witness :
  criar_categoria "Food " DESPESA None None (carimbo 3) [cat_food]
  = (Ok (mkCategoria "uuid-3" "Food" DESPESA None None),
     [cat_food; mkCategoria "uuid-3" "Food" DESPESA None None])
  /\ Categoria_eq cat_food (mkCategoria "uuid-3" "Food" DESPESA None None) = true.
Proof.
  destruct (criar_categoria_duplica_com_espacos "Food " DESPESA None None (carimbo 3)
              [cat_food] cat_food (mkCategoria "uuid-3" "Food" DESPESA None None))
    as (H1 & H2 & _).
  - constructor.
  - reflexivity.
  - reflexivity.
  - intros c1 Hc1 _. apply list_elem_of_singleton in Hc1 as ->. vm_compute. discriminate.
  - reflexivity.
  - split; [exact H1 | exact H2].
Defined.

(** After the first expense the log of December holds the deficit alert;
    the expense is removed, an income and a larger expense follow, and the
    second deficit goes without an alert. *)
Lemma deficit_alertado_uma_so_vez_witness :
  let antes := executar_varias dezembro_1
                 [ Remover "l-1";
                   Adicionar carimbo
                     (EhReceita (mkCampos "r-1" 100%float cat_salary (mkDate 2024 12 1)
                                   "Salario" PIX)) ] in
  tem_deficit antes = false
  /\ tem_deficit (adicionar_lancamento carimbo (EhDespesa despesa_200) antes).2 = true
  /\ Forall (fun a => alerta_tipo a <> DEFICIT_ORCAMENTARIO)
            (match (adicionar_lancamento carimbo (EhDespesa despesa_200) antes).1 with
             | Ok alerts => alerts
             | Raise _ => []
             end).
Proof.
  cbv zeta. split; [vm_compute; reflexivity |]. split; [vm_compute; reflexivity |].
  set (antes := executar_varias dezembro_1 _).
  destruct (adicionar_lancamento carimbo (EhDespesa despesa_200) antes)
    as [[alerts | e] s] eqn:E; [| constructor].
  simpl. subst antes.
  eapply (proj1 deficit_alertado_uma_so_vez dezembro_1); [| exact E].
  vm_compute. reflexivity.
Defined.
